(** * quadro2: sensor-fusion core and remote telemetry core

    A shallow embedding of [src/sensing/sensors.c] and [src/remote/remote.h]
    and the properties of their specification.

    - C [float] is IEEE 754 binary32, taken from the Standard Library's
      executable [SpecFloat] at precision 24 and exponent bound 128.
    - [int64_t] time stamps are integers in [Z]; [uint8_t] fields are [Z]
      with the wrap-around modulo 256 written out at every store.
    - Each task body is one iteration of its [while (true)] loop, as a
      function from the task's state to the new state and the list of the
      calls it made to the outside (library calls, log lines, sends). *)

From Stdlib Require Import ZArith Lia Bool List Sorted String Ascii Strings.Byte Floats.SpecFloat.
From stdpp Require Import base option list gmap.

Local Open Scope Z_scope.

(** ** binary32 arithmetic *)

Module F32.

Definition prec : Z := 24.
Definition emax : Z := 128.

Definition t : Type := spec_float.

Definition add : t -> t -> t := SFadd prec emax.
Definition mul : t -> t -> t := SFmul prec emax.
Definition div : t -> t -> t := SFdiv prec emax.
Definition opp : t -> t := SFopp.
(** [fabsf] *)
Definition abs : t -> t := SFabs.
(** [a < b] and [a == b] of C: false as soon as one side is a NaN *)
Definition ltb : t -> t -> bool := SFltb.
Definition eqb : t -> t -> bool := SFeqb.

(** conversion of an integer to [float], round to nearest even *)
Definition of_Z (n : Z) : t := binary_normalize prec emax n 0 false.

Definition zero : t := S754_zero false.
Definition one : t := S754_finite false 8388608 (-23).
Definition half : t := S754_finite false 8388608 (-24).
Definition quarter : t := S754_finite false 8388608 (-25).
Definition three : t := S754_finite false 12582912 (-22).
Definition four : t := S754_finite false 8388608 (-21).
Definition thousand : t := S754_finite false 16384000 (-14).

(** a zero or a finite number of the format: neither infinite nor NaN *)
Definition is_finite (x : t) : bool :=
  match x with
  | S754_zero _ => true
  | S754_finite _ m e => bounded prec emax m e
  | _ => false
  end.

Definition is_zero (x : t) : bool :=
  match x with
  | S754_zero _ => true
  | _ => false
  end.

(** a zero or a finite mantissa and exponent, of the format or not *)
Definition is_number (x : t) : bool :=
  match x with
  | S754_zero _ | S754_finite _ _ _ => true
  | _ => false
  end.

(** the zeros compare equal in C: the positive zero stands for both *)
Definition canon (x : t) : t :=
  match x with
  | S754_zero _ => zero
  | _ => x
  end.

End F32.

Abbreviation f32 := F32.t.

(** ** The EKF engine's matrices (eekf.h)

    The engine is an external library; the fusers use its matrix type, the
    element macro, the two declaration macros and the two matrix primitives
    called by the transition callbacks. *)

Record eekf_mat : Type := {
  rows : nat;
  cols : nat;
  elements : list f32
}.

(** Modelled from the spec: [EEKF_MAT_EL] of eekf.h, the element at row [r]
    and column [c] of a dense matrix stored column after column. *)
Definition EEKF_MAT_EL (m : eekf_mat) (r c : nat) : nat := (r + c * rows m)%nat.

(** reading the element [EEKF_MAT_EL(m, r, c)] *)
Definition mat_get (m : eekf_mat) (r c : nat) : f32 :=
  default F32.zero (elements m !! EEKF_MAT_EL m r c).

(** storing [v] into the element [EEKF_MAT_EL(m, r, c)] *)
Definition mat_set (m : eekf_mat) (r c : nat) (v : f32) : eekf_mat :=
  {| rows := rows m; cols := cols m;
     elements := <[EEKF_MAT_EL m r c := v]> (elements m) |}.

(** Modelled from the spec: [EEKF_DECL_MAT_INIT(name, r, c, v...)] of eekf.h,
    an [r]x[c] matrix whose elements start with the given values; as for
    every C initialiser the elements not listed are zero.
    [EEKF_CALLOC_MATRIX] is the case of no value. *)
Definition EEKF_DECL_MAT_INIT (r c : nat) (vs : list f32) : eekf_mat :=
  {| rows := r; cols := c;
     elements := take (r * c) (vs ++ replicate (r * c) F32.zero) |}.

Definition EEKF_CALLOC_MATRIX (r c : nat) : eekf_mat := EEKF_DECL_MAT_INIT r c [].

(** the shape of a matrix *)
Definition mat_shape (m : eekf_mat) (r c : nat) : Prop :=
  rows m = r /\ cols m = c /\ length (elements m) = (r * c)%nat.

(** Modelled from the spec: the matrix primitives of eekf.h (the engine is not
    under src/), "fixed-shape dense matrix multiply, add [...] producing
    results by reference; failure signalled via a nullable result handle".
    The destination [C] keeps its shape; [None] is the null handle returned
    when the shapes do not fit. Each entry of a product is accumulated from
    zero in the order of the inner index. *)
Definition mat_dot (A B : eekf_mat) (r c : nat) : f32 :=
  foldl (fun acc k => F32.add acc (F32.mul (mat_get A r k) (mat_get B k c)))
        F32.zero (seq 0 (cols A)).

Definition eekf_mat_mul (C A B : eekf_mat) : option eekf_mat :=
  if decide (cols A = rows B /\ rows C = rows A /\ cols C = cols B) then
    Some {| rows := rows C; cols := cols C;
            elements := c ← seq 0 (cols B); r ← seq 0 (rows A); [mat_dot A B r c] |}
  else None.

Definition eekf_mat_add (C A B : eekf_mat) : option eekf_mat :=
  if decide (rows A = rows B /\ cols A = cols B /\ rows C = rows A /\ cols C = cols A) then
    Some {| rows := rows C; cols := cols C;
            elements := c ← seq 0 (cols A); r ← seq 0 (rows A);
                        [F32.add (mat_get A r c) (mat_get B r c)] |}
  else None.

Inductive eekf_return : Type :=
  | eEekfReturnOk
  | eEekfReturnParameterError
  | eEekfReturnCallbackFailed
  | eEekfReturnComputationFailed.

#[global] Instance eekf_return_eq_dec : EqDecision eekf_return.
Proof. solve_decision. Defined.

(** ** Sensor events (sensor_types.h) *)

(** Modelled from the spec: the tags of a measurement event, in the order of
    the declaration in sensor_types.h, which is not under src/ ("variant tag
    in {ACCELERATION, ORIENTATION, ALTIMETER, ULTRASONIC, POSITION,
    GROUNDSPEED}"); [SENSORS_MAX] closes the enumeration. *)
Inductive sensors_input_type_t : Type :=
  | SENSORS_ACCELERATION
  | SENSORS_ORIENTATION
  | SENSORS_ALTIMETER
  | SENSORS_ULTRASONIC
  | SENSORS_POSITION
  | SENSORS_GROUNDSPEED.

#[global] Instance sensors_input_type_eq_dec : EqDecision sensors_input_type_t.
Proof. solve_decision. Defined.

(** the value of a tag as an array index *)
Definition sensors_type_index (ty : sensors_input_type_t) : nat :=
  match ty with
  | SENSORS_ACCELERATION => 0
  | SENSORS_ORIENTATION => 1
  | SENSORS_ALTIMETER => 2
  | SENSORS_ULTRASONIC => 3
  | SENSORS_POSITION => 4
  | SENSORS_GROUNDSPEED => 5
  end.

Definition SENSORS_MAX : nat := 6.

Record vector_t : Type := { vec_x : f32; vec_y : f32; vec_z : f32 }.

Record orientation_t : Type := { ori_i : f32; ori_j : f32; ori_k : f32; ori_real : f32 }.

(** the payload union of an event: a vector, a quaternion or a distance *)
Inductive sensors_payload : Type :=
  | payload_vector (v : vector_t)
  | payload_orientation (q : orientation_t)
  | payload_distance (d : f32).

Record sensors_input_t : Type := {
  input_type : sensors_input_type_t;
  input_timestamp : Z;
  input_payload : sensors_payload;
  input_accuracy : f32
}.

(** [input.vector] and [input.distance]; an event carries the member that
    goes with its tag, another member reads as zero here. *)
Definition input_vector (i : sensors_input_t) : vector_t :=
  match input_payload i with
  | payload_vector v => v
  | _ => {| vec_x := F32.zero; vec_y := F32.zero; vec_z := F32.zero |}
  end.

Definition input_distance (i : sensors_input_t) : f32 :=
  match input_payload i with
  | payload_distance d => d
  | _ => F32.zero
  end.

(** ** The EKF context (eekf.h) *)

(** What [void* userData] points to: nothing after [eekf_init], the [float dt]
    of a prediction or the [type] of a correction. *)
Inductive userData_t : Type :=
  | userData_NULL
  | userData_float (dt : f32)
  | userData_type (ty : sensors_input_type_t).

(** [userData] read through a [float] pointer and through a pointer to a tag;
    the fusers store a [float] before every prediction and a tag before every
    correction, the other reads are given the zero of the type. *)
Definition userData_as_float (ud : userData_t) : f32 :=
  match ud with
  | userData_float dt => dt
  | _ => F32.zero
  end.

Definition userData_as_type (ud : userData_t) : sensors_input_type_t :=
  match ud with
  | userData_type ty => ty
  | _ => SENSORS_ACCELERATION
  end.

(** A callback gets its output matrices by reference and returns them with
    its status: [f(xp, Jf, x, u, userData)] and [h(zp, Jh, x, userData)]. *)
Definition eekf_fun_f : Type :=
  eekf_mat -> eekf_mat -> eekf_mat -> eekf_mat -> userData_t ->
  eekf_return * eekf_mat * eekf_mat.

Definition eekf_fun_h : Type :=
  eekf_mat -> eekf_mat -> eekf_mat -> userData_t ->
  eekf_return * eekf_mat * eekf_mat.

(** [eekf_context]. Its [x] and [P] point to the fuser's own [x] and [P]:
    the two are one object, kept here. *)
Record eekf_context : Type := {
  ctx_x : eekf_mat;
  ctx_P : eekf_mat;
  ctx_f : eekf_fun_f;
  ctx_h : eekf_fun_h;
  ctx_userData : userData_t
}.

Definition set_userData (ud : userData_t) (c : eekf_context) : eekf_context :=
  {| ctx_x := ctx_x c; ctx_P := ctx_P c; ctx_f := ctx_f c; ctx_h := ctx_h c;
     ctx_userData := ud |}.

Definition set_x (x : eekf_mat) (c : eekf_context) : eekf_context :=
  {| ctx_x := x; ctx_P := ctx_P c; ctx_f := ctx_f c; ctx_h := ctx_h c;
     ctx_userData := ctx_userData c |}.

Definition set_P (P : eekf_mat) (c : eekf_context) : eekf_context :=
  {| ctx_x := ctx_x c; ctx_P := P; ctx_f := ctx_f c; ctx_h := ctx_h c;
     ctx_userData := ctx_userData c |}.

(** [eekf_init(ctx, x, P, f, h, userData)] *)
Definition eekf_init (x P : eekf_mat) (f : eekf_fun_f) (h : eekf_fun_h)
    (ud : userData_t) : eekf_context :=
  {| ctx_x := x; ctx_P := P; ctx_f := f; ctx_h := h; ctx_userData := ud |}.

(** ** sensors.c: state *)

(** One member [Z], [Y] or [X] of [struct sensors_t]; its [x] and [P] are
    those of [ekf]. A trailing underscore marks a C name that is taken here. *)
Record axis_t : Type := {
  ekf : eekf_context;
  z_ : eekf_mat;
  lastTimestamp : Z
}.

Definition set_ekf (c : eekf_context) (a : axis_t) : axis_t :=
  {| ekf := c; z_ := z_ a; lastTimestamp := lastTimestamp a |}.

Definition set_z (m : eekf_mat) (a : axis_t) : axis_t :=
  {| ekf := ekf a; z_ := m; lastTimestamp := lastTimestamp a |}.

Definition set_lastTimestamp (ts : Z) (a : axis_t) : axis_t :=
  {| ekf := ekf a; z_ := z_ a; lastTimestamp := ts |}.

Record sensors_t : Type := {
  timeouts : list Z;
  Z_ : axis_t;
  Y_ : axis_t;
  X_ : axis_t
}.

Inductive esp_log_level_t : Type :=
  | ESP_LOG_ERROR
  | ESP_LOG_INFO
  | ESP_LOG_DEBUG
  | ESP_LOG_VERBOSE.

(** What the sensor code calls outside itself, in the order of the calls.
    A log line is recorded with its format, not with its arguments. *)
Inductive sensors_call : Type :=
  | call_eekf_predict (ctx : eekf_context) (u Q : eekf_mat)
  | call_eekf_lazy_correct (ctx : eekf_context) (z R : eekf_mat)
  | call_ESP_LOG (lvl : esp_log_level_t) (fmt : string)
  | call_xQueueReset.

(** The tuning constants of sensors.h, which is not under src/: they are
    parameters of the fusers. *)
Record sensors_config : Type := {
  SENSORS_FUSE_Z_ERROR_ACCELERATION : f32;
  SENSORS_FUSE_Z_ERROR_ULTRASONIC : f32;
  SENSORS_FUSE_Z_ERROR_BAROMETER : f32;
  SENSORS_FUSE_Z_ERROR_GPS : f32;
  SENSORS_FUSE_Z_LIMIT_VEL : f32;
  SENSORS_FUSE_Y_ERROR_ACCELERATION : f32;
  SENSORS_FUSE_Y_ERROR_GPS : f32;
  SENSORS_FUSE_Y_ERROR_VELOCITY : f32;
  SENSORS_FUSE_Y_LIMIT_VEL : f32;
  SENSORS_FUSE_X_ERROR_ACCELERATION : f32;
  SENSORS_FUSE_X_ERROR_GPS : f32;
  SENSORS_FUSE_X_LIMIT_VEL : f32;
  SENSORS_TIMEOUT_MS : Z
}.

(** ** sensors.c: the axis fusers *)

Section Fusers.

Variable cfg : sensors_config.

(** [powf] of the C library *)
Variable powf : f32 -> f32 -> f32.

(** The two entry points of the EKF engine, an external library: they are
    parameters. Each returns its status and the context it leaves. *)
Variable eekf_predict :
  eekf_context -> eekf_mat -> eekf_mat -> eekf_return * eekf_context.
Variable eekf_lazy_correct :
  eekf_context -> eekf_mat -> eekf_mat -> eekf_return * eekf_context.

(** *** Z: altitude

    In the three fusers [EEKF_DECL_MAT(Q, 2, 2)] declares [Q] without values;
    its four elements are stored before it is used. *)

Definition sensors_fuseZ_reset (s : axis_t) : axis_t :=
  let x := mat_set (mat_set (ctx_x (ekf s)) 0 0 F32.zero) 1 0 F32.zero in
  let P := mat_set (mat_set (mat_set (mat_set (ctx_P (ekf s))
             0 0 F32.zero) 0 1 F32.zero) 1 0 F32.zero) 1 1 F32.one in
  let z := mat_set (mat_set (mat_set (z_ s) 0 0 F32.zero) 1 0 F32.zero) 2 0 F32.zero in
  set_z z (set_ekf (set_P P (set_x x (ekf s))) s).

Definition sensors_fuseZ (type : sensors_input_type_t) (z : f32) (timestamp : Z)
    (s : axis_t) : axis_t * list sensors_call :=
  if decide (type = SENSORS_ACCELERATION) then
    (* predict *)
    if timestamp <? lastTimestamp s then (s, []) (* late measurement: return *)
    else
      let dt := F32.div (F32.div (F32.of_Z (timestamp - lastTimestamp s))
                                 F32.thousand) F32.thousand in
      let s := set_lastTimestamp timestamp s in
      let s := set_ekf (set_userData (userData_float dt) (ekf s)) s in
      let u := EEKF_DECL_MAT_INIT 1 1 [z] in
      let z := F32.add (F32.abs z) (SENSORS_FUSE_Z_ERROR_ACCELERATION cfg) in
      let Q := EEKF_CALLOC_MATRIX 2 2 in
      let Q := mat_set Q 0 0 (F32.mul (F32.mul F32.quarter z) (powf dt F32.four)) in
      let Q := mat_set Q 0 1 (F32.mul (F32.mul F32.half z) (powf dt F32.three)) in
      let Q := mat_set Q 1 0 (F32.mul (F32.mul F32.half z) (powf dt F32.three)) in
      let Q := mat_set Q 1 1 (F32.mul (F32.mul z dt) dt) in
      let '(ret, c) := eekf_predict (ekf s) u Q in
      (set_ekf c s,
       [call_eekf_predict (ekf s) u Q]
       ++ (if decide (ret = eEekfReturnOk) then []
           else [call_ESP_LOG ESP_LOG_ERROR "fuseZ predict error: %u"])
       ++ [call_ESP_LOG ESP_LOG_DEBUG "Fz,%f,%f,Z,%f,%f,%f"])
  else
    (* correct *)
    let s := set_ekf (set_userData (userData_type type) (ekf s)) s in
    let R := EEKF_DECL_MAT_INIT 3 3 [F32.zero] in
    let correct (s : axis_t) (R : eekf_mat) :=
      let '(ret, c) := eekf_lazy_correct (ekf s) (z_ s) R in
      (set_ekf c s,
       [call_eekf_lazy_correct (ekf s) (z_ s) R]
       ++ (if decide (ret = eEekfReturnOk) then []
           else [call_ESP_LOG ESP_LOG_ERROR "fuseZ correct error: %u"])
       ++ [call_ESP_LOG ESP_LOG_DEBUG "Fz,%f,%f,Z,%f,%f,%f"]) in
    match type with
    | SENSORS_ULTRASONIC =>
        let s := set_z (mat_set (z_ s) 0 0 z) s in
        let R := mat_set R 0 0 (SENSORS_FUSE_Z_ERROR_ULTRASONIC cfg) in
        correct s R (* break *)
    | SENSORS_ALTIMETER =>
        let s := set_z (mat_set (z_ s) 1 0 z) s in
        let R := mat_set R 1 1 (SENSORS_FUSE_Z_ERROR_BAROMETER cfg) in
        correct s R (* break *)
    | SENSORS_POSITION =>
        let s := set_z (mat_set (z_ s) 2 0 z) s in
        let R := mat_set R 2 2 (SENSORS_FUSE_Z_ERROR_GPS cfg) in
        (s, []) (* no break: the case runs into default, return *)
    | _ => (s, []) (* default: return *)
    end.

Definition sensors_fuseZ_transition : eekf_fun_f := fun xp Jf x u userData =>
  let dt := userData_as_float userData in
  let Jf := mat_set Jf 0 0 F32.one in
  let Jf := mat_set Jf 0 1 dt in
  let Jf := mat_set Jf 1 0 F32.zero in
  let Jf := mat_set Jf 1 1 F32.one in
  match eekf_mat_mul xp Jf x with
  | None => (eEekfReturnComputationFailed, xp, Jf)
  | Some xp =>
    let G := EEKF_DECL_MAT_INIT 2 1 [F32.mul (F32.mul F32.half dt) dt; dt] in
    let gu := EEKF_DECL_MAT_INIT 2 1 [F32.zero] in
    match eekf_mat_mul gu G u ≫= eekf_mat_add xp xp with
    | None => (eEekfReturnComputationFailed, xp, Jf)
    | Some xp =>
      let predictedVelocity := mat_get xp 1 0 in
      let xp :=
        if F32.ltb (SENSORS_FUSE_Z_LIMIT_VEL cfg) predictedVelocity
        then mat_set xp 1 0 (SENSORS_FUSE_Z_LIMIT_VEL cfg)
        else if F32.ltb predictedVelocity (F32.opp (SENSORS_FUSE_Z_LIMIT_VEL cfg))
        then mat_set xp 1 0 (F32.opp (SENSORS_FUSE_Z_LIMIT_VEL cfg))
        else xp in
      (eEekfReturnOk, xp, Jf)
    end
  end.

(** [memset(Jh->elements, 0, ...)] *)
Definition mat_clear (m : eekf_mat) : eekf_mat :=
  {| rows := rows m; cols := cols m;
     elements := replicate (rows m * cols m) F32.zero |}.

Definition sensors_fuseZ_measurement : eekf_fun_h := fun zp Jh x userData =>
  let type := userData_as_type userData in
  let Jh := mat_clear Jh in
  let project (Jh : eekf_mat) :=
    match eekf_mat_mul zp Jh x with
    | None => (eEekfReturnComputationFailed, zp, Jh)
    | Some zp => (eEekfReturnOk, zp, Jh)
    end in
  match type with
  | SENSORS_ULTRASONIC => project (mat_set Jh 0 0 F32.one)
  | SENSORS_ALTIMETER => project (mat_set Jh 1 0 F32.one)
  | SENSORS_POSITION => project (mat_set Jh 2 0 F32.one)
  | _ => (eEekfReturnParameterError, zp, Jh)
  end.

(** *** Y: latitude *)

Definition sensors_fuseY_reset (s : axis_t) : axis_t :=
  let x := mat_set (mat_set (ctx_x (ekf s)) 0 0 F32.zero) 1 0 F32.zero in
  let P := mat_set (mat_set (mat_set (mat_set (ctx_P (ekf s))
             0 0 F32.zero) 0 1 F32.zero) 1 0 F32.zero) 1 1 F32.one in
  let z := mat_set (z_ s) 0 0 F32.zero in
  set_z z (set_ekf (set_P P (set_x x (ekf s))) s).

(** The call of [eekf_lazy_correct] after the [switch] is never reached: no
    case ends in [break], every one runs into [default: return]. *)
Definition sensors_fuseY (type : sensors_input_type_t) (y : f32) (timestamp : Z)
    (s : axis_t) : axis_t * list sensors_call :=
  if decide (type = SENSORS_ACCELERATION) then
    (* predict *)
    if timestamp <? lastTimestamp s then (s, []) (* late measurement: return *)
    else
      let dt := F32.div (F32.div (F32.of_Z (timestamp - lastTimestamp s))
                                 F32.thousand) F32.thousand in
      let s := set_lastTimestamp timestamp s in
      let s := set_ekf (set_userData (userData_float dt) (ekf s)) s in
      let u := EEKF_DECL_MAT_INIT 1 1 [y] in
      let y := F32.add (F32.abs y) (SENSORS_FUSE_Y_ERROR_ACCELERATION cfg) in
      let Q := EEKF_CALLOC_MATRIX 2 2 in
      let Q := mat_set Q 0 0 (F32.mul (F32.mul F32.quarter y) (powf dt F32.four)) in
      let Q := mat_set Q 0 1 (F32.mul (F32.mul F32.half y) (powf dt F32.three)) in
      let Q := mat_set Q 1 0 (F32.mul (F32.mul F32.half y) (powf dt F32.three)) in
      let Q := mat_set Q 1 1 (F32.mul (F32.mul y dt) dt) in
      let '(ret, c) := eekf_predict (ekf s) u Q in
      (set_ekf c s,
       [call_eekf_predict (ekf s) u Q]
       ++ (if decide (ret = eEekfReturnOk) then []
           else [call_ESP_LOG ESP_LOG_ERROR "fuseY predict error: %u"])
       ++ [call_ESP_LOG ESP_LOG_DEBUG "Fy,%f,%f,Z,%f,%f"])
  else
    (* correct *)
    let s := set_ekf (set_userData (userData_type type) (ekf s)) s in
    let R := EEKF_DECL_MAT_INIT 2 2 [F32.zero] in
    match type with
    | SENSORS_POSITION =>
        let s := set_z (mat_set (z_ s) 0 0 y) s in
        let R := mat_set R 0 0 (SENSORS_FUSE_Y_ERROR_GPS cfg) in
        (* no break: the case runs into SENSORS_GROUNDSPEED *)
        let s := set_z (mat_set (z_ s) 1 0 y) s in
        let R := mat_set R 1 1 (SENSORS_FUSE_Y_ERROR_VELOCITY cfg) in
        (s, []) (* no break: default, return *)
    | SENSORS_GROUNDSPEED =>
        let s := set_z (mat_set (z_ s) 1 0 y) s in
        let R := mat_set R 1 1 (SENSORS_FUSE_Y_ERROR_VELOCITY cfg) in
        (s, []) (* no break: default, return *)
    | _ => (s, []) (* default: return *)
    end.

Definition sensors_fuseY_transition : eekf_fun_f := fun xp Jf x u userData =>
  let dt := userData_as_float userData in
  let Jf := mat_set Jf 0 0 F32.one in
  let Jf := mat_set Jf 0 1 dt in
  let Jf := mat_set Jf 1 0 F32.zero in
  let Jf := mat_set Jf 1 1 F32.one in
  match eekf_mat_mul xp Jf x with
  | None => (eEekfReturnComputationFailed, xp, Jf)
  | Some xp =>
    let G := EEKF_DECL_MAT_INIT 2 1 [F32.mul (F32.mul F32.half dt) dt; dt] in
    let gu := EEKF_DECL_MAT_INIT 2 1 [F32.zero] in
    match eekf_mat_mul gu G u ≫= eekf_mat_add xp xp with
    | None => (eEekfReturnComputationFailed, xp, Jf)
    | Some xp =>
      let predictedVelocity := mat_get xp 1 0 in
      let xp :=
        if F32.ltb (SENSORS_FUSE_Y_LIMIT_VEL cfg) predictedVelocity
        then mat_set xp 1 0 (SENSORS_FUSE_Y_LIMIT_VEL cfg)
        else if F32.ltb predictedVelocity (F32.opp (SENSORS_FUSE_Y_LIMIT_VEL cfg))
        then mat_set xp 1 0 (F32.opp (SENSORS_FUSE_Y_LIMIT_VEL cfg))
        else xp in
      (eEekfReturnOk, xp, Jf)
    end
  end.

Definition sensors_fuseY_measurement : eekf_fun_h := fun zp Jh x userData =>
  let type := userData_as_type userData in
  let Jh := mat_clear Jh in
  match type with
  | SENSORS_POSITION =>
      let Jh := mat_set Jh 0 0 F32.one in
      match eekf_mat_mul zp Jh x with
      | None => (eEekfReturnComputationFailed, zp, Jh)
      | Some zp => (eEekfReturnOk, zp, Jh)
      end
  | SENSORS_GROUNDSPEED =>
      (* no break: the case runs into default *)
      (eEekfReturnParameterError, zp, mat_set Jh 1 1 F32.one)
  | _ => (eEekfReturnParameterError, zp, Jh)
  end.

(** *** X: longitude *)

Definition sensors_fuseX_reset (s : axis_t) : axis_t :=
  let x := mat_set (mat_set (ctx_x (ekf s)) 0 0 F32.zero) 1 0 F32.zero in
  let P := mat_set (mat_set (mat_set (mat_set (ctx_P (ekf s))
             0 0 F32.zero) 0 1 F32.zero) 1 0 F32.zero) 1 1 F32.one in
  let z := mat_set (z_ s) 0 0 F32.zero in
  set_z z (set_ekf (set_P P (set_x x (ekf s))) s).

(** As for Y, the call of [eekf_lazy_correct] after the [switch] is never
    reached. *)
Definition sensors_fuseX (type : sensors_input_type_t) (x : f32) (timestamp : Z)
    (s : axis_t) : axis_t * list sensors_call :=
  if decide (type = SENSORS_ACCELERATION) then
    (* predict *)
    if timestamp <? lastTimestamp s then (s, []) (* late measurement: return *)
    else
      let dt := F32.div (F32.div (F32.of_Z (timestamp - lastTimestamp s))
                                 F32.thousand) F32.thousand in
      let s := set_lastTimestamp timestamp s in
      let s := set_ekf (set_userData (userData_float dt) (ekf s)) s in
      let u := EEKF_DECL_MAT_INIT 1 1 [x] in
      let x := F32.add (F32.abs x) (SENSORS_FUSE_X_ERROR_ACCELERATION cfg) in
      let Q := EEKF_CALLOC_MATRIX 2 2 in
      let Q := mat_set Q 0 0 (F32.mul (F32.mul F32.quarter x) (powf dt F32.four)) in
      let Q := mat_set Q 0 1 (F32.mul (F32.mul F32.half x) (powf dt F32.three)) in
      let Q := mat_set Q 1 0 (F32.mul (F32.mul F32.half x) (powf dt F32.three)) in
      let Q := mat_set Q 1 1 (F32.mul (F32.mul x dt) dt) in
      let '(ret, c) := eekf_predict (ekf s) u Q in
      (set_ekf c s,
       [call_eekf_predict (ekf s) u Q]
       ++ (if decide (ret = eEekfReturnOk) then []
           else [call_ESP_LOG ESP_LOG_ERROR "fuseX predict error: %u"])
       ++ [call_ESP_LOG ESP_LOG_DEBUG "Fx,%f,%f,Z,%f"])
  else
    (* correct *)
    let s := set_ekf (set_userData (userData_type type) (ekf s)) s in
    let R := EEKF_DECL_MAT_INIT 1 1 [F32.zero] in
    match type with
    | SENSORS_POSITION =>
        let s := set_z (mat_set (z_ s) 0 0 x) s in
        let R := mat_set R 0 0 (SENSORS_FUSE_X_ERROR_GPS cfg) in
        (s, []) (* no break: SENSORS_GROUNDSPEED, default, return *)
    | _ => (s, []) (* SENSORS_GROUNDSPEED and default: return *)
    end.

Definition sensors_fuseX_transition : eekf_fun_f := fun xp Jf x u userData =>
  let dt := userData_as_float userData in
  let Jf := mat_set Jf 0 0 F32.one in
  let Jf := mat_set Jf 0 1 dt in
  let Jf := mat_set Jf 1 0 F32.zero in
  let Jf := mat_set Jf 1 1 F32.one in
  match eekf_mat_mul xp Jf x with
  | None => (eEekfReturnComputationFailed, xp, Jf)
  | Some xp =>
    let G := EEKF_DECL_MAT_INIT 2 1 [F32.mul (F32.mul F32.half dt) dt; dt] in
    let gu := EEKF_DECL_MAT_INIT 2 1 [F32.zero] in
    match eekf_mat_mul gu G u ≫= eekf_mat_add xp xp with
    | None => (eEekfReturnComputationFailed, xp, Jf)
    | Some xp =>
      let predictedVelocity := mat_get xp 1 0 in
      let xp :=
        if F32.ltb (SENSORS_FUSE_X_LIMIT_VEL cfg) predictedVelocity
        then mat_set xp 1 0 (SENSORS_FUSE_X_LIMIT_VEL cfg)
        else if F32.ltb predictedVelocity (F32.opp (SENSORS_FUSE_X_LIMIT_VEL cfg))
        then mat_set xp 1 0 (F32.opp (SENSORS_FUSE_X_LIMIT_VEL cfg))
        else xp in
      (eEekfReturnOk, xp, Jf)
    end
  end.

Definition sensors_fuseX_measurement : eekf_fun_h := fun zp Jh x userData =>
  let type := userData_as_type userData in
  let Jh := mat_clear Jh in
  match type with
  | SENSORS_POSITION =>
      let Jh := mat_set Jh 0 0 F32.one in
      match eekf_mat_mul zp Jh x with
      | None => (eEekfReturnComputationFailed, zp, Jh)
      | Some zp => (eEekfReturnOk, zp, Jh)
      end
  | _ => (eEekfReturnParameterError, zp, Jh)
  end.

(** *** Initialisation and the supervisor task *)

(** The filter part of [sensors_init]: the matrices are allocated zeroed, the
    fusers are reset and bound to their callbacks; [lastTimestamp] and
    [timeouts] are zero as the whole of the static [sensors]. *)
Definition sensors_init : sensors_t :=
  let axis (nz : nat) (f : eekf_fun_f) (h : eekf_fun_h) :=
    {| ekf := eekf_init (EEKF_CALLOC_MATRIX 2 1) (EEKF_CALLOC_MATRIX 2 2) f h userData_NULL;
       z_ := EEKF_CALLOC_MATRIX nz 1;
       lastTimestamp := 0 |} in
  {| timeouts := replicate SENSORS_MAX 0;
     Z_ := sensors_fuseZ_reset (axis 3%nat sensors_fuseZ_transition sensors_fuseZ_measurement);
     Y_ := sensors_fuseY_reset (axis 2%nat sensors_fuseY_transition sensors_fuseY_measurement);
     X_ := sensors_fuseX_reset (axis 1%nat sensors_fuseX_transition sensors_fuseX_measurement) |}.

(** the fusion part of [sensors_setHome] *)
Definition sensors_setHome (s : sensors_t) : sensors_t :=
  {| timeouts := timeouts s;
     Z_ := sensors_fuseZ_reset (Z_ s);
     Y_ := sensors_fuseY_reset (Y_ s);
     X_ := sensors_fuseX_reset (X_ s) |}.

(** The task and the queue it reads, [xSensors_input] of 16 events. *)
Record sensors_state : Type := {
  sensors : sensors_t;
  xSensors_input : list sensors_input_t
}.

Definition xSensors_input_length : Z := 16.

(** One iteration of the loop of [sensors_task]. [xQueueReceive] takes the
    head of the queue, or times out on an empty queue. In every case of the
    [switch] the calls of [sensors_fuseX], [sensors_fuseY] and
    [sensors_fuseZ] are commented out in the source: no case calls a fuser.
    ([default: continue] is for a tag outside the enumeration.) *)
Definition sensors_task (st : sensors_state) : sensors_state * list sensors_call :=
  match xSensors_input st with
  | input :: queue =>
    let c1 :=
      match input_type input with
      | SENSORS_ACCELERATION => [call_ESP_LOG ESP_LOG_INFO "%llu,A,%f,%f,%f,%f"]
      | SENSORS_ORIENTATION => []
      | SENSORS_ALTIMETER => []
      | SENSORS_ULTRASONIC => []
      | SENSORS_POSITION => [call_ESP_LOG ESP_LOG_INFO "%llu,P,%f,%f,%f,%f"]
      | SENSORS_GROUNDSPEED => [call_ESP_LOG ESP_LOG_INFO "%llu,S,%f,%f,%f"]
      end in
    (* uxQueueSpacesAvailable(xSensors_input) <= 1 *)
    let '(queue, c2) :=
      if xSensors_input_length - Z.of_nat (length queue) <=? 1
      then ([], [call_xQueueReset; call_ESP_LOG ESP_LOG_ERROR "queue reset!"])
      else (queue, []) in
    let s := sensors st in
    let timeouts' := <[sensors_type_index (input_type input) := input_timestamp input]> (timeouts s) in
    let timestamp := input_timestamp input - SENSORS_TIMEOUT_MS cfg * 1000 in
    let c3 :=
      i ← seq 0 (sensors_type_index SENSORS_POSITION);
      if default 0 (timeouts' !! i) <? timestamp
      then [call_ESP_LOG ESP_LOG_ERROR "timeout of sensor %u"] else [] in
    ({| sensors := {| timeouts := timeouts'; Z_ := Z_ s; Y_ := Y_ s; X_ := X_ s |};
        xSensors_input := queue |},
     c1 ++ c2 ++ c3)
  | [] => (st, [call_ESP_LOG ESP_LOG_DEBUG "%llu,online"])
  end.

End Fusers.

(** ** remote.h: events and state *)

Inductive remote_input_type_t : Type :=
  | REMOTE_INPUT_CONNECTED
  | REMOTE_INPUT_DISCONNECTED
  | REMOTE_INPUT_MESSAGE_RECEIVE
  | REMOTE_INPUT_MESSAGE_SEND.

(** A [Websock] is known by a number; [None] is the null pointer. A buffer
    is known by its address; [msg_length] is a [uint8_t]. *)
Record remote_input_message_t : Type := {
  msg_data : positive;
  msg_length : Z;
  msg_ws : option nat;
  msg_timestamp : Z
}.

Record remote_input_t : Type := {
  type_ : remote_input_type_t;
  message : remote_input_message_t
}.

(** the arguments of a log line *)
Inductive va_arg : Type :=
  | va_int (n : Z)
  | va_float (x : f32)
  | va_str (s : string).

Definition va_list : Type := list va_arg.

(** [struct remote_t], without the HTTP server's own storage. [defaultLog]
    is the sink captured by [remote_init]; it returns a count of bytes. *)
Record remote_t : Type := {
  connected : Z;
  defaultLog : string -> va_list -> Z
}.

(** The heap: the live allocations, each with its bytes. *)
Abbreviation heap_t := (gmap positive (list byte)).

(** The static [remote], the locals of [remote_task] that live across the
    iterations of its loop, the queue [xRemote_input] of 32 events, and the
    heap. *)
Record remote_state : Type := {
  remote : remote_t;
  timeoutPending : bool;
  lastContact : Z;
  xRemote_input : list remote_input_t;
  heap : heap_t
}.

Definition xRemote_input_length : Z := 32.

Inductive CgiStatus : Type :=
  | HTTPD_CGI_MORE
  | HTTPD_CGI_DONE
  | HTTPD_CGI_NOTFOUND.

(** What the remote code calls outside itself, in the order of the calls.
    The last two are the interface to the flight controller that the
    specification names ([control_command], the emergency stop); the source
    has no call of that kind, and no function below makes one. *)
Inductive remote_call : Type :=
  | call_malloc (p : positive) (size : nat)
  | call_free (p : positive)
  | call_cgiWebsocketSend (ws : nat) (bytes : list byte)
  | call_cgiWebsockBroadcast (resource : string) (bytes : list byte)
  | call_printf (text : string)
  | call_defaultLog (format : string) (arguments : va_list)
  | call_httpdStartResponse (code : Z)
  | call_httpdHeader (field value : string)
  | call_httpdEndHeaders
  | call_httpdSend (bytes : list byte)
  | call_control_command (bytes : list byte)
  | call_emergency_stop.

Definition set_remote (r : remote_t) (st : remote_state) : remote_state :=
  {| remote := r; timeoutPending := timeoutPending st; lastContact := lastContact st;
     xRemote_input := xRemote_input st; heap := heap st |}.

Definition set_connected (n : Z) (st : remote_state) : remote_state :=
  set_remote {| connected := n; defaultLog := defaultLog (remote st) |} st.

Definition set_timeoutPending (b : bool) (st : remote_state) : remote_state :=
  {| remote := remote st; timeoutPending := b; lastContact := lastContact st;
     xRemote_input := xRemote_input st; heap := heap st |}.

Definition set_lastContact (t : Z) (st : remote_state) : remote_state :=
  {| remote := remote st; timeoutPending := timeoutPending st; lastContact := t;
     xRemote_input := xRemote_input st; heap := heap st |}.

Definition set_xRemote_input (q : list remote_input_t) (st : remote_state) : remote_state :=
  {| remote := remote st; timeoutPending := timeoutPending st; lastContact := lastContact st;
     xRemote_input := q; heap := heap st |}.

Definition set_heap (h : heap_t) (st : remote_state) : remote_state :=
  {| remote := remote st; timeoutPending := timeoutPending st; lastContact := lastContact st;
     xRemote_input := xRemote_input st; heap := h |}.

(** [malloc]: a fresh address for [size] bytes, zero here. The source never
    tests for a null result; allocation succeeds here. *)
Definition malloc (size : nat) (h : heap_t) : positive * heap_t :=
  let p := fresh (dom h) in (p, <[p := replicate size "000"%byte]> h).

(** [free] *)
Definition free (p : positive) (h : heap_t) : heap_t := delete p h.

(** the first [n] bytes at the address [p] *)
Definition read_buffer (h : heap_t) (p : positive) (n : Z) : list byte :=
  take (Z.to_nat n) (default [] (h !! p)).

(** [xQueueSend(xRemote_input, &input, 0)]: the event is queued if there is
    room, and dropped at once if the queue is full. The result is [pdTRUE]
    in the first case. *)
Definition xQueueSend (input : remote_input_t) (st : remote_state) : remote_state * bool :=
  if Z.of_nat (length (xRemote_input st)) <? xRemote_input_length
  then (set_xRemote_input (xRemote_input st ++ [input]) st, true)
  else (st, false).

(** the line feed of ["remote timeout\n"] *)
Definition LF : string := String "010"%char EmptyString.

(** ** remote.h: functions *)

Definition remote_processMessage (h : heap_t) (message : remote_input_message_t)
    : list remote_call :=
  if msg_length message <? 2 then [] (* return *)
  else
    let data := default [] (h !! msg_data message) in
    match data !! 0%nat with
    | Some "s"%byte => (* status *)
        match data !! 1%nat with
        | Some "1"%byte => [] (* break *)
        | _ => [] (* return; ToDo: emergency stop, error *)
        end
    | Some "c"%byte => [] (* control; ToDo: forward to control *)
    | _ => [] (* 'r' and default *)
    end.

(** The way [remote_processMessage] takes through its code, which no call
    shows: the [return] at the test of the length, the two ways out of the
    case of a status, the case of a control command, and the rest. *)
Inductive parse_path : Type :=
  | parse_too_short
  | parse_status_ok
  | parse_status_fault
  | parse_control
  | parse_other.

Definition remote_processMessage_path (h : heap_t) (message : remote_input_message_t)
    : parse_path :=
  if msg_length message <? 2 then parse_too_short (* return *)
  else
    let data := default [] (h !! msg_data message) in
    match data !! 0%nat with
    | Some "s"%byte => (* status *)
        match data !! 1%nat with
        | Some "1"%byte => parse_status_ok (* break *)
        | _ => parse_status_fault (* return; ToDo: emergency stop, error *)
        end
    | Some "c"%byte => parse_control (* ToDo: forward to control *)
    | _ => parse_other (* 'r' and default *)
    end.

Definition remote_sendMessage (st : remote_state) (message : remote_input_message_t)
    : list remote_call :=
  if negb (connected (remote st) =? 0) then
    match msg_ws message with
    | Some ws =>
        [call_cgiWebsocketSend ws (read_buffer (heap st) (msg_data message) (msg_length message))]
    | None =>
        [call_cgiWebsockBroadcast "/ws" (read_buffer (heap st) (msg_data message) (msg_length message))]
    end
  else [].

(** The body of [if (xQueueReceive(xRemote_input, &input, 500 ms) == pdTRUE)]
    in [remote_task]: the head of the queue is taken and handled; on an
    empty queue the receive times out and nothing is handled.
    [++remote.connected] and [--remote.connected] are on a [uint8_t]. *)
Definition remote_task_receive (st : remote_state) : remote_state * list remote_call :=
  match xRemote_input st with
  | input :: queue =>
    let st := set_xRemote_input queue st in
    match type_ input with
    | REMOTE_INPUT_CONNECTED =>
        (set_connected ((connected (remote st) + 1) mod 256) st, [])
    | REMOTE_INPUT_DISCONNECTED =>
        (set_connected ((connected (remote st) - 1) mod 256) st, [])
    | REMOTE_INPUT_MESSAGE_RECEIVE =>
        let c := remote_processMessage (heap st) (message input) in
        let st := set_heap (free (msg_data (message input)) (heap st)) st in
        let st := set_lastContact (msg_timestamp (message input)) st in
        let st := set_timeoutPending false st in
        (st, c ++ [call_free (msg_data (message input))])
    | REMOTE_INPUT_MESSAGE_SEND =>
        let c := remote_sendMessage st (message input) in
        let st := set_heap (free (msg_data (message input)) (heap st)) st in
        (st, c ++ [call_free (msg_data (message input))])
    end
  | [] => (st, [])
  end.

(** The timeout detection at the end of every iteration of [remote_task];
    [now] is the result of [esp_timer_get_time]. *)
Definition remote_task_timeout (now : Z) (st : remote_state) : remote_state * list remote_call :=
  if negb (connected (remote st) =? 0) && (now - lastContact st >? 500000) then
    if timeoutPending st then
      (* timeout due; ToDo: propagate the event *)
      (set_timeoutPending false st, [call_printf ("remote timeout" ++ LF)])
    else
      (set_lastContact now (set_timeoutPending true st),
       [call_cgiWebsockBroadcast "/ws" ["s"%byte; "?"%byte]])
  else (st, []).

(** one iteration of the loop of [remote_task] *)
Definition remote_task (now : Z) (st : remote_state) : remote_state * list remote_call :=
  let '(st, c1) := remote_task_receive st in
  let '(st, c2) := remote_task_timeout now st in
  (st, c1 ++ c2).

(** [remote_wsReceive(ws, data, len, flags)]; [now] is the result of
    [esp_timer_get_time]. [input.message.length = len] stores an [int] into a
    [uint8_t]. The result of [xQueueSend] is not looked at. *)
Definition remote_wsReceive (now : Z) (ws : nat) (data : list byte) (len : Z)
    (st : remote_state) : remote_state * list remote_call :=
  let length_ := len mod 256 in
  let '(p, h) := malloc (Z.to_nat len) (heap st) in
  let h := <[p := take (Z.to_nat len) data]> h in (* memcpy *)
  let input :=
    {| type_ := REMOTE_INPUT_MESSAGE_RECEIVE;
       message := {| msg_data := p; msg_length := length_; msg_ws := Some ws;
                     msg_timestamp := now |} |} in
  let '(st, _) := xQueueSend input (set_heap h st) in
  (st, [call_malloc p (Z.to_nat len)]).

(** [remote_wsConnect] and [remote_wsDisconnect]. Only [input.type] is set:
    the rest of the event is what the stack holds, [garbage] here. The two
    callbacks that [remote_wsConnect] stores in the socket belong to the HTTP
    server's state, which is not kept. *)
Definition remote_wsConnect (garbage : remote_input_message_t) (ws : nat)
    (st : remote_state) : remote_state * list remote_call :=
  let input := {| type_ := REMOTE_INPUT_CONNECTED; message := garbage |} in
  let '(st, _) := xQueueSend input st in
  (st, [call_cgiWebsocketSend ws (list_byte_of_string "quadro2")]).

Definition remote_wsDisconnect (garbage : remote_input_message_t) (ws : nat)
    (st : remote_state) : remote_state * list remote_call :=
  let input := {| type_ := REMOTE_INPUT_DISCONNECTED; message := garbage |} in
  let '(st, _) := xQueueSend input st in
  (st, []).

Section RemoteExternals.

(** The text that [vsnprintf] makes of a format and its arguments, or [None]
    for an output error (a negative result). *)
Variable vformat : string -> va_list -> option (list byte).

(** [httpdGetMimetype] of the HTTP server *)
Variable httpdGetMimetype : string -> string.

(** The memory that holds the embedded files, by address. *)
Variable mem : Z -> byte.

(** [vsnprintf(buf, size, format, arguments)]: at most [size - 1] bytes of the
    text and a terminating zero are stored; the result is the length of the
    whole text. *)
Definition vsnprintf (size : nat) (format : string) (arguments : va_list)
    : Z * list byte :=
  match vformat format arguments with
  | Some text => (Z.of_nat (length text), take (size - 1) text ++ ["000"%byte])
  | None => (-1, [])
  end.

(** [remote_printLog(format, arguments)]; the result of [xQueueSend] is not
    looked at. *)
Definition remote_printLog (format : string) (arguments : va_list)
    (st : remote_state) : remote_state * Z * list remote_call :=
  let '(string_, h) := malloc 128 (heap st) in
  let '(n, written) := vsnprintf 127 format arguments in
  let h := alter (fun buf => take 128 ("l"%byte :: written ++ drop (1 + length written) buf))
                 string_ h in
  let length_ := n + 1 in
  if (length_ <=? 0) || (length_ >? 128) then
    let st := set_heap (free string_ h) st in
    (st, defaultLog (remote st) format arguments,
     [call_malloc string_ 128; call_free string_; call_defaultLog format arguments])
  else
    let input :=
      {| type_ := REMOTE_INPUT_MESSAGE_SEND;
         message := {| msg_data := string_; msg_length := length_ mod 256;
                       msg_ws := None (* broadcast *); msg_timestamp := 0 |} |} in
    let '(st, _) := xQueueSend input (set_heap h st) in
    (st, defaultLog (remote st) format arguments,
     [call_malloc string_ 128; call_defaultLog format arguments]).

(** [HttpdConnData], the fields the handler uses. Pointers are 32-bit
    addresses, 0 the null pointer; [cgiData] is read as the [uint32_t]
    count of the bytes sent, and is null on the first call of a request.
    A [char] is a byte without sign, as on the target. *)
Record HttpdConnData : Type := {
  cgiArg : Z;
  cgiArg2 : Z;
  cgiData : Z;
  url : string
}.

Definition wrap32 (n : Z) : Z := n mod 2 ^ 32.

(** [n] bytes of the memory from the address [p] *)
Definition read_mem (p : Z) (n : Z) : list byte :=
  map (fun i => mem (p + Z.of_nat i)) (seq 0 (Z.to_nat n)).

Definition remote_sendEmbedded (connData : HttpdConnData)
    : HttpdConnData * CgiStatus * list remote_call :=
  let fileStart := cgiArg connData in
  let fileEnd := wrap32 (cgiArg2 connData - 1) in (* the null terminator is not needed *)
  let sentLength := cgiData connData in
  let fileLength := wrap32 (fileEnd - fileStart) in
  if (fileStart =? 0) || (fileEnd =? 0) || (fileEnd <=? fileStart) then
    (connData, HTTPD_CGI_NOTFOUND, [])
  else
    let c1 :=
      if sentLength =? 0 then
        [call_httpdStartResponse 200;
         call_httpdHeader "Content-Type" (httpdGetMimetype (url connData))]
        ++ (if Byte.eqb (mem fileStart) "031"%byte
               && Byte.eqb (mem (fileStart + 1)) "139"%byte
               && Byte.eqb (mem (fileStart + 2)) "008"%byte
            then [call_httpdHeader "Content-Encoding" "gzip"] else [])
        ++ [call_httpdEndHeaders]
      else [] in
    (* in chunks of 1024 bytes *)
    let remainingLength := wrap32 (fileLength - sentLength) in
    if remainingLength <=? 1024 then
      ({| cgiArg := cgiArg connData; cgiArg2 := cgiArg2 connData;
          cgiData := wrap32 (sentLength + remainingLength); url := url connData |},
       HTTPD_CGI_DONE,
       c1 ++ [call_httpdSend (read_mem (fileStart + sentLength) remainingLength)])
    else
      ({| cgiArg := cgiArg connData; cgiArg2 := cgiArg2 connData;
          cgiData := wrap32 (sentLength + 1024); url := url connData |},
       HTTPD_CGI_MORE,
       c1 ++ [call_httpdSend (read_mem (fileStart + sentLength) 1024)]).

(** Modelled from the spec: the HTTP engine, which is not under src/, around
    a handler: "the handler is re-entered by the HTTP engine until it returns
    DONE", with the count of bytes sent null at the start of a request.
    [fuel] bounds the number of calls; the result is the last status and all
    the calls made, or [None] when the handler still says MORE after [fuel]
    calls. *)
Fixpoint httpd_serve (fuel : nat) (connData : HttpdConnData)
    : option (CgiStatus * list remote_call) :=
  match fuel with
  | O => None
  | S fuel =>
    let '(connData, status, c) := remote_sendEmbedded connData in
    match status with
    | HTTPD_CGI_MORE =>
        '(status, c') ← httpd_serve fuel connData; Some (status, c ++ c')
    | _ => Some (status, c)
    end
  end.

Definition httpd_request (file_start file_end : Z) (u : string) : HttpdConnData :=
  {| cgiArg := file_start; cgiArg2 := file_end; cgiData := 0; url := u |}.

End RemoteExternals.

(** the bytes of the body sent by a list of calls, in order *)
Definition sent_bytes (c : list remote_call) : list byte :=
  b ← c; match b with call_httpdSend bytes => bytes | _ => [] end.

(** the chunks of the body sent by a list of calls *)
Definition sent_chunks (c : list remote_call) : list (list byte) :=
  b ← c; match b with call_httpdSend bytes => [bytes] | _ => [] end.

(** the calls of the captured sink, and the buffers released, in a list of
    calls *)
Definition sink_calls (c : list remote_call) : list (string * va_list) :=
  b ← c; match b with call_defaultLog f a => [(f, a)] | _ => [] end.

Definition freed (c : list remote_call) : list positive :=
  b ← c; match b with call_free p => [p] | _ => [] end.

(** ** The fusers by axis, and runs of events *)

Inductive axis_id : Type := axis_Z | axis_Y | axis_X.

#[global] Instance axis_id_eq_dec : EqDecision axis_id.
Proof. solve_decision. Defined.

Definition sensors_axis (a : axis_id) (s : sensors_t) : axis_t :=
  match a with
  | axis_Z => Z_ s
  | axis_Y => Y_ s
  | axis_X => X_ s
  end.

Section FuserOfAxis.

Variable cfg : sensors_config.
Variable powf : f32 -> f32 -> f32.
Variable eekf_predict :
  eekf_context -> eekf_mat -> eekf_mat -> eekf_return * eekf_context.
Variable eekf_lazy_correct :
  eekf_context -> eekf_mat -> eekf_mat -> eekf_return * eekf_context.

Definition sensors_fuse (a : axis_id)
    : sensors_input_type_t -> f32 -> Z -> axis_t -> axis_t * list sensors_call :=
  match a with
  | axis_Z => sensors_fuseZ cfg powf eekf_predict eekf_lazy_correct
  | axis_Y => sensors_fuseY cfg powf eekf_predict
  | axis_X => sensors_fuseX cfg powf eekf_predict
  end.

Definition sensors_fuse_transition (a : axis_id) : eekf_fun_f :=
  match a with
  | axis_Z => sensors_fuseZ_transition cfg
  | axis_Y => sensors_fuseY_transition cfg
  | axis_X => sensors_fuseX_transition cfg
  end.

Definition SENSORS_FUSE_LIMIT_VEL (a : axis_id) : f32 :=
  match a with
  | axis_Z => SENSORS_FUSE_Z_LIMIT_VEL cfg
  | axis_Y => SENSORS_FUSE_Y_LIMIT_VEL cfg
  | axis_X => SENSORS_FUSE_X_LIMIT_VEL cfg
  end.

Definition SENSORS_FUSE_ERROR_ACCELERATION (a : axis_id) : f32 :=
  match a with
  | axis_Z => SENSORS_FUSE_Z_ERROR_ACCELERATION cfg
  | axis_Y => SENSORS_FUSE_Y_ERROR_ACCELERATION cfg
  | axis_X => SENSORS_FUSE_X_ERROR_ACCELERATION cfg
  end.

(** [lastTimestamp] after each of a sequence of ACCELERATION events, given
    by value and time stamp, on one fuser *)
Fixpoint lastTimestamp_trajectory (a : axis_id) (events : list (f32 * Z)) (s : axis_t)
    : list Z :=
  match events with
  | [] => []
  | (v, timestamp) :: events =>
    let s := fst (sensors_fuse a SENSORS_ACCELERATION v timestamp s) in
    lastTimestamp s :: lastTimestamp_trajectory a events s
  end.

End FuserOfAxis.

(** the velocity limit of a transition: [v] kept within [-limit, limit] *)
Definition clamp (limit v : f32) : f32 :=
  if F32.ltb limit v then limit
  else if F32.ltb v (F32.opp limit) then F32.opp limit
  else v.

(** a call of the EKF engine *)
Definition is_eekf_call (c : sensors_call) : bool :=
  match c with
  | call_eekf_predict _ _ _ | call_eekf_lazy_correct _ _ _ => true
  | _ => false
  end.

(** The routing of the specification, section 4.3: "ACCELERATION and POSITION
    route to X, Y, Z; GROUNDSPEED routes to X, Y; ULTRASONIC and ALTIMETER
    route to Z only; ORIENTATION is not fused." *)
Definition spec_route (ty : sensors_input_type_t) : list axis_id :=
  match ty with
  | SENSORS_ACCELERATION | SENSORS_POSITION => [axis_X; axis_Y; axis_Z]
  | SENSORS_GROUNDSPEED => [axis_X; axis_Y]
  | SENSORS_ULTRASONIC | SENSORS_ALTIMETER => [axis_Z]
  | SENSORS_ORIENTATION => []
  end.

(** the value of an event that goes to the fuser of an axis *)
Definition input_value (a : axis_id) (i : sensors_input_t) : f32 :=
  match input_type i with
  | SENSORS_ULTRASONIC | SENSORS_ALTIMETER => input_distance i
  | _ =>
    match a with
    | axis_X => vec_x (input_vector i)
    | axis_Y => vec_y (input_vector i)
    | axis_Z => vec_z (input_vector i)
    end
  end.

(** ** The specification's sentences, as propositions on the code *)

(** Section 4.3, on one iteration of the task: the event at the head of the
    queue goes to the fusers of [spec_route], so that afterwards each of
    these axes is as its fuser leaves it, and the others are as before. *)
Definition task_routes_by_tag (cfg : sensors_config) (powf : f32 -> f32 -> f32)
    (eekf_predict eekf_lazy_correct :
       eekf_context -> eekf_mat -> eekf_mat -> eekf_return * eekf_context)
    (st : sensors_state) : Prop :=
  match xSensors_input st with
  | input :: _ =>
    forall a : axis_id,
      sensors_axis a (sensors (fst (sensors_task cfg st))) =
      if decide (a ∈ spec_route (input_type input))
      then fst (sensors_fuse cfg powf eekf_predict eekf_lazy_correct a
                  (input_type input) (input_value a input) (input_timestamp input)
                  (sensors_axis a (sensors st)))
      else sensors_axis a (sensors st)
  | [] => True
  end.

(** Section 4.2, on a prediction whose time stamp equals [lastTimestamp]:
    the transition at [dt = 0] returns the position and the velocity it was
    given, equal as C compares them. *)
Definition equal_timestamp_keeps_state (cfg : sensors_config) (a : axis_id)
    (x0 x1 v : f32) : Prop :=
  exists xp Jf,
    sensors_fuse_transition cfg a (EEKF_CALLOC_MATRIX 2 1) (EEKF_CALLOC_MATRIX 2 2)
      {| rows := 2; cols := 1; elements := [x0; x1] |}
      (EEKF_DECL_MAT_INIT 1 1 [v]) (userData_float F32.zero)
    = (eEekfReturnOk, xp, Jf) /\
    F32.eqb (mat_get xp 0 0) x0 = true /\
    F32.eqb (mat_get xp 1 0) x1 = true.

(** Section 4.4, the heartbeat on a wake of the task with a connection and
    more than 500 ms since the last contact: a ping if none is pending, the
    emergency stop if one is. *)
Definition heartbeat_as_specified (now : Z) (st : remote_state) : Prop :=
  connected (remote st) <> 0 -> now - lastContact st > 500000 ->
  let r := remote_task now st in
  if timeoutPending st
  then In call_emergency_stop (snd r) /\ timeoutPending (fst r) = false
  else snd r = [call_cgiWebsockBroadcast "/ws" ["s"%byte; "?"%byte]] /\
       timeoutPending (fst r) = true /\ lastContact (fst r) = now.

(** Section 4.4, the parser on a frame of two bytes or more that starts with
    the letter c: the rest of the frame goes to the flight controller. *)
Definition forwards_control_command (h : heap_t) (m : remote_input_message_t) : Prop :=
  2 <= msg_length m ->
  default [] (h !! msg_data m) !! 0%nat = Some "c"%byte ->
  remote_processMessage h m
  = [call_control_command (drop 1 (read_buffer h (msg_data m) (msg_length m)))].

(** On a frame of 256 bytes or more, received and then taken by the task:
    the release works on the length recorded in the event, so that the bytes
    released are [len mod 256]. *)
Definition free_on_truncated_length (now : Z) (ws : nat) (data : list byte) (len : Z)
    (st : remote_state) : Prop :=
  let p := fresh (dom (heap st)) in
  let st1 := fst (remote_wsReceive now ws data len st) in
  let st2 := fst (remote_task_receive st1) in
  Z.of_nat (length (default [] (heap st1 !! p)) - length (default [] (heap st2 !! p)))
  = len mod 256.

(** Section 8, L-asset-chunking: the handler, called again as long as it
    says MORE, ends with DONE, and the chunks it sent, of 1024 bytes at
    most, make up the file without its last byte. *)
Definition asset_streamed (httpdGetMimetype : string -> string) (mem : Z -> byte)
    (file_start file_end : Z) (u : string) : Prop :=
  exists (fuel : nat) (calls : list remote_call),
    httpd_serve httpdGetMimetype mem fuel (httpd_request file_start file_end u)
    = Some (HTTPD_CGI_DONE, calls) /\
    sent_bytes calls = read_mem mem file_start (file_end - file_start - 1) /\
    Forall (fun chunk => (length chunk <= 1024)%nat) (sent_chunks calls).


(** ** Instances of the external parts, for worked examples *)

(** Modelled from the spec: [eekf_predict] of the EKF engine, which is not
    under src/: "computes x' = f(x, u) using the transition callback which
    also fills Jacobian F, then P' = F P F^T + Q. Fails with
    COMPUTATION_FAILED on matrix-op failure or PARAMETER_ERROR on dimension
    mismatch"; on a failure the state is not updated. *)
Definition mat_transpose (m : eekf_mat) : eekf_mat :=
  {| rows := cols m; cols := rows m;
     elements := c ← seq 0 (rows m); r ← seq 0 (cols m); [mat_get m c r] |}.

Definition eekf_predict_model (ctx : eekf_context) (u Q : eekf_mat)
    : eekf_return * eekf_context :=
  let n := rows (ctx_x ctx) in
  if decide (rows Q = n /\ cols Q = n /\ rows (ctx_P ctx) = n /\ cols (ctx_P ctx) = n) then
    match ctx_f ctx (EEKF_CALLOC_MATRIX n 1) (EEKF_CALLOC_MATRIX n n)
                (ctx_x ctx) u (ctx_userData ctx) with
    | (eEekfReturnOk, xp, Jf) =>
      match FP ← eekf_mat_mul (EEKF_CALLOC_MATRIX n n) Jf (ctx_P ctx);
            FPFt ← eekf_mat_mul (ctx_P ctx) FP (mat_transpose Jf);
            eekf_mat_add (ctx_P ctx) FPFt Q with
      | Some P' => (eEekfReturnOk, set_P P' (set_x xp ctx))
      | None => (eEekfReturnComputationFailed, ctx)
      end
    | (ret, _, _) => (ret, ctx)
    end
  else (eEekfReturnParameterError, ctx).

(** An engine whose correction fails and leaves the context as it is. *)
Definition eekf_lazy_correct_failing (ctx : eekf_context) (z R : eekf_mat)
    : eekf_return * eekf_context :=
  (eEekfReturnComputationFailed, ctx).

(** [powf] at the two exponents of the fusers, by products; not a number
    elsewhere. *)
Definition powf_products (x y : f32) : f32 :=
  if F32.eqb y F32.four then F32.mul (F32.mul (F32.mul x x) x) x
  else if F32.eqb y F32.three then F32.mul (F32.mul x x) x
  else S754_nan.

Definition f32_two : f32 := S754_finite false 8388608 (-22).
Definition f32_five : f32 := S754_finite false 10485760 (-21).

(** every variance 1, every velocity limit 2, a time-out of one second *)
Definition example_config : sensors_config :=
  {| SENSORS_FUSE_Z_ERROR_ACCELERATION := F32.one;
     SENSORS_FUSE_Z_ERROR_ULTRASONIC := F32.one;
     SENSORS_FUSE_Z_ERROR_BAROMETER := F32.one;
     SENSORS_FUSE_Z_ERROR_GPS := F32.one;
     SENSORS_FUSE_Z_LIMIT_VEL := f32_two;
     SENSORS_FUSE_Y_ERROR_ACCELERATION := F32.one;
     SENSORS_FUSE_Y_ERROR_GPS := F32.one;
     SENSORS_FUSE_Y_ERROR_VELOCITY := F32.one;
     SENSORS_FUSE_Y_LIMIT_VEL := f32_two;
     SENSORS_FUSE_X_ERROR_ACCELERATION := F32.one;
     SENSORS_FUSE_X_ERROR_GPS := F32.one;
     SENSORS_FUSE_X_LIMIT_VEL := f32_two;
     SENSORS_TIMEOUT_MS := 1000 |}.

Definition example_sensors : sensors_t := sensors_init example_config.

Definition example_fuse : axis_id -> sensors_input_type_t -> f32 -> Z -> axis_t ->
    axis_t * list sensors_call :=
  sensors_fuse example_config powf_products eekf_predict_model eekf_lazy_correct_failing.

(** an event of acceleration (1, 1, 1) at 1000 us *)
Definition example_acceleration : sensors_input_t :=
  {| input_type := SENSORS_ACCELERATION;
     input_timestamp := 1000;
     input_payload := payload_vector {| vec_x := F32.one; vec_y := F32.one; vec_z := F32.one |};
     input_accuracy := F32.zero |}.

(** a formatter that prints the format as it is *)
Definition vformat_verbatim (format : string) (arguments : va_list) : option (list byte) :=
  Some (list_byte_of_string format).

Definition mimetype_html (u : string) : string := "text/html".

(** a sink that counts the bytes of the format *)
Definition example_sink (format : string) (arguments : va_list) : Z :=
  Z.of_nat (String.length format).

Definition example_message (p : positive) (n : Z) : remote_input_message_t :=
  {| msg_data := p; msg_length := n; msg_ws := None; msg_timestamp := 0 |}.

Definition example_remote (n : Z) (pending : bool) (q : list remote_input_t) (h : heap_t)
    : remote_state :=
  {| remote := {| connected := n; defaultLog := example_sink |};
     timeoutPending := pending; lastContact := 0; xRemote_input := q; heap := h |}.

(** a memory whose byte at every address is the low byte of the address *)
Definition example_mem (p : Z) : byte :=
  default "000"%byte (Byte.of_N (Z.to_N (p mod 256))).

(** ** The fusers by axis: resets and measurement models *)

Definition sensors_fuse_reset (a : axis_id) : axis_t -> axis_t :=
  match a with
  | axis_Z => sensors_fuseZ_reset
  | axis_Y => sensors_fuseY_reset
  | axis_X => sensors_fuseX_reset
  end.

Definition sensors_fuse_measurement (a : axis_id) : eekf_fun_h :=
  match a with
  | axis_Z => sensors_fuseZ_measurement
  | axis_Y => sensors_fuseY_measurement
  | axis_X => sensors_fuseX_measurement
  end.

(** the events for which a fuser goes on to the engine: the predictions, and
    the corrections whose case ends in a [break] *)
Definition reaches_engine (a : axis_id) (ty : sensors_input_type_t) : bool :=
  match ty, a with
  | SENSORS_ACCELERATION, _ => true
  | SENSORS_ULTRASONIC, axis_Z | SENSORS_ALTIMETER, axis_Z => true
  | _, _ => false
  end.

(** the row of the measurement vector that a measurement model selects, for
    the sensors whose case ends in a [break] *)
Definition measurement_row (a : axis_id) (ty : sensors_input_type_t) : option nat :=
  match a, ty with
  | axis_Z, SENSORS_ULTRASONIC => Some 0%nat
  | axis_Z, SENSORS_ALTIMETER => Some 1%nat
  | axis_Z, SENSORS_POSITION => Some 2%nat
  | axis_Y, SENSORS_POSITION => Some 0%nat
  | axis_X, SENSORS_POSITION => Some 0%nat
  | _, _ => None
  end.

(** the number of measurements of an axis, as [sensors_init] allocates [z] *)
Definition measurement_rows (a : axis_id) : nat :=
  match a with axis_Z => 3%nat | axis_Y => 2%nat | axis_X => 1%nat end.

(** a binary32 value that is zero or above it; not a number is not *)
Definition F32_is_nonneg (x : f32) : bool :=
  match x with
  | S754_zero _ | S754_finite false _ _ | S754_infinity false => true
  | _ => false
  end.

(** the formats of the lines logged at the level INFO in a list of calls *)
Definition info_logs (c : list sensors_call) : list string :=
  b ← c; match b with call_ESP_LOG ESP_LOG_INFO fmt => [fmt] | _ => [] end.

(** the number of time-outs reported in a list of calls *)
Definition timeout_reports (c : list sensors_call) : nat :=
  length (b ← c;
          match b with
          | call_ESP_LOG ESP_LOG_ERROR fmt =>
              if String.eqb fmt "timeout of sensor %u" then [b] else []
          | _ => []
          end).


(** ** remote.h: the other producers *)

(** Storing the bytes [bs] at the offset [off] of a buffer; [None] when a byte
    of the store falls outside the buffer. *)
Definition store_bytes (off : nat) (bs : list byte) (buf : list byte) : option (list byte) :=
  if decide (off + length bs <= length buf)%nat
  then Some (take off buf ++ bs ++ drop (off + length bs) buf)
  else None.

(** [remote_sendCommand(command, ws)]; [command] is the text before the
    terminating zero, so that [strlen(command)] is its length. [strcpy]
    stores the text and the zero from the second byte of the buffer on.
    The result is [None] when a store falls outside the 128 bytes allocated,
    else the state, the value returned and the calls. *)
Definition remote_sendCommand (command : list byte) (ws : option nat) (st : remote_state)
    : option (remote_state * bool * list remote_call) :=
  let '(string_, h) := malloc 128 (heap st) in
  let length_ := Z.of_nat (length command) + 1 in
  if length_ >? 128 then
    Some (set_heap (free string_ h) st, true, [call_malloc string_ 128; call_free string_])
  else
    match store_bytes 0 ["c"%byte] (default [] (h !! string_)) with
    | None => None
    | Some buf =>
    match store_bytes 1 (command ++ ["000"%byte]) buf with
    | None => None
    | Some buf =>
      let h := <[string_ := buf]> h in
      let input :=
        {| type_ := REMOTE_INPUT_MESSAGE_SEND;
           message := {| msg_data := string_; msg_length := length_ mod 256;
                         msg_ws := ws; msg_timestamp := 0 |} |} in
      let '(st, sent) := xQueueSend input (set_heap h st) in
      Some (st, negb sent, [call_malloc string_ 128])
    end
    end.

(** [sh2_SensorValue_t] of the sensor hub library, as far as
    [remote_sensorData] reads it: the sensor and its values. *)
Inductive sh2_SensorValue_t : Type :=
  | SH2_LINEAR_ACCELERATION (x y z : f32)
  | SH2_ROTATION_VECTOR (accuracy i j k real : f32)
  | SH2_other_sensor.

Section SensorData.

Variable vformat : string -> va_list -> option (list byte).

(** [remote_sensorData(value)]; [snprintf] is [vsnprintf] on its arguments.
    The result of [xQueueSend] is not looked at. *)
Definition remote_sensorData (value : sh2_SensorValue_t) (st : remote_state)
    : remote_state * list remote_call :=
  let '(string_, h) := malloc 128 (heap st) in
  let '(length_, written) :=
    match value with
    | SH2_LINEAR_ACCELERATION x y z =>
        vsnprintf vformat 128 "ra%f,%f,%f" [va_float x; va_float y; va_float z]
    | SH2_ROTATION_VECTOR accuracy i j k real =>
        vsnprintf vformat 128 "ro%f,%f,%f,%f,%f"
          [va_float accuracy; va_float i; va_float j; va_float k; va_float real]
    | SH2_other_sensor => (0, [])
    end in
  let h := alter (fun buf => take 128 (written ++ drop (length written) buf)) string_ h in
  if (length_ <=? 0) || (length_ >? 128) then
    (set_heap (free string_ h) st, [call_malloc string_ 128; call_free string_])
  else
    let input :=
      {| type_ := REMOTE_INPUT_MESSAGE_SEND;
         message := {| msg_data := string_; msg_length := length_ mod 256;
                       msg_ws := None (* broadcast *); msg_timestamp := 0 |} |} in
    let '(st, _) := xQueueSend input (set_heap h st) in
    (st, [call_malloc string_ 128]).

End SensorData.

(** ** The buffers of the queue *)

(** an event that carries a buffer *)
Definition carries_buffer (i : remote_input_t) : bool :=
  match type_ i with
  | REMOTE_INPUT_MESSAGE_RECEIVE | REMOTE_INPUT_MESSAGE_SEND => true
  | _ => false
  end.

(** the buffers held by the events of a queue *)
Definition queue_buffers (q : list remote_input_t) : list positive :=
  i ← q; if carries_buffer i then [msg_data (message i)] else [].

(** The state of the remote core is in order: the count of connections is a
    [uint8_t], the queue holds 32 events at most, the queued events hold
    different buffers, and each of these buffers is allocated. *)
Definition remote_inv (st : remote_state) : Prop :=
  0 <= connected (remote st) < 256 /\
  Z.of_nat (length (xRemote_input st)) <= xRemote_input_length /\
  NoDup (queue_buffers (xRemote_input st)) /\
  forall p, p ∈ queue_buffers (xRemote_input st) -> is_Some (heap st !! p).

(** iterations of the loop of [remote_task], one for each reading of the
    clock, with no producer in between *)
Fixpoint remote_task_run (nows : list Z) (st : remote_state)
    : remote_state * list remote_call :=
  match nows with
  | [] => (st, [])
  | now :: nows =>
    let '(st, c) := remote_task now st in
    let '(st, c') := remote_task_run nows st in
    (st, c ++ c')
  end.

(** the text that [remote_sensorData] formats for a value, or [None] for an
    error of the formatting; a sensor that has no report leaves the length
    at 0, as the empty text does *)
Definition sensorData_text (vformat : string -> va_list -> option (list byte))
    (value : sh2_SensorValue_t) : option (list byte) :=
  match value with
  | SH2_LINEAR_ACCELERATION x y z =>
      vformat "ra%f,%f,%f"%string [va_float x; va_float y; va_float z]
  | SH2_ROTATION_VECTOR accuracy i j k real =>
      vformat "ro%f,%f,%f,%f,%f"%string
        [va_float accuracy; va_float i; va_float j; va_float k; va_float real]
  | SH2_other_sensor => Some []
  end.

(** the event of a message to send *)
Definition send_event (p : positive) (n : Z) (ws : option nat) : remote_input_t :=
  {| type_ := REMOTE_INPUT_MESSAGE_SEND;
     message := {| msg_data := p; msg_length := n; msg_ws := ws; msg_timestamp := 0 |} |}.

(** the buffer [p] is allocated and stays so, whatever the number of
    iterations of the task: no iteration releases it *)
Definition never_released (p : positive) (st : remote_state) : Prop :=
  forall nows : list Z,
    (p ∉ freed (snd (remote_task_run nows st))) /\
    is_Some (heap (fst (remote_task_run nows st)) !! p).

(** the header of the response for an embedded file *)
Definition asset_headers (httpdGetMimetype : string -> string) (mem : Z -> byte)
    (file_start : Z) (u : string) : list remote_call :=
  [call_httpdStartResponse 200; call_httpdHeader "Content-Type" (httpdGetMimetype u)]
  ++ (if Byte.eqb (mem file_start) "031"%byte
         && Byte.eqb (mem (file_start + 1)) "139"%byte
         && Byte.eqb (mem (file_start + 2)) "008"%byte
      then [call_httpdHeader "Content-Encoding" "gzip"] else [])
  ++ [call_httpdEndHeaders].

(** the chunk number [i] of an embedded file, from 0: 1024 bytes, or what is
    left before the terminator *)
Definition asset_chunk (mem : Z -> byte) (file_start file_end : Z) (i : nat) : list byte :=
  read_mem mem (file_start + 1024 * Z.of_nat i)
           (Z.min 1024 (file_end - file_start - 1 - 1024 * Z.of_nat i)).


(** * Properties *)

(** ** The fusers: time stamps and corrections *)

Section FuserProperties.

Variable cfg : sensors_config.
Variable powf : f32 -> f32 -> f32.
Variable eekf_predict :
  eekf_context -> eekf_mat -> eekf_mat -> eekf_return * eekf_context.
Variable eekf_lazy_correct :
  eekf_context -> eekf_mat -> eekf_mat -> eekf_return * eekf_context.

Local Abbreviation fuse := (sensors_fuse cfg powf eekf_predict eekf_lazy_correct).
Local Abbreviation trajectory :=
  (lastTimestamp_trajectory cfg powf eekf_predict eekf_lazy_correct).

Ltac unfold_fuse a :=
  unfold sensors_fuse; destruct a;
  [unfold sensors_fuseZ | unfold sensors_fuseY | unfold sensors_fuseX].

Ltac destruct_predict :=
  match goal with
  | |- context [eekf_predict ?c ?u ?Q] => destruct (eekf_predict c u Q) as [? ?]
  end.

Lemma fuse_late (a : axis_id) (v : f32) (ts : Z) (s : axis_t) :
  ts < lastTimestamp s ->
  fuse a SENSORS_ACCELERATION v ts s = (s, []).
Proof.
  intros Hlt. apply Z.ltb_lt in Hlt.
  unfold_fuse a; rewrite decide_True, Hlt by reflexivity; reflexivity.
Qed.

Lemma fuse_accepted (a : axis_id) (v : f32) (ts : Z) (s : axis_t) :
  lastTimestamp s <= ts ->
  lastTimestamp (fst (fuse a SENSORS_ACCELERATION v ts s)) = ts /\
  exists ctx u Q rest,
    snd (fuse a SENSORS_ACCELERATION v ts s) = call_eekf_predict ctx u Q :: rest.
Proof.
  intros Hle. apply Z.ltb_ge in Hle.
  unfold_fuse a; rewrite decide_True, Hle by reflexivity;
    destruct_predict; cbn; (split; [reflexivity | eauto 6]).
Qed.

Lemma fuse_lastTimestamp (a : axis_id) (v : f32) (ts : Z) (s : axis_t) :
  lastTimestamp (fst (fuse a SENSORS_ACCELERATION v ts s)) = Z.max (lastTimestamp s) ts.
Proof.
  destruct (Z.lt_ge_cases ts (lastTimestamp s)) as [Hlt | Hge].
  - rewrite fuse_late by assumption. cbn. lia.
  - destruct (fuse_accepted a v ts s) as [-> _]; [assumption | lia].
Qed.

Lemma trajectory_lower_bound (a : axis_id) (events : list (f32 * Z)) :
  forall s, Forall (Z.le (lastTimestamp s)) (trajectory a events s).
Proof.
  induction events as [| [v ts] events IH]; intros s; cbn [lastTimestamp_trajectory].
  - constructor.
  - pose proof (fuse_lastTimestamp a v ts s) as Hmax.
    constructor; [lia |].
    eapply Forall_impl; [apply IH |]. cbn. intros t Ht. lia.
Qed.

Lemma trajectory_sorted (a : axis_id) (events : list (f32 * Z)) :
  forall s, StronglySorted Z.le (lastTimestamp s :: trajectory a events s).
Proof.
  induction events as [| [v ts] events IH]; intros s.
  - repeat constructor.
  - constructor; [apply IH | apply (trajectory_lower_bound a ((v, ts) :: events))].
Qed.

(** C7. On every axis fuser and for every sequence of ACCELERATION events
    the recorded [lastTimestamp] never decreases. An event whose time stamp
    is strictly below [lastTimestamp] is dropped and nothing of the fuser
    changes; any other is accepted: the engine's prediction is called and
    [lastTimestamp] becomes the time stamp of the event. From the initial
    state, events at 1000, 3000, 2000, 4000 us give the trajectory
    1000, 3000, 3000, 4000. *)
Theorem lastTimestamp_monotone (a : axis_id) (events : list (f32 * Z)) (s : axis_t)
    (v : f32) (ts : Z) :
  StronglySorted Z.le (lastTimestamp s :: trajectory a events s) /\
  (if ts <? lastTimestamp s
   then fuse a SENSORS_ACCELERATION v ts s = (s, [])
   else lastTimestamp (fst (fuse a SENSORS_ACCELERATION v ts s)) = ts /\
        exists ctx u Q rest,
          snd (fuse a SENSORS_ACCELERATION v ts s) = call_eekf_predict ctx u Q :: rest) /\
  trajectory a [(v, 1000); (v, 3000); (v, 2000); (v, 4000)]
             (sensors_axis a (sensors_init cfg))
  = [1000; 3000; 3000; 4000].
Proof.
  split; [apply trajectory_sorted |]. split.
  - destruct (ts <? lastTimestamp s) eqn:Hts.
    + apply fuse_late. apply Z.ltb_lt. exact Hts.
    + apply fuse_accepted. apply Z.ltb_ge. exact Hts.
  - cbn [lastTimestamp_trajectory].
    rewrite !fuse_lastTimestamp. destruct a; reflexivity.
Qed.

(** The corrections that reach the engine: ULTRASONIC and ALTIMETER on Z.
    The measurement goes to row 0 or 1 of [z], [R] has the variance at that
    place of its diagonal and zero elsewhere, and [eekf_lazy_correct] is
    called on them. *)
Lemma fuseZ_correction_reaches_engine (v : f32) (ts : Z) (s : axis_t) :
  let c := set_userData (userData_type SENSORS_ULTRASONIC) (ekf s) in
  let c' := set_userData (userData_type SENSORS_ALTIMETER) (ekf s) in
  let zero := F32.zero in
  (exists rest,
     snd (fuse axis_Z SENSORS_ULTRASONIC v ts s)
     = call_eekf_lazy_correct c (mat_set (z_ s) 0 0 v)
         {| rows := 3; cols := 3;
            elements := [SENSORS_FUSE_Z_ERROR_ULTRASONIC cfg; zero; zero;
                         zero; zero; zero; zero; zero; zero] |} :: rest) /\
  (exists rest,
     snd (fuse axis_Z SENSORS_ALTIMETER v ts s)
     = call_eekf_lazy_correct c' (mat_set (z_ s) 1 0 v)
         {| rows := 3; cols := 3;
            elements := [zero; zero; zero;
                         zero; SENSORS_FUSE_Z_ERROR_BAROMETER cfg; zero;
                         zero; zero; zero] |} :: rest).
Proof.
  cbn zeta. split; cbn [sensors_fuse]; unfold sensors_fuseZ;
    rewrite decide_False by discriminate; cbn [ekf z_ set_z set_ekf];
    match goal with
    | |- context [eekf_lazy_correct ?c ?z ?R] => destruct (eekf_lazy_correct c z R) as [? ?]
    end; cbn; eauto.
Qed.

(** C2, where the code departs from it. POSITION on Z, POSITION and
    GROUNDSPEED on Y and POSITION on X store the measurement and return before
    the call of [eekf_lazy_correct]: on every fuser state no call is made,
    and [x] and [P] are as before. On Y a POSITION measurement is stored in
    row 0 and also in row 1, the row of the ground speed: on the fuser as
    [sensors_init] leaves it, [z] becomes [v; v]. *)
Theorem correction_returns_before_lazy_correct (v : f32) (ts : Z) (s : axis_t) :
  let idle (a : axis_id) (ty : sensors_input_type_t) (stored : eekf_mat -> eekf_mat) :=
    let r := fuse a ty v ts s in
    snd r = [] /\
    z_ (fst r) = stored (z_ s) /\
    ctx_x (ekf (fst r)) = ctx_x (ekf s) /\
    ctx_P (ekf (fst r)) = ctx_P (ekf s) in
  idle axis_Z SENSORS_POSITION (fun z => mat_set z 2 0 v) /\
  idle axis_Y SENSORS_POSITION (fun z => mat_set (mat_set z 0 0 v) 1 0 v) /\
  idle axis_Y SENSORS_GROUNDSPEED (fun z => mat_set z 1 0 v) /\
  idle axis_X SENSORS_POSITION (fun z => mat_set z 0 0 v) /\
  elements (z_ (fst (fuse axis_Y SENSORS_POSITION v ts (Y_ (sensors_init cfg))))) = [v; v].
Proof.
  cbn zeta. unfold sensors_fuse, sensors_fuseZ, sensors_fuseY, sensors_fuseX.
  rewrite !decide_False by discriminate.
  cbn [fst snd ekf z_ set_z set_ekf set_userData ctx_x ctx_P].
  repeat split.
Qed.

End FuserProperties.

(** ** binary32: the facts used by the fusers *)

Lemma shr_1_m (mrs : shr_record) :
  0 <= shr_m mrs -> shr_m (shr_1 mrs) = shr_m mrs / 2.
Proof.
  destruct mrs as [m r s]. cbn [shr_m]. intros Hm.
  destruct m as [| p | p]; [reflexivity | | lia].
  destruct p as [p | p |]; cbn [shr_1 shr_m].
  - rewrite Pos2Z.inj_xI. apply Z.div_unique with (r := 1); lia.
  - rewrite Pos2Z.inj_xO. apply Z.div_unique with (r := 0); lia.
  - reflexivity.
Qed.

Lemma iter_shr_1_m (p : positive) :
  forall mrs, 0 <= shr_m mrs ->
    shr_m (SpecFloat.iter_pos shr_1 p mrs) = shr_m mrs / 2 ^ Zpos p.
Proof.
  induction p as [p IH | p IH |]; intros mrs Hm; cbn [SpecFloat.iter_pos].
  - assert (H1 : 0 <= shr_m (shr_1 mrs)) by (rewrite shr_1_m by assumption; apply Z.div_pos; lia).
    assert (H2 : 0 <= shr_m (SpecFloat.iter_pos shr_1 p (shr_1 mrs)))
      by (rewrite IH by assumption; apply Z.div_pos; lia).
    rewrite IH, IH, shr_1_m by assumption.
    rewrite !Z.div_div by lia. f_equal.
    replace (Z.pos p~1) with (1 + Z.pos p + Z.pos p) by lia.
    rewrite !Z.pow_add_r by lia. lia.
  - assert (H2 : 0 <= shr_m (SpecFloat.iter_pos shr_1 p mrs))
      by (rewrite IH by assumption; apply Z.div_pos; lia).
    rewrite IH, IH by assumption.
    rewrite !Z.div_div by lia. f_equal.
    replace (Z.pos p~0) with (Z.pos p + Z.pos p) by lia.
    rewrite !Z.pow_add_r by lia. lia.
  - rewrite shr_1_m by assumption. reflexivity.
Qed.

Lemma shr_m_nonneg (mrs : shr_record) (e n : Z) :
  0 <= shr_m mrs -> 0 <= shr_m (fst (shr mrs e n)).
Proof.
  intros Hm. destruct n as [| p | p]; cbn [shr fst]; try assumption.
  rewrite iter_shr_1_m by assumption. apply Z.div_pos; lia.
Qed.

Lemma shr_e (mrs : shr_record) (e n : Z) :
  snd (shr mrs e n) = e + Z.max 0 n.
Proof. destruct n; cbn [shr snd]; lia. Qed.

Lemma shr_record_of_loc_m (m : Z) (l : location) : shr_m (shr_record_of_loc m l) = m.
Proof. destruct l as [| []]; reflexivity. Qed.

Lemma round_nearest_even_bounds (m : Z) (l : location) :
  m <= round_nearest_even m l <= m + 1.
Proof.
  destruct l as [| []]; cbn [round_nearest_even]; try lia.
  destruct (Z.even m); lia.
Qed.

Lemma digits2_pos_size (p : positive) : digits2_pos p = Pos.size p.
Proof. induction p; cbn; congruence. Qed.

Lemma Zdigits2_le (m k : Z) : 0 <= m -> 0 <= k -> m < 2 ^ k -> Zdigits2 m <= k.
Proof.
  intros Hm Hk Hlt. destruct m as [| p | p]; cbn [Zdigits2]; [lia | | lia].
  rewrite digits2_pos_size.
  destruct (Z.le_gt_cases (Z.pos (Pos.size p)) k) as [| Hgt]; [assumption | exfalso].
  pose proof (Pos.size_le p) as Hsz.
  assert (2 ^ k <= Z.pos p); [| lia].
  assert (Hk' : 2 ^ (k + 1) <= 2 ^ Z.pos (Pos.size p)) by (apply Z.pow_le_mono_r; lia).
  rewrite Z.pow_add_r in Hk' by lia. change (2 ^ 1) with 2 in Hk'.
  assert (Hp : 2 ^ Z.pos (Pos.size p) <= Z.pos p~0).
  { apply Pos2Z.pos_le_pos in Hsz. rewrite Pos2Z.inj_pow in Hsz. exact Hsz. }
  rewrite Pos2Z.inj_xO in Hp. lia.
Qed.

Lemma Zdigits2_gt (p : positive) : Z.pos p < 2 ^ Z.pos (digits2_pos p).
Proof.
  rewrite digits2_pos_size. pose proof (Pos.size_gt p) as H.
  apply Pos2Z.pos_lt_pos in H. rewrite Pos2Z.inj_pow in H. exact H.
Qed.


Lemma binary_round_aux_number (s : bool) (mx : positive) (ex : Z) :
  ex <= 104 -> Z.pos (digits2_pos mx) + ex <= 127 ->
  F32.is_number (binary_round_aux 24 128 s (Z.pos mx) ex loc_Exact) = true.
Proof.
  intros Hex Hd. unfold binary_round_aux, shr_fexp.
  set (d := Z.pos (digits2_pos mx)) in *.
  cbn [Zdigits2]. fold d.
  set (n1 := fexp 24 128 (d + ex) - ex).
  pose proof (shr_m_nonneg (shr_record_of_loc (Z.pos mx) loc_Exact) ex n1) as Hm'.
  pose proof (shr_e (shr_record_of_loc (Z.pos mx) loc_Exact) ex n1) as He'.
  assert (Hm1 : shr_m (fst (shr (shr_record_of_loc (Z.pos mx) loc_Exact) ex n1))
                = if 0 <? n1 then Z.pos mx / 2 ^ n1 else Z.pos mx).
  { destruct n1 as [| p | p]; cbn [shr fst Z.ltb Z.compare]; try reflexivity.
    rewrite iter_shr_1_m by (cbn; lia). reflexivity. }
  destruct (shr (shr_record_of_loc (Z.pos mx) loc_Exact) ex n1) as [mrs' e'].
  cbn [fst snd] in Hm', He', Hm1. specialize (Hm' ltac:(cbn; lia)).
  pose proof (round_nearest_even_bounds (shr_m mrs') (loc_of_shr_record mrs')) as Hr.
  set (m'' := round_nearest_even (shr_m mrs') (loc_of_shr_record mrs')) in *.
  set (n2 := fexp 24 128 (Zdigits2 m'' + e') - e').
  pose proof (shr_m_nonneg (shr_record_of_loc m'' loc_Exact) e' n2) as Hm2.
  pose proof (shr_e (shr_record_of_loc m'' loc_Exact) e' n2) as He2.
  destruct (shr (shr_record_of_loc m'' loc_Exact) e' n2) as [mrs'' e''].
  cbn [fst snd] in Hm2, He2. specialize (Hm2 ltac:(cbn; lia)).
  destruct (shr_m mrs'') as [| m | m]; [reflexivity | | lia].
  assert (Hfin : (e'' <=? 128 - 24) = true); [| rewrite Hfin; reflexivity].
  apply Z.leb_le. change (128 - 24) with 104.
  pose proof (Zdigits2_gt mx) as Hmx. fold d in Hmx.
  assert (Hdpos : 0 < d) by (unfold d; lia).
  assert (Hdig : Zdigits2 m'' + e' <= 128).
  { destruct (0 <? n1) eqn:Hn1.
    - apply Z.ltb_lt in Hn1.
      destruct (Z.le_gt_cases n1 d) as [Hle | Hgt].
      + assert (Hlt : shr_m mrs' < 2 ^ (d - n1)).
        { rewrite Hm1. apply Z.div_lt_upper_bound; [lia |].
          rewrite <- Z.pow_add_r by lia. replace (n1 + (d - n1)) with d by lia. exact Hmx. }
        assert (Zdigits2 m'' <= d - n1 + 1).
        { apply Zdigits2_le; try lia.
          rewrite Z.pow_add_r by lia. change (2 ^ 1) with 2. lia. }
        lia.
      + assert (Hz : shr_m mrs' = 0).
        { rewrite Hm1. apply Z.div_small. split; [lia |].
          apply Z.lt_le_trans with (2 ^ d); [exact Hmx |].
          apply Z.pow_le_mono_r; lia. }
        assert (Zdigits2 m'' <= 1) by (apply Zdigits2_le; try lia; change (2 ^ 1) with 2; lia).
        unfold n1, fexp, emin in *. lia.
    - apply Z.ltb_ge in Hn1.
      assert (Zdigits2 m'' <= d + 1).
      { apply Zdigits2_le; try lia.
        rewrite Z.pow_add_r by lia. change (2 ^ 1) with 2. lia. }
      lia. }
  unfold n2, n1, fexp, emin in *. lia.
Qed.

Lemma mul_number (x y : spec_float) :
  match x with
  | S754_finite _ mx ex =>
      match y with
      | S754_finite _ my ey =>
          ex + ey <= 104 /\ Z.pos (digits2_pos (mx * my)) + (ex + ey) <= 127
      | S754_zero _ => True
      | _ => False
      end
  | S754_zero _ => F32.is_number y = true
  | _ => False
  end ->
  F32.is_number (SFmul 24 128 x y) = true.
Proof.
  destruct x as [sx | sx | | sx mx ex], y as [sy | sy | | sy my ey]; cbn [SFmul F32.is_number];
    try tauto; try discriminate.
  intros [H1 H2]. apply binary_round_aux_number; assumption.
Qed.


Lemma digits_shift23 (m : positive) :
  Z.pos (digits2_pos (m~0~0~0~0~0~0~0~0~0~0~0~0~0~0~0~0~0~0~0~0~0~0~0))
  = Z.pos (digits2_pos m) + 23.
Proof. cbn [digits2_pos]. lia. Qed.

Lemma Pos_mul_shift23 (m : positive) :
  (8388608 * m = m~0~0~0~0~0~0~0~0~0~0~0~0~0~0~0~0~0~0~0~0~0~0~0)%positive.
Proof. reflexivity. Qed.

Lemma F32_mul_one_l (s : bool) (m : positive) (e : Z) :
  bounded F32.prec F32.emax m e = true ->
  F32.mul F32.one (S754_finite s m e) = S754_finite s m e.
Proof.
  intros Hb. unfold bounded, canonical_mantissa in Hb. apply andb_prop in Hb as [Hc He].
  apply Z.eqb_eq in Hc. unfold F32.prec, F32.emax in *.
  unfold F32.mul, F32.one, F32.prec, F32.emax, SFmul. cbn [xorb Pos.mul].
  rewrite Pos_mul_shift23.
  unfold binary_round_aux, shr_fexp. unfold Zdigits2 at 1.
  rewrite digits_shift23.
  replace (Z.pos (digits2_pos m) + 23 + (-23 + e)) with (Z.pos (digits2_pos m) + e) by lia.
  rewrite Hc. replace (e - (-23 + e)) with 23 by lia.
  cbn [shr shr_record_of_loc SpecFloat.iter_pos shr_1 orb shr_m loc_of_shr_record round_nearest_even].
  replace (-23 + e + 23) with e by lia.
  unfold Zdigits2. rewrite Hc, Z.sub_diag. cbn [shr shr_m].
  rewrite He. reflexivity.
Qed.

Lemma F32_eqb_canon (x : f32) : F32.is_finite x = true -> F32.eqb (F32.canon x) x = true.
Proof.
  destruct x as [s | s | | s m e]; try discriminate; intros _.
  - reflexivity.
  - unfold F32.eqb, SFeqb, F32.canon, SFcompare.
    rewrite Z.compare_refl, Pos.compare_cont_refl. destruct s; reflexivity.
Qed.

(** a row of the product of the transition at [dt = 0] *)
Lemma F32_identity_row (a b : f32) :
  F32.is_finite a = true -> F32.is_finite b = true ->
  F32.add (F32.add (F32.add F32.zero (F32.mul F32.one a)) (F32.mul F32.zero b)) F32.zero
  = F32.canon a /\
  F32.add (F32.add (F32.add F32.zero (F32.mul F32.zero a)) (F32.mul F32.one b)) F32.zero
  = F32.canon b.
Proof.
  intros Ha Hb.
  destruct a as [sa | sa | | sa ma ea]; try discriminate;
  destruct b as [sb | sb | | sb mb eb]; try discriminate;
  cbn [F32.is_finite] in Ha, Hb;
  rewrite ?(F32_mul_one_l _ _ _ Ha), ?(F32_mul_one_l _ _ _ Hb);
  split; destruct sa, sb; reflexivity.
Qed.

Lemma F32_zero_times (u : f32) :
  F32.is_finite u = true -> F32.add F32.zero (F32.mul F32.zero u) = F32.zero.
Proof. destruct u as [[] | | | [] m e]; try discriminate; reflexivity. Qed.

Lemma F32_scaled_number (c : Z) (q : f32) :
  c = -24 \/ c = -25 ->
  F32.is_finite q = true ->
  F32.is_number (F32.mul (S754_finite false 8388608 c) q) = true.
Proof.
  intros Hc Hq. apply mul_number.
  destruct q as [s | s | | s m e]; try discriminate; [exact I |].
  cbn [F32.is_finite] in Hq. unfold bounded, canonical_mantissa in Hq.
  apply andb_prop in Hq as [Hcan He]. apply Z.eqb_eq in Hcan. apply Z.leb_le in He.
  unfold F32.prec, F32.emax, fexp, emin in *.
  rewrite Pos_mul_shift23, digits_shift23. lia.
Qed.

Lemma F32_number_times_zero (a pz : f32) :
  F32.is_number a = true -> F32.is_zero pz = true -> F32.is_zero (F32.mul a pz) = true.
Proof.
  destruct a as [? | ? | | ? ? ?], pz as [? | ? | | ? ? ?]; try discriminate; reflexivity.
Qed.

Lemma F32_finite_number (q : f32) : F32.is_finite q = true -> F32.is_number q = true.
Proof. destruct q; try discriminate; reflexivity. Qed.

Lemma F32_noise_zero (q pz : f32) :
  F32.is_finite q = true -> F32.is_zero pz = true ->
  F32.is_zero (F32.mul (F32.mul F32.quarter q) pz) = true /\
  F32.is_zero (F32.mul (F32.mul F32.half q) pz) = true /\
  F32.is_zero (F32.mul (F32.mul q F32.zero) F32.zero) = true.
Proof.
  intros Hq Hz. repeat split.
  - apply F32_number_times_zero; [apply F32_scaled_number; auto | exact Hz].
  - apply F32_number_times_zero; [apply F32_scaled_number; auto | exact Hz].
  - destruct q as [? | ? | | ? ? ?]; try discriminate; reflexivity.
Qed.

(** the constants are the values of the C literals *)
Lemma F32_constants :
  F32.one = F32.of_Z 1 /\ F32.three = F32.of_Z 3 /\ F32.four = F32.of_Z 4 /\
  F32.thousand = F32.of_Z 1000 /\
  F32.half = F32.div F32.one (F32.of_Z 2) /\
  F32.quarter = F32.div F32.one (F32.of_Z 4) /\
  f32_two = F32.of_Z 2 /\ f32_five = F32.of_Z 5.
Proof. repeat split. Qed.

Lemma F32_dt_zero :
  F32.div (F32.div (F32.of_Z 0) F32.thousand) F32.thousand = F32.zero.
Proof. reflexivity. Qed.

Lemma F32_half_dt2_zero : F32.mul (F32.mul F32.half F32.zero) F32.zero = F32.zero.
Proof. reflexivity. Qed.

Lemma F32_eqb_refl (x : f32) : x <> S754_nan -> F32.eqb x x = true.
Proof.
  destruct x as [s | s | | s m e]; intros Hx; try congruence.
  - reflexivity.
  - destruct s; reflexivity.
  - unfold F32.eqb, SFeqb, SFcompare.
    rewrite Z.compare_refl, Pos.compare_cont_refl. destruct s; reflexivity.
Qed.

Lemma clamp_not_nan (limit v : f32) : v <> S754_nan -> clamp limit v <> S754_nan.
Proof.
  intros Hv. unfold clamp.
  destruct (F32.ltb limit v) eqn:H1.
  - destruct limit; try discriminate; destruct v; discriminate.
  - destruct (F32.ltb v (F32.opp limit)) eqn:H2; [| exact Hv].
    destruct limit; try discriminate; destruct v; discriminate.
Qed.

(** above the limit the clamp returns the limit, which is not the value *)
Lemma clamp_above (limit v : f32) :
  F32.ltb limit v = true -> clamp limit v = limit /\ F32.eqb limit v = false.
Proof.
  intros H. unfold clamp. rewrite H. split; [reflexivity |].
  unfold F32.ltb, F32.eqb, SFltb, SFeqb in *.
  destruct (SFcompare limit v) as [[] |]; congruence.
Qed.

Lemma clamp_canon (limit v : f32) :
  F32.is_finite v = true -> F32.eqb (clamp limit (F32.canon v)) (clamp limit v) = true.
Proof.
  intros Hv. destruct v as [s | s | | s m e]; try discriminate.
  - cbn [F32.canon].
    assert (Hsame : clamp limit (S754_zero s) = S754_zero s /\ clamp limit F32.zero = F32.zero
                    \/ clamp limit (S754_zero s) = clamp limit F32.zero).
    { unfold clamp. destruct limit as [[] | [] | | [] ml el], s; cbn; tauto. }
    destruct Hsame as [[-> ->] | ->]; [reflexivity |].
    apply F32_eqb_refl, clamp_not_nan. discriminate.
  - cbn [F32.canon]. apply F32_eqb_refl, clamp_not_nan. discriminate.
Qed.

(** ** The supervisor task *)

Lemma sensors_task_counterexample :
  ~ task_routes_by_tag example_config powf_products eekf_predict_model
      eekf_lazy_correct_failing
      {| sensors := example_sensors; xSensors_input := [example_acceleration] |}.
Proof.
  intros H. specialize (H axis_Z). apply (f_equal lastTimestamp) in H.
  vm_compute in H. discriminate H.
Qed.

(** C1, where the code departs from it. For every state of the task and of
    its queue, one iteration of [sensors_task] leaves the three axis filters
    exactly as they were and calls the EKF engine for none of them, whatever
    the tag of the event it took: no fuser is invoked. What the task does
    with the event: it logs one line at the level INFO for an ACCELERATION,
    a POSITION or a GROUNDSPEED event and none for the other tags, and it
    records the time stamp of the event in [timeouts] at the index of its
    tag; on an empty queue the state is unchanged and no such line is
    logged. *)
Theorem sensors_task_calls_no_fuser (cfg : sensors_config) (st : sensors_state) :
  let r := sensors_task cfg st in
  Z_ (sensors (fst r)) = Z_ (sensors st) /\
  Y_ (sensors (fst r)) = Y_ (sensors st) /\
  X_ (sensors (fst r)) = X_ (sensors st) /\
  Forall (fun c => is_eekf_call c = false) (snd r) /\
  match xSensors_input st with
  | input :: _ =>
      timeouts (sensors (fst r))
      = <[sensors_type_index (input_type input) := input_timestamp input]>
          (timeouts (sensors st)) /\
      info_logs (snd r)
      = match input_type input with
        | SENSORS_ACCELERATION => ["%llu,A,%f,%f,%f,%f"%string]
        | SENSORS_POSITION => ["%llu,P,%f,%f,%f,%f"%string]
        | SENSORS_GROUNDSPEED => ["%llu,S,%f,%f,%f"%string]
        | _ => []
        end
  | [] => fst r = st /\ info_logs (snd r) = []
  end.
Proof.
  cbn zeta. unfold sensors_task.
  destruct (xSensors_input st) as [| input queue].
  - cbn. repeat split. repeat constructor.
  - assert (Hlogs : forall c2 c3 : list sensors_call,
              info_logs c2 = [] -> info_logs c3 = [] ->
              info_logs
                (match input_type input with
                 | SENSORS_ACCELERATION => [call_ESP_LOG ESP_LOG_INFO "%llu,A,%f,%f,%f,%f"]
                 | SENSORS_POSITION => [call_ESP_LOG ESP_LOG_INFO "%llu,P,%f,%f,%f,%f"]
                 | SENSORS_GROUNDSPEED => [call_ESP_LOG ESP_LOG_INFO "%llu,S,%f,%f,%f"]
                 | _ => []
                 end ++ c2 ++ c3)
              = match input_type input with
                | SENSORS_ACCELERATION => ["%llu,A,%f,%f,%f,%f"%string]
                | SENSORS_POSITION => ["%llu,P,%f,%f,%f,%f"%string]
                | SENSORS_GROUNDSPEED => ["%llu,S,%f,%f,%f"%string]
                | _ => []
                end).
    { intros c2 c3 H2 H3. unfold info_logs in *. rewrite !bind_app, H2, H3.
      destruct (input_type input); reflexivity. }
    assert (Hc3 : forall (f : nat -> bool),
              info_logs (i ← seq 0 (sensors_type_index SENSORS_POSITION);
                         if f i then [call_ESP_LOG ESP_LOG_ERROR "timeout of sensor %u"]
                         else []) = []).
    { intros f. cbn [sensors_type_index seq mbind list_bind]. unfold info_logs.
      rewrite !bind_app. destruct (f 0%nat), (f 1%nat), (f 2%nat), (f 3%nat); reflexivity. }
    destruct (_ <=? 1); cbn [fst snd sensors Z_ Y_ X_ timeouts]; repeat split.
    all: try (apply Hlogs; [reflexivity |];
              exact (Hc3 (fun i => default 0
                       (<[sensors_type_index (input_type input) := input_timestamp input]>
                          (timeouts (sensors st)) !! i)
                       <? input_timestamp input - SENSORS_TIMEOUT_MS cfg * 1000))).
    all: rewrite !Forall_app; repeat split.
    all: try (destruct (input_type input); repeat constructor).
    all: cbn [sensors_type_index seq mbind list_bind].
    all: repeat (rewrite Forall_app; split).
    all: try (match goal with
              | |- Forall _ (if ?b then _ else _) => destruct b
              end; repeat constructor).
    all: repeat constructor.
Qed.

(** ** A prediction at the time stamp of the last one *)


Section EqualTimestamp.

Variable cfg : sensors_config.
Variable powf : f32 -> f32 -> f32.
Variable eekf_predict :
  eekf_context -> eekf_mat -> eekf_mat -> eekf_return * eekf_context.
Variable eekf_lazy_correct :
  eekf_context -> eekf_mat -> eekf_mat -> eekf_return * eekf_context.

Local Abbreviation fuse := (sensors_fuse cfg powf eekf_predict eekf_lazy_correct).

(** the transition of every axis at [dt = 0], on a finite state *)
Lemma transition_at_dt_zero (a : axis_id) (xp Jf : eekf_mat) (x0 x1 v : f32) :
  mat_shape xp 2 1 -> mat_shape Jf 2 2 ->
  F32.is_finite x0 = true -> F32.is_finite x1 = true -> F32.is_finite v = true ->
  sensors_fuse_transition cfg a xp Jf
    {| rows := 2; cols := 1; elements := [x0; x1] |}
    (EEKF_DECL_MAT_INIT 1 1 [v]) (userData_float F32.zero)
  = (eEekfReturnOk,
     {| rows := 2; cols := 1;
        elements := [F32.canon x0; clamp (SENSORS_FUSE_LIMIT_VEL cfg a) (F32.canon x1)] |},
     {| rows := 2; cols := 2; elements := [F32.one; F32.zero; F32.zero; F32.one] |}).
Proof.
  intros (Hr & Hc & Hl) (Hr' & Hc' & Hl') H0 H1 Hv.
  destruct xp as [r c e], Jf as [r' c' e']. cbn in Hr, Hc, Hl, Hr', Hc', Hl'. subst.
  destruct e as [| p0 [| p1 [| ? ?]]]; try discriminate.
  destruct e' as [| j0 [| j1 [| j2 [| j3 [| ? ?]]]]]; try discriminate.
  destruct (F32_identity_row x0 x1 H0 H1) as [Hrow0 Hrow1].
  pose proof (F32_zero_times v Hv) as Hgu.
  destruct a; cbn [sensors_fuse_transition SENSORS_FUSE_LIMIT_VEL].
  all: unfold sensors_fuseZ_transition, sensors_fuseY_transition, sensors_fuseX_transition.
  all: cbv -[F32.add F32.mul F32.ltb F32.opp F32.one F32.zero F32.half F32.canon clamp
            SENSORS_FUSE_Z_LIMIT_VEL SENSORS_FUSE_Y_LIMIT_VEL SENSORS_FUSE_X_LIMIT_VEL].
  all: rewrite F32_half_dt2_zero, Hgu, Hrow0, Hrow1.
  all: unfold clamp.
  all: match goal with |- context [F32.ltb ?l ?v] => destruct (F32.ltb l v) end; [reflexivity |].
  all: match goal with |- context [F32.ltb ?l ?v] => destruct (F32.ltb l v) end; reflexivity.
Qed.

(** C10, as the code has it. On every axis fuser an ACCELERATION event whose
    time stamp equals [lastTimestamp] is accepted: [eekf_predict] is called
    with [dt = 0] and [lastTimestamp] stays. For a finite acceleration (and a
    [powf] that is zero at zero) every entry of [Q] is zero and [G u] is zero.
    On a finite state the transition returns [F] equal to the identity, the
    position it was given and the velocity it was given after the clamp to
    the velocity limit of the axis, a zero being returned as the positive
    zero: the velocity is the prior one when that lies within the limit. *)
Theorem equal_timestamp_is_predicted (a : axis_id) (s : axis_t) (v x0 x1 : f32)
    (xp Jf : eekf_mat) :
  ctx_x (ekf s) = {| rows := 2; cols := 1; elements := [x0; x1] |} ->
  F32.is_finite x0 = true -> F32.is_finite x1 = true -> F32.is_finite v = true ->
  F32.is_finite (F32.add (F32.abs v) (SENSORS_FUSE_ERROR_ACCELERATION cfg a)) = true ->
  F32.is_zero (powf F32.zero F32.four) = true ->
  F32.is_zero (powf F32.zero F32.three) = true ->
  mat_shape xp 2 1 -> mat_shape Jf 2 2 ->
  let ctx := set_userData (userData_float F32.zero) (ekf s) in
  let u := EEKF_DECL_MAT_INIT 1 1 [v] in
  let limit := SENSORS_FUSE_LIMIT_VEL cfg a in
  let r := fuse a SENSORS_ACCELERATION v (lastTimestamp s) s in
  (exists Q rest,
     snd r = call_eekf_predict ctx u Q :: rest /\
     ekf (fst r) = snd (eekf_predict ctx u Q) /\
     lastTimestamp (fst r) = lastTimestamp s /\
     mat_shape Q 2 2 /\
     Forall (fun q => F32.is_zero q = true) (elements Q)) /\
  eekf_mat_mul (EEKF_DECL_MAT_INIT 2 1 [F32.zero])
    (EEKF_DECL_MAT_INIT 2 1 [F32.mul (F32.mul F32.half F32.zero) F32.zero; F32.zero]) u
  = Some {| rows := 2; cols := 1; elements := [F32.zero; F32.zero] |} /\
  sensors_fuse_transition cfg a xp Jf (ctx_x ctx) u (ctx_userData ctx)
  = (eEekfReturnOk,
     {| rows := 2; cols := 1;
        elements := [F32.canon x0; clamp limit (F32.canon x1)] |},
     {| rows := 2; cols := 2; elements := [F32.one; F32.zero; F32.zero; F32.one] |}) /\
  F32.eqb (F32.canon x0) x0 = true /\
  F32.eqb (clamp limit (F32.canon x1)) (clamp limit x1) = true.
Proof.
  intros Hx H0 H1 Hv Hq Hp4 Hp3 Hxp HJf. cbn zeta.
  destruct (F32_noise_zero _ _ Hq Hp4) as (Hq00 & _ & Hq11).
  destruct (F32_noise_zero _ _ Hq Hp3) as (_ & Hq01 & _).
  split; [| split; [| split; [| split]]].
  - destruct a; cbn [sensors_fuse SENSORS_FUSE_ERROR_ACCELERATION] in *;
      unfold sensors_fuseZ, sensors_fuseY, sensors_fuseX;
      rewrite decide_True by reflexivity;
      rewrite Z.ltb_irrefl, Z.sub_diag, F32_dt_zero;
      cbn [ekf set_ekf set_lastTimestamp lastTimestamp z_];
      match goal with
      | |- context [eekf_predict ?c ?u ?Q] =>
          exists Q; destruct (eekf_predict c u Q) as [ret c'] eqn:Hcall
      end;
      eexists; (split; [cbn [snd]; reflexivity |]);
      (split; [reflexivity |]); (split; [reflexivity |]);
      (split; [repeat split |]);
      cbv -[F32.add F32.mul F32.abs F32.is_zero F32.quarter F32.half F32.four F32.three
            F32.zero SENSORS_FUSE_Z_ERROR_ACCELERATION SENSORS_FUSE_Y_ERROR_ACCELERATION
            SENSORS_FUSE_X_ERROR_ACCELERATION];
      repeat constructor; assumption.
  - pose proof (F32_zero_times v Hv) as Hgu.
    cbv -[F32.add F32.mul F32.zero F32.half].
    rewrite F32_half_dt2_zero, Hgu. reflexivity.
  - cbn [ctx_x ctx_userData set_userData]. rewrite Hx.
    apply transition_at_dt_zero; assumption.
  - apply F32_eqb_canon. exact H0.
  - apply clamp_canon. exact H1.
Qed.

End EqualTimestamp.

Lemma equal_timestamp_is_predicted_witness :
  let s := fst (example_fuse axis_Z SENSORS_ACCELERATION F32.one 1000 (Z_ example_sensors)) in
  let x0 := S754_finite false 8796094 (-44) in
  let x1 := S754_finite false 8589935 (-33) in
  lastTimestamp s = 1000 /\
  lastTimestamp (fst (example_fuse axis_Z SENSORS_ACCELERATION F32.one 1000 s)) = 1000 /\
  sensors_fuseZ_transition example_config (EEKF_CALLOC_MATRIX 2 1) (EEKF_CALLOC_MATRIX 2 2)
    (ctx_x (ekf s)) (EEKF_DECL_MAT_INIT 1 1 [F32.one]) (userData_float F32.zero)
  = (eEekfReturnOk,
     {| rows := 2; cols := 1; elements := [x0; x1] |},
     {| rows := 2; cols := 2; elements := [F32.one; F32.zero; F32.zero; F32.one] |}).
Proof.
  cbn zeta.
  pose proof (equal_timestamp_is_predicted example_config powf_products eekf_predict_model
                eekf_lazy_correct_failing axis_Z
                (fst (example_fuse axis_Z SENSORS_ACCELERATION F32.one 1000 (Z_ example_sensors)))
                F32.one (S754_finite false 8796094 (-44)) (S754_finite false 8589935 (-33))
                (EEKF_CALLOC_MATRIX 2 1) (EEKF_CALLOC_MATRIX 2 2)
                eq_refl eq_refl eq_refl eq_refl eq_refl eq_refl eq_refl) as H.
  cbn zeta in H.
  destruct H as ((Q & rest & _ & _ & Hts & _) & _ & Htr & _);
    [vm_compute; repeat split | vm_compute; repeat split |].
  split; [reflexivity |]. split; [exact Hts | exact Htr].
Defined.

Lemma equal_timestamp_counterexample :
  ~ equal_timestamp_keeps_state example_config axis_Z F32.zero f32_five F32.zero.
Proof.
  intros (xp & Jf & Hrun & _ & Hv).
  vm_compute in Hrun. injection Hrun as <- _.
  vm_compute in Hv. discriminate Hv.
Qed.


(** ** The remote task *)


Lemma heartbeat_counterexample :
  ~ heartbeat_as_specified 600000 (example_remote 1 true [] ∅).
Proof.
  intros H. destruct H as [H _]; [discriminate | reflexivity |].
  vm_compute in H. destruct H as [H | []]. discriminate H.
Qed.

(** the parser makes no call *)
Lemma remote_processMessage_nil (h : heap_t) (m : remote_input_message_t) :
  remote_processMessage h m = [].
Proof.
  unfold remote_processMessage.
  destruct (msg_length m <? 2); [reflexivity |].
  destruct (default [] (h !! msg_data m) !! 0%nat) as [b |]; [| reflexivity].
  destruct b; try reflexivity.
  destruct (default [] (h !! msg_data m) !! 1%nat) as [b |]; [| reflexivity].
  destruct b; reflexivity.
Qed.

Lemma processMessage_counterexample :
  ~ forwards_control_command {[1%positive := ["c"%byte; "1"%byte]]} (example_message 1 2).
Proof.
  intros H. specialize (H ltac:(cbn; lia) eq_refl).
  rewrite remote_processMessage_nil in H. discriminate H.
Qed.

(** C4, where the code departs from it. For every heap and every inbound
    frame, whatever its length and its first byte, [remote_processMessage]
    makes no call: a frame of two bytes or more that starts with the letter
    c is recognised and dropped, nothing is forwarded to the flight
    controller, and a frame of fewer than two bytes is ignored. When the
    task takes a MESSAGE_RECEIVE event its only call is the release of the
    buffer. *)
Theorem processMessage_forwards_nothing (h : heap_t) (m : remote_input_message_t)
    (st : remote_state) :
  remote_processMessage h m = [] /\
  match xRemote_input st with
  | input :: _ =>
      match type_ input with
      | REMOTE_INPUT_MESSAGE_RECEIVE =>
          snd (remote_task_receive st) = [call_free (msg_data (message input))]
      | _ => True
      end
  | [] => True
  end.
Proof.
  split; [apply remote_processMessage_nil |].
  unfold remote_task_receive. destruct (xRemote_input st) as [| input queue]; [exact I |].
  destruct (type_ input); try exact I.
  cbn [snd]. rewrite remote_processMessage_nil. reflexivity.
Qed.

(** what the task does on an event is no call to the flight controller *)
Lemma receive_no_control_call (st : remote_state) :
  Forall (fun c => c <> call_emergency_stop /\ forall b, c <> call_control_command b)
         (snd (remote_task_receive st)).
Proof.
  unfold remote_task_receive.
  destruct (xRemote_input st) as [| input queue]; [constructor |].
  destruct (type_ input); cbn [snd]; try constructor.
  - rewrite remote_processMessage_nil. repeat constructor; congruence.
  - unfold remote_sendMessage. 
    destruct (negb _); [destruct (msg_ws (message input)) |]; repeat constructor; congruence.
Qed.

(** C3, where the code departs from it. On every wake of the task, once the
    event taken from the queue (if any) is handled, with a connection count
    other than zero and more than 500 ms since [lastContact]: if no
    heartbeat is pending the task broadcasts the two bytes s? on /ws, sets the
    pending flag and sets [lastContact] to the current time; if one is
    pending it prints "remote timeout" and clears the flag. In neither case
    is a call made to the flight controller: no emergency stop is raised.
    The connection count is as it was. *)
Theorem heartbeat_window_elapsed (now : Z) (st : remote_state) :
  let st1 := fst (remote_task_receive st) in
  let r := remote_task now st in
  connected (remote st1) <> 0 -> now - lastContact st1 > 500000 ->
  connected (remote (fst r)) = connected (remote st1) /\
  Forall (fun c => c <> call_emergency_stop /\ forall b, c <> call_control_command b) (snd r) /\
  if timeoutPending st1
  then snd r = snd (remote_task_receive st) ++ [call_printf ("remote timeout" ++ LF)] /\
       timeoutPending (fst r) = false /\ lastContact (fst r) = lastContact st1
  else snd r = snd (remote_task_receive st)
               ++ [call_cgiWebsockBroadcast "/ws" ["s"%byte; "?"%byte]] /\
       timeoutPending (fst r) = true /\ lastContact (fst r) = now.
Proof.
  cbn zeta. intros Hc Ht. pose proof (receive_no_control_call st) as Hrecv.
  unfold remote_task. destruct (remote_task_receive st) as [st1 c1]. cbn [fst snd] in *.
  unfold remote_task_timeout.
  apply Z.eqb_neq in Hc. rewrite Hc. 
  assert ((now - lastContact st1 >? 500000) = true) as -> by lia.
  cbn [negb andb].
  destruct (timeoutPending st1); cbn [fst snd]; (split; [reflexivity |]); 
    (split; [| repeat split]);
    rewrite Forall_app; (split; [exact Hrecv |]); repeat constructor; congruence.
Qed.

Lemma heartbeat_window_elapsed_witness :
  (let r := remote_task 600000 (example_remote 1 false [] ∅) in
   snd r = [call_cgiWebsockBroadcast "/ws" ["s"%byte; "?"%byte]] /\
   timeoutPending (fst r) = true /\ lastContact (fst r) = 600000) /\
  (let r := remote_task 600000 (example_remote 1 true [] ∅) in
   snd r = [call_printf ("remote timeout" ++ LF)] /\
   timeoutPending (fst r) = false /\ lastContact (fst r) = 0).
Proof.
  cbn zeta. split.
  - pose proof (heartbeat_window_elapsed 600000 (example_remote 1 false [] ∅)) as H.
    cbn zeta in H.
    destruct H as (_ & _ & H); [vm_compute; discriminate | vm_compute; reflexivity |].
    exact H.
  - pose proof (heartbeat_window_elapsed 600000 (example_remote 1 true [] ∅)) as H.
    cbn zeta in H.
    destruct H as (_ & _ & H); [vm_compute; discriminate | vm_compute; reflexivity |].
    exact H.
Defined.

(** C8. A DISCONNECTED event is handled by a decrement of the 8-bit count of
    connections, with no test, whatever the count: a count other than 0
    goes down by one, and the count 0 becomes 255. In this last case the
    heartbeat of the same wake runs as with connections (a ping, or the
    time-out, once 500 ms have passed since [lastContact]), and the send
    path sends every message it is given. *)
Theorem disconnect_wraps_connected (now : Z) (st : remote_state)
    (input : remote_input_t) (queue : list remote_input_t) :
  xRemote_input st = input :: queue ->
  type_ input = REMOTE_INPUT_DISCONNECTED ->
  0 <= connected (remote st) < 256 ->
  let r := remote_task now st in
  connected (remote (fst r))
  = (if connected (remote st) =? 0 then 255 else connected (remote st) - 1) /\
  xRemote_input (fst r) = queue /\
  (connected (remote st) = 0 ->
   snd r =
     (if now - lastContact st >? 500000
      then if timeoutPending st
           then [call_printf ("remote timeout" ++ LF)]
           else [call_cgiWebsockBroadcast "/ws" ["s"%byte; "?"%byte]]
      else []) /\
   forall m : remote_input_message_t,
     remote_sendMessage (fst r) m =
     match msg_ws m with
     | Some ws => [call_cgiWebsocketSend ws (read_buffer (heap st) (msg_data m) (msg_length m))]
     | None => [call_cgiWebsockBroadcast "/ws" (read_buffer (heap st) (msg_data m) (msg_length m))]
     end).
Proof.
  intros Hq Hty Hrange. cbn zeta.
  unfold remote_task, remote_task_receive. rewrite Hq, Hty.
  cbn [set_xRemote_input set_connected set_remote remote connected].
  unfold remote_task_timeout.
  cbn [remote connected lastContact timeoutPending
       set_xRemote_input set_connected set_remote].
  assert (Hdec : (connected (remote st) - 1) mod 256
                 = (if connected (remote st) =? 0 then 255 else connected (remote st) - 1)).
  { destruct (Z.eqb_spec (connected (remote st)) 0) as [-> | Hne]; [reflexivity |].
    apply Z.mod_small. lia. }
  split; [| split].
  - destruct (negb _ && _); [destruct (timeoutPending st) |]; cbn; exact Hdec.
  - destruct (negb _ && _); [destruct (timeoutPending st) |]; reflexivity.
  - intros Hc. rewrite Hc. change ((0 - 1) mod 256) with 255.
    cbn [negb Z.eqb andb].
    destruct (now - lastContact st >? 500000); [destruct (timeoutPending st) |];
      cbn; repeat split.
Qed.

Lemma disconnect_wraps_connected_witness :
  let gone := {| type_ := REMOTE_INPUT_DISCONNECTED; message := example_message 1 0 |} in
  (connected (remote (fst (remote_task 600000 (example_remote 0 false [gone] ∅)))) = 255 /\
   snd (remote_task 600000 (example_remote 0 false [gone] ∅))
   = [call_cgiWebsockBroadcast "/ws" ["s"%byte; "?"%byte]]) /\
  connected (remote (fst (remote_task 0 (example_remote 3 false [gone] ∅)))) = 2.
Proof.
  cbn zeta. split.
  - destruct (disconnect_wraps_connected 600000
                (example_remote 0 false
                   [{| type_ := REMOTE_INPUT_DISCONNECTED; message := example_message 1 0 |}] ∅)
                {| type_ := REMOTE_INPUT_DISCONNECTED; message := example_message 1 0 |} [])
      as (H1 & _ & H2); [reflexivity | reflexivity | cbn; lia |].
    destruct (H2 eq_refl) as [H3 _]. split; [exact H1 | exact H3].
  - destruct (disconnect_wraps_connected 0
                (example_remote 3 false
                   [{| type_ := REMOTE_INPUT_DISCONNECTED; message := example_message 1 0 |}] ∅)
                {| type_ := REMOTE_INPUT_DISCONNECTED; message := example_message 1 0 |} [])
      as (H1 & _); [reflexivity | reflexivity | cbn; lia |].
    exact H1.
Defined.

(** the address given by [malloc] is not in use *)
Lemma malloc_spec (n : nat) (h : heap_t) :
  let '(p, h') := malloc n h in
  p = fresh (dom h) /\ h !! p = None /\ h' = <[p := replicate n "000"%byte]> h.
Proof.
  unfold malloc. repeat split.
  apply not_elem_of_dom. apply is_fresh.
Qed.

Lemma wsReceive_free_counterexample :
  ~ free_on_truncated_length 7 0 (replicate 300 "c"%byte) 300 (example_remote 1 false [] ∅).
Proof.
  unfold free_on_truncated_length. vm_compute. discriminate.
Qed.

(** C9, as the code has it. [remote_wsReceive] on a frame of [len >= 256]
    bytes: the new buffer holds all the [len] bytes of the frame, and the
    event made for it records the length [len mod 256], below 256; the event
    is queued if the queue has room. When the task takes this event, the
    parser works on the length recorded: it takes the frame for too short
    exactly when [len mod 256] is below 2, whatever the bytes of the frame.
    The release does not: [free] is given the address only, and the buffer
    is released whole, with its [len] bytes. *)
Theorem wsReceive_length_truncated (now : Z) (ws : nat) (data : list byte) (len : Z)
    (st : remote_state) :
  256 <= len ->
  Z.of_nat (length data) = len ->
  let st' := fst (remote_wsReceive now ws data len st) in
  exists p : positive,
    let input :=
      {| type_ := REMOTE_INPUT_MESSAGE_RECEIVE;
         message := {| msg_data := p; msg_length := len mod 256; msg_ws := Some ws;
                       msg_timestamp := now |} |} in
    heap st !! p = None /\
    heap st' !! p = Some data /\
    xRemote_input st'
    = (if Z.of_nat (length (xRemote_input st)) <? xRemote_input_length
       then xRemote_input st ++ [input] else xRemote_input st) /\
    msg_length (message input) < 256 <= Z.of_nat (length data) /\
    forall (st2 : remote_state) (queue : list remote_input_t),
      xRemote_input st2 = input :: queue ->
      snd (remote_task_receive st2)
      = remote_processMessage (heap st2) (message input) ++ [call_free p] /\
      (remote_processMessage_path (heap st2) (message input) = parse_too_short
       <-> len mod 256 < 2) /\
      heap (fst (remote_task_receive st2)) = delete p (heap st2) /\
      heap (fst (remote_task_receive st2)) !! p = None.
Proof.
  intros Hlen Hdata. cbn zeta.
  unfold remote_wsReceive, malloc, xQueueSend.
  cbn [set_heap xRemote_input heap].
  exists (fresh (dom (heap st))).
  split; [apply not_elem_of_dom; apply is_fresh |].
  split.
  { destruct (_ <? xRemote_input_length); cbn [fst heap set_heap set_xRemote_input];
      rewrite lookup_insert_eq; f_equal; apply firstn_all2; lia. }
  split.
  { destruct (_ <? xRemote_input_length); reflexivity. }
  split.
  { cbn [msg_length message]. pose proof (Z.mod_pos_bound len 256). lia. }
  intros st2 queue Hq. unfold remote_task_receive. rewrite Hq.
  cbn [type_ message msg_data fst snd heap set_heap set_lastContact set_timeoutPending
       set_xRemote_input].
  split; [reflexivity |]. split.
  { unfold remote_processMessage_path. cbn [msg_length msg_data].
    destruct (Z.ltb_spec (len mod 256) 2) as [Hshort | Hlong].
    - split; [intros _; exact Hshort | reflexivity].
    - split; [| lia].
      destruct (default [] (heap st2 !! fresh (dom (heap st))) !! 0%nat) as [b |];
        [| discriminate].
      destruct b; try discriminate.
      destruct (default [] (heap st2 !! fresh (dom (heap st))) !! 1%nat) as [b |];
        [| discriminate].
      destruct b; discriminate. }
  split; [reflexivity |]. unfold free. apply lookup_delete_eq.
Qed.

Lemma wsReceive_length_truncated_witness :
  let data := replicate 256 "c"%byte in
  let st' := fst (remote_wsReceive 7 0 data 256 (example_remote 1 false [] ∅)) in
  exists p : positive,
    let m := {| msg_data := p; msg_length := 0; msg_ws := Some 0%nat; msg_timestamp := 7 |} in
    heap st' !! p = Some data /\
    xRemote_input st' = [{| type_ := REMOTE_INPUT_MESSAGE_RECEIVE; message := m |}] /\
    remote_processMessage_path (heap st') m = parse_too_short /\
    heap (fst (remote_task_receive st')) !! p = None.
Proof.
  cbn zeta.
  destruct (wsReceive_length_truncated 7 0 (replicate 256 "c"%byte) 256
              (example_remote 1 false [] ∅))
    as (p & _ & Hheap & Hqueue & _ & Htask); [lia | reflexivity |].
  exists p. split; [exact Hheap |]. split; [exact Hqueue |].
  destruct (Htask _ [] Hqueue) as (_ & Hpath & _ & Hfree).
  split; [apply Hpath; reflexivity | exact Hfree].
Defined.

(** ** The log redirector *)


Section PrintLog.
Variable vformat : string -> va_list -> option (list byte).

Lemma xQueueSend_remote (input : remote_input_t) (st : remote_state) :
  remote (fst (xQueueSend input st)) = remote st.
Proof. unfold xQueueSend. destruct (_ <? _); reflexivity. Qed.

(** L-log-passthrough: in all cases the captured sink is called once, with
    the format and the arguments of the line, and its result is returned. *)
Lemma printLog_passthrough (format : string) (arguments : va_list) (st : remote_state) :
  let '(_, ret, calls) := remote_printLog vformat format arguments st in
  ret = defaultLog (remote st) format arguments /\
  sink_calls calls = [(format, arguments)].
Proof.
  unfold remote_printLog, malloc.
  destruct (vsnprintf vformat 127 format arguments) as [n written].
  destruct (_ || _).
  - split; reflexivity.
  - pose proof (xQueueSend_remote) as Hr.
    match goal with |- context [xQueueSend ?i ?s] =>
      specialize (Hr i s); destruct (xQueueSend i s) as [st' ok] end.
    cbn in Hr. rewrite Hr. split; reflexivity.
Qed.

(** On an overflow of the buffer or an error of the formatting the buffer is
    released, once, nothing is queued and the sink is called. *)
Lemma printLog_overflow_releases (format : string) (arguments : va_list) (st : remote_state) :
  match vformat format arguments with
  | Some text => (127 < length text)%nat
  | None => True
  end ->
  let p := fresh (dom (heap st)) in
  let '(st', _, calls) := remote_printLog vformat format arguments st in
  calls = [call_malloc p 128; call_free p; call_defaultLog format arguments] /\
  heap st' = heap st /\
  xRemote_input st' = xRemote_input st.
Proof.
  intros Hover. cbn zeta. unfold remote_printLog, malloc, vsnprintf.
  assert (Hfresh : heap st !! fresh (dom (heap st)) = None)
    by (apply not_elem_of_dom, is_fresh).
  destruct (vformat format arguments) as [text |].
  - assert (Hgt : (Z.of_nat (length text) + 1 >? 128) = true) by lia.
    rewrite Hgt, orb_true_r. cbn [heap set_heap xRemote_input]. repeat split.
    unfold free. rewrite delete_alter_eq, delete_insert_id; [reflexivity | assumption].
  - cbn [heap set_heap xRemote_input Z.add Z.leb Z.compare orb]. repeat split.
    unfold free. rewrite delete_alter_eq, delete_insert_id; [reflexivity | assumption].
Qed.

(** At the boundary the text is cut and still sent: a text of 127 bytes does
    not fit the 127 bytes left for it with its terminating zero, it is not
    taken for an overflow, and the message queued has 128 bytes: the letter
    l, the first 126 bytes of the text and the zero. *)
Lemma printLog_boundary_truncates (format : string) (arguments : va_list)
    (text : list byte) (st : remote_state) :
  vformat format arguments = Some text ->
  length text = 127%nat ->
  Z.of_nat (length (xRemote_input st)) < xRemote_input_length ->
  let p := fresh (dom (heap st)) in
  let '(st', _, calls) := remote_printLog vformat format arguments st in
  freed calls = [] /\
  xRemote_input st'
  = xRemote_input st
    ++ [{| type_ := REMOTE_INPUT_MESSAGE_SEND;
           message := {| msg_data := p; msg_length := 128; msg_ws := None;
                         msg_timestamp := 0 |} |}] /\
  heap st' !! p = Some ("l"%byte :: take 126 text ++ ["000"%byte]).
Proof.
  intros Htext Hlen Hroom. cbn zeta. unfold remote_printLog, malloc, vsnprintf.
  rewrite Htext, Hlen. cbn [Z.of_nat Z.add Z.leb Z.gtb Z.compare orb Pos.of_succ_nat].
  change ((Z.of_nat 127 + 1 <=? 0) || (Z.of_nat 127 + 1 >? 128)) with false.
  change ((Z.of_nat 127 + 1) mod 256) with 128.
  unfold xQueueSend. cbn [xRemote_input set_heap].
  apply Z.ltb_lt in Hroom. rewrite Hroom.
  cbn [heap set_heap set_xRemote_input xRemote_input]. repeat split.
  rewrite lookup_alter_eq, lookup_insert_eq. cbn [fmap option_fmap option_map]. f_equal.
  assert (Ht : length (take (127 - 1) text ++ ["000"%byte]) = 127%nat).
  { rewrite length_app, length_take, Hlen. reflexivity. }
  rewrite Ht. change (1 + 127)%nat with 128%nat.
  rewrite drop_ge by (rewrite length_replicate; lia).
  rewrite app_nil_r.
  change (take 128 ("l"%byte :: ?x)) with ("l"%byte :: take 127 x).
  rewrite take_ge by lia. reflexivity.
Qed.

(** C5, where the code departs from it. A log line whose text fits the
    buffer, on a full queue: [remote_printLog] allocates the buffer, the event
    is dropped by [xQueueSend] and the buffer is not released: no call of
    [free] is made, the buffer is still allocated afterwards and the queue is
    as it was. The captured sink is called with the same format and
    arguments. *)
Theorem printLog_queue_full_keeps_buffer (format : string) (arguments : va_list)
    (text : list byte) (st : remote_state) :
  vformat format arguments = Some text ->
  (length text < 128)%nat ->
  xRemote_input_length <= Z.of_nat (length (xRemote_input st)) ->
  let p := fresh (dom (heap st)) in
  let '(st', ret, calls) := remote_printLog vformat format arguments st in
  calls = [call_malloc p 128; call_defaultLog format arguments] /\
  freed calls = [] /\
  ret = defaultLog (remote st) format arguments /\
  xRemote_input st' = xRemote_input st /\
  heap st !! p = None /\
  is_Some (heap st' !! p).
Proof.
  intros Htext Hfit Hfull. cbn zeta. unfold remote_printLog, malloc, vsnprintf.
  rewrite Htext.
  assert (Hle : (Z.of_nat (length text) + 1 <=? 0) = false) by lia.
  assert (Hgt : (Z.of_nat (length text) + 1 >? 128) = false) by lia.
  rewrite Hle, Hgt. cbn [orb]. unfold xQueueSend.
  assert (Hroom : (Z.of_nat (length (xRemote_input st)) <? xRemote_input_length) = false)
    by lia.
  cbn [xRemote_input set_heap]. rewrite Hroom.
  cbn [heap set_heap xRemote_input remote]. repeat split.
  - apply not_elem_of_dom, is_fresh.
  - rewrite lookup_alter_eq, lookup_insert_eq. cbn. eauto.
Qed.

End PrintLog.

Lemma printLog_queue_full_keeps_buffer_witness :
  let full := replicate 32 {| type_ := REMOTE_INPUT_CONNECTED; message := example_message 1 0 |} in
  let st := example_remote 1 false full ∅ in
  let '(st', ret, calls) := remote_printLog vformat_verbatim "boot" [] st in
  calls = [call_malloc 1 128; call_defaultLog "boot" []] /\
  freed calls = [] /\
  xRemote_input st' = full /\
  is_Some (heap st' !! 1%positive).
Proof.
  cbn zeta.
  pose proof (printLog_queue_full_keeps_buffer vformat_verbatim "boot" []
                (list_byte_of_string "boot")
                (example_remote 1 false
                   (replicate 32 {| type_ := REMOTE_INPUT_CONNECTED;
                                    message := example_message 1 0 |}) ∅)
                eq_refl) as H.
  cbn zeta in H.
  destruct (remote_printLog vformat_verbatim "boot" [] _) as [[st' ret] calls].
  destruct H as (H1 & H2 & _ & H3 & _ & H4); [vm_compute; lia | vm_compute; discriminate |].
  repeat split; assumption.
Defined.

(** ** The embedded files *)


Lemma asset_counterexample :
  4096 <> 0 /\ 4097 <> 0 /\ 4096 < 4097 /\
  ~ asset_streamed mimetype_html example_mem 4096 4097 "/index.html".
Proof.
  repeat split; try lia.
  intros (fuel & calls & H & _).
  destruct fuel as [| fuel]; [discriminate H |].
  vm_compute in H. discriminate H.
Qed.

Section Embedded.
Variable httpdGetMimetype : string -> string.
Variable mem : Z -> byte.

Local Abbreviation sendEmbedded := (remote_sendEmbedded httpdGetMimetype mem).
Local Abbreviation serve := (httpd_serve httpdGetMimetype mem).

Lemma read_mem_length (p n : Z) : length (read_mem mem p n) = Z.to_nat n.
Proof. unfold read_mem. rewrite length_map, length_seq. reflexivity. Qed.

Lemma read_mem_app (p a b : Z) :
  0 <= a -> 0 <= b ->
  read_mem mem p (a + b) = read_mem mem p a ++ read_mem mem (p + a) b.
Proof.
  intros Ha Hb. unfold read_mem.
  rewrite Z2Nat.inj_add by assumption.
  rewrite seq_app, map_app. f_equal.
  replace (seq (0 + Z.to_nat a) (Z.to_nat b))
    with (Nat.add (Z.to_nat a) <$> seq 0 (Z.to_nat b))
    by (rewrite fmap_add_seq; f_equal; lia).
  rewrite <- list_fmap_compose.
  apply list_fmap_ext. intros i x _. cbn. f_equal. lia.
Qed.

Lemma sent_bytes_app (c c' : list remote_call) :
  sent_bytes (c ++ c') = sent_bytes c ++ sent_bytes c'.
Proof. unfold sent_bytes. apply bind_app. Qed.

Lemma sent_chunks_app (c c' : list remote_call) :
  sent_chunks (c ++ c') = sent_chunks c ++ sent_chunks c'.
Proof. unfold sent_chunks. apply bind_app. Qed.

(** one call of the handler, [sent] bytes of the file sent already *)
Lemma sendEmbedded_step (file_start file_end sent : Z) (u : string) :
  0 < file_start -> file_start + 1 < file_end -> file_end < 2 ^ 32 ->
  0 <= sent < file_end - file_start - 1 ->
  let len := file_end - file_start - 1 in
  let cd := {| cgiArg := file_start; cgiArg2 := file_end; cgiData := sent; url := u |} in
  exists headers,
    sent_bytes headers = [] /\ sent_chunks headers = [] /\
    sendEmbedded cd =
    if len - sent <=? 1024
    then ({| cgiArg := file_start; cgiArg2 := file_end; cgiData := len; url := u |},
          HTTPD_CGI_DONE,
          headers ++ [call_httpdSend (read_mem mem (file_start + sent) (len - sent))])
    else ({| cgiArg := file_start; cgiArg2 := file_end; cgiData := sent + 1024; url := u |},
          HTTPD_CGI_MORE,
          headers ++ [call_httpdSend (read_mem mem (file_start + sent) 1024)]).
Proof.
  intros Hs He H32 Hsent. cbn zeta.
  unfold remote_sendEmbedded. cbn [cgiArg cgiArg2 cgiData url].
  assert (Hend : wrap32 (file_end - 1) = file_end - 1)
    by (unfold wrap32; apply Z.mod_small; lia).
  rewrite Hend.
  assert (Hlen : wrap32 (file_end - 1 - file_start) = file_end - file_start - 1)
    by (unfold wrap32; rewrite Z.mod_small by lia; lia).
  rewrite Hlen.
  assert (Hrem : wrap32 (file_end - file_start - 1 - sent) = file_end - file_start - 1 - sent)
    by (unfold wrap32; apply Z.mod_small; lia).
  rewrite Hrem.
  assert (Hg : ((file_start =? 0) || (file_end - 1 =? 0) || (file_end - 1 <=? file_start)) = false).
  { rewrite !orb_false_iff. repeat split; lia. }
  rewrite Hg.
  match goal with |- context [if ?b then ?h1 ++ ?h2 ++ ?h3 else []] =>
    exists (if b then h1 ++ h2 ++ h3 else []) end.
  repeat split.
  - destruct (sent =? 0); [| reflexivity]. destruct (_ && _); reflexivity.
  - destruct (sent =? 0); [| reflexivity]. destruct (_ && _); reflexivity.
  - destruct (_ <=? 1024) eqn:Hcase.
    + repeat f_equal. unfold wrap32. rewrite Z.mod_small by lia. lia.
    + repeat f_equal. unfold wrap32. rewrite Z.mod_small by lia. lia.
Qed.

Lemma serve_from (file_start file_end : Z) (u : string) :
  0 < file_start -> file_start + 1 < file_end -> file_end < 2 ^ 32 ->
  let len := file_end - file_start - 1 in
  forall (k : nat) (sent : Z),
    0 <= sent ->
    1024 * Z.of_nat k < len - sent <= 1024 * Z.of_nat (S k) ->
    forall fuel : nat, (S k <= fuel)%nat ->
    exists calls,
      serve fuel {| cgiArg := file_start; cgiArg2 := file_end; cgiData := sent; url := u |}
      = Some (HTTPD_CGI_DONE, calls) /\
      sent_bytes calls = read_mem mem (file_start + sent) (len - sent) /\
      length (sent_chunks calls) = S k /\
      Forall (fun chunk => (length chunk <= 1024)%nat) (sent_chunks calls).
Proof.
  intros Hs He H32 len k. induction k as [| k IH]; intros sent Hsent Hk fuel Hfuel.
  - destruct fuel as [| fuel]; [lia |]. cbn [httpd_serve].
    destruct (sendEmbedded_step file_start file_end sent u) as (hd & Hb & Hc & ->);
      try lia.
    fold len. assert (Hcase : (len - sent <=? 1024) = true) by lia. rewrite Hcase.
    eexists. split; [reflexivity |].
    rewrite sent_bytes_app, sent_chunks_app, Hb, Hc. cbn.
    rewrite app_nil_r. repeat split.
    constructor; [| constructor]. rewrite read_mem_length. lia.
  - destruct fuel as [| fuel]; [lia |]. cbn [httpd_serve].
    destruct (sendEmbedded_step file_start file_end sent u) as (hd & Hb & Hc & ->);
      try lia.
    fold len. assert (Hcase : (len - sent <=? 1024) = false) by lia. rewrite Hcase.
    destruct (IH (sent + 1024)) with (fuel := fuel) as (calls & Hrun & Hbytes & Hn & Hall);
      try lia.
    rewrite Hrun. cbn [mbind option_bind]. eexists. split; [reflexivity |].
    rewrite !sent_bytes_app, !sent_chunks_app, Hb, Hc, Hbytes. cbn.
    rewrite app_nil_r. repeat split.
    + replace (len - sent) with (1024 + (len - (sent + 1024))) by lia.
      rewrite read_mem_app by lia. f_equal. f_equal. lia.
    + rewrite Hn. reflexivity.
    + constructor; [| exact Hall]. rewrite read_mem_length. lia.
Qed.

(** C6, as the code has it. For every embedded file with a non-null start,
    an end below 2^32 and at least one byte before its null terminator
    (start + 1 < end), the handler called again and again returns MORE on
    every call but the last and DONE on the last, after
    (end - start - 2) / 1024 + 1 calls; every call sends one chunk of 1024
    bytes at most, and the chunks put together are the bytes of the file
    without the terminator. *)
Theorem asset_chunking (file_start file_end : Z) (u : string) (fuel : nat) :
  0 < file_start -> file_start + 1 < file_end -> file_end < 2 ^ 32 ->
  let n := Z.to_nat ((file_end - file_start - 2) / 1024 + 1) in
  (n <= fuel)%nat ->
  exists calls,
    serve fuel (httpd_request file_start file_end u) = Some (HTTPD_CGI_DONE, calls) /\
    sent_bytes calls = read_mem mem file_start (file_end - file_start - 1) /\
    length (sent_chunks calls) = n /\
    Forall (fun chunk => (length chunk <= 1024)%nat) (sent_chunks calls).
Proof.
  intros Hs He H32 n Hfuel.
  pose proof (Z.div_mod (file_end - file_start - 2) 1024 ltac:(lia)) as Hdm.
  pose proof (Z.mod_pos_bound (file_end - file_start - 2) 1024 ltac:(lia)) as Hmod.
  assert (Hq : 0 <= (file_end - file_start - 2) / 1024) by (apply Z.div_pos; lia).
  destruct (serve_from file_start file_end u Hs He H32
              (Z.to_nat ((file_end - file_start - 2) / 1024)) 0) with (fuel := fuel)
    as (calls & Hrun & Hbytes & Hn & Hall); try lia.
  exists calls. unfold httpd_request. rewrite Hrun.
  rewrite Z.add_0_r, Z.sub_0_r in Hbytes. repeat split; try assumption.
  rewrite Hn. unfold n. lia.
Qed.
End Embedded.

Lemma asset_chunking_witness :
  exists calls,
    httpd_serve mimetype_html example_mem 3 (httpd_request 4096 6147 "/index.html")
    = Some (HTTPD_CGI_DONE, calls) /\
    sent_bytes calls = read_mem example_mem 4096 2050 /\
    length (sent_chunks calls) = 3%nat.
Proof.
  destruct (asset_chunking mimetype_html example_mem 4096 6147 "/index.html" 3)
    as (calls & Hrun & Hbytes & Hn & _); [lia | lia | lia | vm_compute; lia |].
  exists calls. split; [exact Hrun |]. split; [exact Hbytes | exact Hn].
Defined.

(** * Further properties of the sensor-fusion core *)

(** ** The resets *)


Ltac insert_twice :=
  apply list_eq; intros k; rewrite ?list_lookup_insert, ?length_insert;
  repeat case_decide; try reflexivity; try lia; intuition (try congruence; try lia).

Lemma mat_set_x_twice (m : eekf_mat) (a b : f32) :
  mat_set (mat_set (mat_set (mat_set m 0 0 a) 1 0 b) 0 0 a) 1 0 b
  = mat_set (mat_set m 0 0 a) 1 0 b.
Proof.
  unfold mat_set, EEKF_MAT_EL. cbn [rows cols elements]. f_equal. insert_twice.
Qed.

Lemma mat_set_P_twice (m : eekf_mat) (a b c d : f32) :
  let set4 m := mat_set (mat_set (mat_set (mat_set m 0 0 a) 0 1 b) 1 0 c) 1 1 d in
  set4 (set4 m) = set4 m.
Proof.
  cbn zeta. unfold mat_set, EEKF_MAT_EL. cbn [rows cols elements]. f_equal. insert_twice.
Qed.

Lemma mat_set_z3_twice (m : eekf_mat) (a b c : f32) :
  let set3 m := mat_set (mat_set (mat_set m 0 0 a) 1 0 b) 2 0 c in
  set3 (set3 m) = set3 m.
Proof.
  cbn zeta. unfold mat_set, EEKF_MAT_EL. cbn [rows cols elements]. f_equal. insert_twice.
Qed.

Lemma mat_set_twice (m : eekf_mat) (r c : nat) (a : f32) :
  mat_set (mat_set m r c a) r c a = mat_set m r c a.
Proof.
  unfold mat_set, EEKF_MAT_EL. cbn [rows cols elements]. f_equal.
  apply list_insert_insert_eq.
Qed.

(** a reset done twice is a reset done once *)
Lemma sensors_fuse_reset_twice (a : axis_id) (s : axis_t) :
  sensors_fuse_reset a (sensors_fuse_reset a s) = sensors_fuse_reset a s.
Proof.
  destruct a; cbn [sensors_fuse_reset];
    unfold sensors_fuseZ_reset, sensors_fuseY_reset, sensors_fuseX_reset;
    cbn [ekf z_ lastTimestamp set_z set_ekf set_P set_x ctx_x ctx_P ctx_f ctx_h ctx_userData];
    rewrite mat_set_x_twice;
    rewrite (mat_set_P_twice (ctx_P (ekf s)));
    rewrite ?(mat_set_z3_twice (z_ s)), ?mat_set_twice; reflexivity.
Qed.

(** X1. A reset of a fuser done twice is a reset done once, whatever the
    sizes of the matrices; it leaves the time stamp of the last prediction,
    the user data of the engine and the sizes of the state and of its
    covariance as they are. *)
Theorem reset_idempotent (a : axis_id) (s : axis_t) :
  let reset := sensors_fuse_reset a in
  reset (reset s) = reset s /\
  lastTimestamp (reset s) = lastTimestamp s /\
  ctx_userData (ekf (reset s)) = ctx_userData (ekf s) /\
  rows (ctx_x (ekf (reset s))) = rows (ctx_x (ekf s)) /\
  length (elements (ctx_P (ekf (reset s)))) = length (elements (ctx_P (ekf s))).
Proof.
  cbn zeta. split; [apply sensors_fuse_reset_twice |].
  destruct a; cbn [sensors_fuse_reset]; repeat split;
    unfold sensors_fuseZ_reset, sensors_fuseY_reset, sensors_fuseX_reset;
    cbn [ekf ctx_P set_z set_ekf set_P set_x ctx_x elements mat_set];
    rewrite ?length_insert; reflexivity.
Qed.

(** X24. Homing. [sensors_setHome] done twice is [sensors_setHome] done
    once; it keeps the record of the time-outs and, for every axis, the time
    stamp of the last prediction; and right after [sensors_init] it changes
    nothing. *)
Theorem setHome_idempotent (cfg : sensors_config) (s : sensors_t) :
  sensors_setHome (sensors_setHome s) = sensors_setHome s /\
  timeouts (sensors_setHome s) = timeouts s /\
  (forall a : axis_id,
     sensors_axis a (sensors_setHome s) = sensors_fuse_reset a (sensors_axis a s) /\
     lastTimestamp (sensors_axis a (sensors_setHome s)) = lastTimestamp (sensors_axis a s)) /\
  sensors_setHome (sensors_init cfg) = sensors_init cfg.
Proof.
  split; [| split; [reflexivity | split]].
  - unfold sensors_setHome. cbn [timeouts Z_ Y_ X_].
    pose proof (sensors_fuse_reset_twice axis_Z (Z_ s)) as HZ.
    pose proof (sensors_fuse_reset_twice axis_Y (Y_ s)) as HY.
    pose proof (sensors_fuse_reset_twice axis_X (X_ s)) as HX.
    cbn [sensors_fuse_reset] in HZ, HY, HX. rewrite HZ, HY, HX. reflexivity.
  - intros a. destruct a; split; reflexivity.
  - reflexivity.
Qed.

Lemma mat_shape_elements (m : eekf_mat) (r c : nat) :
  mat_shape m r c ->
  m = {| rows := r; cols := c; elements := elements m |} /\ length (elements m) = (r * c)%nat.
Proof. destruct m. intros (? & ? & ?). cbn in *. subst. split; [reflexivity | assumption]. Qed.

(** X2. The reset of the Y fuser, on matrices of the sizes of
    [sensors_init]: the state is zero, the covariance is zero but for the
    variance 1 of the velocity, and of the two measurements only the first
    is cleared; the second, the ground speed, keeps the value it had. *)
Theorem reset_leaves_second_measurement (s : axis_t) (zy0 zy1 : f32) :
  mat_shape (ctx_x (ekf s)) 2 1 ->
  mat_shape (ctx_P (ekf s)) 2 2 ->
  z_ s = {| rows := 2; cols := 1; elements := [zy0; zy1] |} ->
  let s' := sensors_fuseY_reset s in
  ctx_x (ekf s') = {| rows := 2; cols := 1; elements := [F32.zero; F32.zero] |} /\
  mat_get (ctx_P (ekf s')) 0 0 = F32.zero /\
  mat_get (ctx_P (ekf s')) 0 1 = F32.zero /\
  mat_get (ctx_P (ekf s')) 1 0 = F32.zero /\
  mat_get (ctx_P (ekf s')) 1 1 = F32.one /\
  z_ s' = {| rows := 2; cols := 1; elements := [F32.zero; zy1] |}.
Proof.
  intros Hx HP Hz. cbn zeta.
  destruct (mat_shape_elements _ _ _ Hx) as [Ex Lx].
  destruct (mat_shape_elements _ _ _ HP) as [EP LP].
  unfold sensors_fuseY_reset. cbn [ekf z_ set_z set_ekf set_P set_x ctx_x ctx_P].
  rewrite Ex, EP, Hz.
  destruct (elements (ctx_x (ekf s))) as [| x0 [| x1 [| ? ?]]]; try discriminate.
  destruct (elements (ctx_P (ekf s))) as [| p0 [| p1 [| p2 [| p3 [| ? ?]]]]]; try discriminate.
  repeat split.
Qed.


Lemma reset_leaves_second_measurement_witness :
  let s := set_z {| rows := 2; cols := 1; elements := [f32_two; f32_five] |}
                 (Y_ example_sensors) in
  z_ (sensors_fuseY_reset s) = {| rows := 2; cols := 1; elements := [F32.zero; f32_five] |}.
Proof.
  cbv zeta.
  apply (reset_leaves_second_measurement
           (set_z {| rows := 2; cols := 1; elements := [f32_two; f32_five] |}
                  (Y_ example_sensors)) f32_two f32_five);
    [vm_compute; repeat split | vm_compute; repeat split | reflexivity].
Defined.

Section ResetThenFuse.
Variable cfg : sensors_config.
Variable powf : f32 -> f32 -> f32.
Variable eekf_predict :
  eekf_context -> eekf_mat -> eekf_mat -> eekf_return * eekf_context.
Variable eekf_lazy_correct :
  eekf_context -> eekf_mat -> eekf_mat -> eekf_return * eekf_context.

Local Abbreviation fuse := (sensors_fuse cfg powf eekf_predict eekf_lazy_correct).

(** X3. A reset does not restart the clock of a fuser. After a reset an
    acceleration older than the last prediction before the reset is still
    dropped, and for any other the time step handed to the engine is
    measured from that prediction. *)
Theorem reset_keeps_lastTimestamp (a : axis_id) (s : axis_t) (v : f32) (ts : Z) :
  let s' := sensors_fuse_reset a s in
  if ts <? lastTimestamp s
  then fuse a SENSORS_ACCELERATION v ts s' = (s', [])
  else exists u Q rest,
    snd (fuse a SENSORS_ACCELERATION v ts s')
    = call_eekf_predict
        (set_userData
           (userData_float
              (F32.div (F32.div (F32.of_Z (ts - lastTimestamp s)) F32.thousand)
                       F32.thousand))
           (ekf s')) u Q :: rest.
Proof.
  cbn zeta.
  assert (Hl : lastTimestamp (sensors_fuse_reset a s) = lastTimestamp s)
    by (destruct a; reflexivity).
  destruct (ts <? lastTimestamp s) eqn:Hts.
  - unfold sensors_fuse; destruct a; cbn [sensors_fuse_reset] in *;
      unfold sensors_fuseZ, sensors_fuseY, sensors_fuseX;
      rewrite decide_True by reflexivity; rewrite Hl, Hts; reflexivity.
  - unfold sensors_fuse; destruct a; cbn [sensors_fuse_reset] in *;
      unfold sensors_fuseZ, sensors_fuseY, sensors_fuseX;
      rewrite decide_True by reflexivity; rewrite Hl, Hts;
      match goal with
      | |- context [eekf_predict ?c ?u ?Q] => destruct (eekf_predict c u Q) as [? ?]
      end; cbn [snd app]; eauto.
Qed.
End ResetThenFuse.

(** ** The state transition *)


Lemma F32_ltb_irrefl (x : f32) : F32.ltb x x = false.
Proof.
  destruct x as [s | s | | s m e]; try reflexivity.
  - destruct s; reflexivity.
  - unfold F32.ltb, SFltb, SFcompare.
    rewrite Z.compare_refl, Pos.compare_cont_refl. destruct s; reflexivity.
Qed.

Lemma F32_ltb_opp_nonneg (limit : f32) :
  F32.ltb limit F32.zero = false -> F32.ltb limit (F32.opp limit) = false.
Proof.
  destruct limit as [s | s | | s m e]; try reflexivity.
  - destruct s; [discriminate | reflexivity].
  - destruct s; [discriminate | reflexivity].
Qed.

Lemma clamp_within (limit v : f32) :
  F32.ltb limit F32.zero = false ->
  F32.ltb limit (clamp limit v) = false /\
  F32.ltb (clamp limit v) (F32.opp limit) = false.
Proof.
  intros Hl. unfold clamp.
  destruct (F32.ltb limit v) eqn:H1.
  - split; [apply F32_ltb_irrefl | apply F32_ltb_opp_nonneg; exact Hl].
  - destruct (F32.ltb v (F32.opp limit)) eqn:H2.
    + split; [apply F32_ltb_opp_nonneg; exact Hl | apply F32_ltb_irrefl].
    + split; assumption.
Qed.

Section TransitionProps.
Variable cfg : sensors_config.

(** X4. The state transition of every axis, on matrices of the sizes the
    engine hands over: the result is Ok, the Jacobian is [1 dt; 0 1], the
    position is x0 + dt x1 + (0.5 dt dt) u and the velocity is x1 + dt u
    clamped to the limit of the axis, each with the roundings of the code;
    only the velocity is clamped. If the limit is not negative the velocity
    returned is neither above the limit nor below its opposite. *)
Theorem transition_double_integrator (a : axis_id) (xp Jf : eekf_mat)
    (x0 x1 u0 : f32) (ud : userData_t) :
  mat_shape xp 2 1 -> mat_shape Jf 2 2 ->
  let dt := userData_as_float ud in
  let limit := SENSORS_FUSE_LIMIT_VEL cfg a in
  let position :=
    F32.add (F32.add (F32.add F32.zero (F32.mul F32.one x0)) (F32.mul dt x1))
            (F32.add F32.zero (F32.mul (F32.mul (F32.mul F32.half dt) dt) u0)) in
  let velocity :=
    F32.add (F32.add (F32.add F32.zero (F32.mul F32.zero x0)) (F32.mul F32.one x1))
            (F32.add F32.zero (F32.mul dt u0)) in
  sensors_fuse_transition cfg a xp Jf
    {| rows := 2; cols := 1; elements := [x0; x1] |}
    {| rows := 1; cols := 1; elements := [u0] |} ud
  = (eEekfReturnOk,
     {| rows := 2; cols := 1; elements := [position; clamp limit velocity] |},
     {| rows := 2; cols := 2; elements := [F32.one; F32.zero; dt; F32.one] |}) /\
  (if F32.ltb limit F32.zero then True
   else F32.ltb limit (clamp limit velocity) = false /\
        F32.ltb (clamp limit velocity) (F32.opp limit) = false).
Proof.
  intros (Hr & Hc & Hl) (Hr' & Hc' & Hl'). cbn zeta.
  split; [| destruct (F32.ltb _ F32.zero) eqn:Hlim; [exact I | apply clamp_within; exact Hlim]].
  destruct xp as [r c e], Jf as [r' c' e']. cbn in Hr, Hc, Hl, Hr', Hc', Hl'. subst.
  destruct e as [| p0 [| p1 [| ? ?]]]; try discriminate.
  destruct e' as [| j0 [| j1 [| j2 [| j3 [| ? ?]]]]]; try discriminate.
  destruct a; cbn [sensors_fuse_transition SENSORS_FUSE_LIMIT_VEL].
  all: unfold sensors_fuseZ_transition, sensors_fuseY_transition, sensors_fuseX_transition.
  all: cbv -[F32.add F32.mul F32.ltb F32.opp F32.one F32.zero F32.half clamp
            userData_as_float
            SENSORS_FUSE_Z_LIMIT_VEL SENSORS_FUSE_Y_LIMIT_VEL SENSORS_FUSE_X_LIMIT_VEL].
  all: unfold clamp.
  all: match goal with |- context [F32.ltb ?l ?v] => destruct (F32.ltb l v) end; [reflexivity |].
  all: match goal with |- context [F32.ltb ?l ?v] => destruct (F32.ltb l v) end; reflexivity.
Qed.
End TransitionProps.

Lemma transition_double_integrator_witness :
  exists xp,
    sensors_fuseZ_transition example_config (EEKF_CALLOC_MATRIX 2 1) (EEKF_CALLOC_MATRIX 2 2)
      {| rows := 2; cols := 1; elements := [F32.zero; f32_five] |}
      {| rows := 1; cols := 1; elements := [F32.one] |} (userData_float F32.one)
    = (eEekfReturnOk, xp,
       {| rows := 2; cols := 2; elements := [F32.one; F32.zero; F32.one; F32.one] |}) /\
    mat_get xp 0 0 = F32.add f32_five F32.half /\ mat_get xp 1 0 = f32_two.
Proof.
  destruct (transition_double_integrator example_config axis_Z
              (EEKF_CALLOC_MATRIX 2 1) (EEKF_CALLOC_MATRIX 2 2)
              F32.zero f32_five F32.one (userData_float F32.one))
    as [Hrun _]; [vm_compute; repeat split | vm_compute; repeat split |].
  eexists. split; [exact Hrun | split; reflexivity].
Defined.

(** ** The calls of the engine, and the measurement models *)

Section EngineCalls.
Variable cfg : sensors_config.
Variable powf : f32 -> f32 -> f32.
Variable eekf_predict :
  eekf_context -> eekf_mat -> eekf_mat -> eekf_return * eekf_context.
Variable eekf_lazy_correct :
  eekf_context -> eekf_mat -> eekf_mat -> eekf_return * eekf_context.

Local Abbreviation fuse := (sensors_fuse cfg powf eekf_predict eekf_lazy_correct).

(** X5. When a fuser calls the engine. For every axis, type of event, value
    and time stamp, the engine is called exactly for an acceleration that is
    not older than the last prediction, and for an ULTRASONIC or ALTIMETER
    measurement on Z. In every other case no call is made, and the state,
    its covariance and the time stamp of the last prediction are as
    before. *)
Theorem engine_called_exactly (a : axis_id) (ty : sensors_input_type_t) (v : f32)
    (ts : Z) (s : axis_t) :
  let r := fuse a ty v ts s in
  let called :=
    reaches_engine a ty
    && negb (bool_decide (ty = SENSORS_ACCELERATION) && (ts <? lastTimestamp s)) in
  existsb is_eekf_call (snd r) = called /\
  if called then True
  else ctx_x (ekf (fst r)) = ctx_x (ekf s) /\
       ctx_P (ekf (fst r)) = ctx_P (ekf s) /\
       lastTimestamp (fst r) = lastTimestamp s.
Proof.
  cbn zeta. unfold sensors_fuse.
  destruct a, ty; unfold sensors_fuseZ, sensors_fuseY, sensors_fuseX;
    cbn [reaches_engine andb negb];
    rewrite ?decide_True by reflexivity; rewrite ?decide_False by discriminate;
    rewrite ?bool_decide_eq_true_2 by reflexivity;
    cbn [andb negb fst snd ekf z_ set_z set_ekf set_userData ctx_x ctx_P lastTimestamp existsb].
  all: try (split; [reflexivity | repeat split]).
  all: try (destruct (ts <? lastTimestamp s); cbn [negb fst snd existsb];
            [split; [reflexivity | repeat split] |];
            match goal with
            | |- context [eekf_predict ?c ?u ?Q] => destruct (eekf_predict c u Q) as [? ?]
            end; cbn; split; [reflexivity | exact I]).
  all: match goal with
       | |- context [eekf_lazy_correct ?c ?z ?R] => destruct (eekf_lazy_correct c z R) as [? ?]
       end; cbn; split; [reflexivity | exact I].
Qed.
End EngineCalls.

(** X6. What the measurement models refuse. For a sensor that a model has
    no finished case for, the result is the parameter error and the
    predicted measurement is untouched; the Jacobian has been cleared all
    the same. The ground speed on Y is one of these sensors: its case sets
    the entry (1, 1) of the Jacobian and runs into the default. *)
Theorem measurement_parameter_error (a : axis_id) (ty : sensors_input_type_t)
    (zp Jh x : eekf_mat) :
  measurement_row a ty = None ->
  sensors_fuse_measurement a zp Jh x (userData_type ty)
  = (eEekfReturnParameterError, zp,
     match a, ty with
     | axis_Y, SENSORS_GROUNDSPEED => mat_set (mat_clear Jh) 1 1 F32.one
     | _, _ => mat_clear Jh
     end).
Proof.
  destruct a, ty; cbn [measurement_row]; try discriminate; reflexivity.
Qed.

Lemma measurement_parameter_error_witness :
  sensors_fuseY_measurement (EEKF_CALLOC_MATRIX 2 1) (EEKF_CALLOC_MATRIX 2 2)
    {| rows := 2; cols := 1; elements := [f32_five; f32_two] |}
    (userData_type SENSORS_GROUNDSPEED)
  = (eEekfReturnParameterError, EEKF_CALLOC_MATRIX 2 1,
     {| rows := 2; cols := 2; elements := [F32.zero; F32.zero; F32.zero; F32.one] |}).
Proof.
  exact (measurement_parameter_error axis_Y SENSORS_GROUNDSPEED
           (EEKF_CALLOC_MATRIX 2 1) (EEKF_CALLOC_MATRIX 2 2)
           {| rows := 2; cols := 1; elements := [f32_five; f32_two] |} eq_refl).
Defined.

(** X7. What the measurement models predict. For a sensor whose case is
    finished, on matrices of the sizes of the axis and a finite state, the
    result is Ok, the Jacobian has a single 1, in the row of the sensor and
    the column of the position, and the predicted measurement is the
    position in that row and zero in the others. *)
Theorem measurement_selects_position (a : axis_id) (ty : sensors_input_type_t) (row : nat)
    (zp Jh : eekf_mat) (x0 x1 : f32) :
  measurement_row a ty = Some row ->
  mat_shape zp (measurement_rows a) 1 ->
  mat_shape Jh (measurement_rows a) 2 ->
  F32.is_finite x0 = true -> F32.is_finite x1 = true ->
  exists zp' Jh',
    sensors_fuse_measurement a zp Jh
      {| rows := 2; cols := 1; elements := [x0; x1] |} (userData_type ty)
    = (eEekfReturnOk, zp', Jh') /\
    mat_shape zp' (measurement_rows a) 1 /\
    forall r : nat, (r < measurement_rows a)%nat ->
      mat_get zp' r 0 = (if decide (r = row) then F32.canon x0 else F32.zero) /\
      mat_get Jh' r 0 = (if decide (r = row) then F32.one else F32.zero) /\
      mat_get Jh' r 1 = F32.zero.
Proof.
  intros Hrow (Hr & Hc & Hl) (Hr' & Hc' & Hl') H0 H1.
  destruct zp as [r c e], Jh as [r' c' e']. cbn [rows cols elements] in *. subst.
  assert (Hz : F32.add (F32.add F32.zero (F32.mul F32.zero x0)) (F32.mul F32.zero x1)
               = F32.zero).
  { destruct x0 as [[] | | | [] ? ?], x1 as [[] | | | [] ? ?];
      try discriminate; reflexivity. }
  assert (Hz2 : F32.add (F32.add F32.zero (F32.mul F32.one x0)) (F32.mul F32.zero x1)
                = F32.canon x0).
  { destruct x0 as [sa | sa | | sa ma ea]; try discriminate;
    destruct x1 as [sb | sb | | sb mb eb]; try discriminate;
    cbn [F32.is_finite] in H0;
    rewrite ?(F32_mul_one_l _ _ _ H0); destruct sa, sb; reflexivity. }
  destruct a, ty; try discriminate; injection Hrow as <-;
    cbn [measurement_rows Nat.mul Nat.add] in *.
  all: destruct e as [| ? [| ? [| ? [| ? ?]]]]; try discriminate Hl.
  all: destruct e' as [| ? [| ? [| ? [| ? [| ? [| ? [| ? ?]]]]]]]; try discriminate Hl'.
  all: cbn [sensors_fuse_measurement];
       unfold sensors_fuseZ_measurement, sensors_fuseY_measurement, sensors_fuseX_measurement.
  all: cbv -[F32.add F32.mul F32.one F32.zero F32.canon decide mat_shape Nat.lt].
  all: rewrite ?Hz, ?Hz2.
  all: eexists; eexists; (split; [reflexivity |]); (split; [repeat split |]).
  all: intros r Hr.
  all: destruct r as [| [| [| r]]]; try lia; repeat split.
Qed.

Lemma measurement_selects_position_witness :
  exists zp' Jh',
    sensors_fuseZ_measurement (EEKF_CALLOC_MATRIX 3 1) (EEKF_CALLOC_MATRIX 3 2)
      {| rows := 2; cols := 1; elements := [f32_five; f32_two] |}
      (userData_type SENSORS_ALTIMETER)
    = (eEekfReturnOk, zp', Jh') /\
    mat_get zp' 1 0 = f32_five /\ mat_get zp' 0 0 = F32.zero.
Proof.
  destruct (measurement_selects_position axis_Z SENSORS_ALTIMETER 1
              (EEKF_CALLOC_MATRIX 3 1) (EEKF_CALLOC_MATRIX 3 2) f32_five f32_two)
    as (zp' & Jh' & Hrun & _ & Hrows);
    [reflexivity | vm_compute; repeat split | vm_compute; repeat split
    | reflexivity | reflexivity |].
  exists zp', Jh'. split; [exact Hrun |].
  split; [apply (Hrows 1%nat); cbn; lia | apply (Hrows 0%nat); cbn; lia].
Defined.

(** ** The inputs of a prediction *)

Lemma binary_round_aux_nonneg (mx ex : Z) (lx : location) :
  0 <= mx -> F32_is_nonneg (binary_round_aux 24 128 false mx ex lx) = true.
Proof.
  intros Hmx. unfold binary_round_aux, shr_fexp.
  set (n1 := fexp 24 128 (Zdigits2 mx + ex) - ex).
  pose proof (shr_m_nonneg (shr_record_of_loc mx lx) ex n1) as Hm'.
  rewrite shr_record_of_loc_m in Hm'. specialize (Hm' Hmx).
  destruct (shr (shr_record_of_loc mx lx) ex n1) as [mrs' e']. cbn [fst] in Hm'.
  pose proof (round_nearest_even_bounds (shr_m mrs') (loc_of_shr_record mrs')) as Hr.
  set (m'' := round_nearest_even (shr_m mrs') (loc_of_shr_record mrs')) in *.
  set (n2 := fexp 24 128 (Zdigits2 m'' + e') - e').
  pose proof (shr_m_nonneg (shr_record_of_loc m'' loc_Exact) e' n2) as Hm2.
  destruct (shr (shr_record_of_loc m'' loc_Exact) e' n2) as [mrs'' e''].
  cbn [fst] in Hm2. specialize (Hm2 ltac:(cbn; lia)).
  destruct (shr_m mrs'') as [| m | m]; [reflexivity | | lia].
  destruct (e'' <=? 128 - 24); reflexivity.
Qed.

Lemma F32_of_Z_nonneg (n : Z) : 0 <= n -> F32_is_nonneg (F32.of_Z n) = true.
Proof.
  intros Hn. unfold F32.of_Z, binary_normalize.
  destruct n as [| p | p]; [reflexivity | | lia].
  unfold binary_round.
  destruct (shl_align p 0 _) as [mz ez].
  apply binary_round_aux_nonneg. lia.
Qed.

Lemma F32_div_thousand_nonneg (x : f32) :
  F32_is_nonneg x = true -> F32_is_nonneg (F32.div x F32.thousand) = true.
Proof.
  destruct x as [s | [] | | [] m e]; try discriminate; intros _; try reflexivity.
  unfold F32.div, F32.thousand, SFdiv. cbn [xorb].
  unfold SFdiv_core_binary.
  match goal with
  | |- context [Z.div_eucl ?a ?b] =>
      pose proof (Z.div_pos a b) as Hq; unfold Z.div in Hq;
      assert (Ha : 0 <= a); [| destruct (Z.div_eucl a b) as [q r]]
  end.
  - match goal with
    | |- 0 <= match ?s with _ => _ end => destruct s
    end; try lia.
    apply Z.shiftl_nonneg. lia.
  - apply binary_round_aux_nonneg. apply Hq; [exact Ha | lia].
Qed.

Section DtProps.
Variable cfg : sensors_config.
Variable powf : f32 -> f32 -> f32.
Variable eekf_predict :
  eekf_context -> eekf_mat -> eekf_mat -> eekf_return * eekf_context.
Variable eekf_lazy_correct :
  eekf_context -> eekf_mat -> eekf_mat -> eekf_return * eekf_context.

Local Abbreviation fuse := (sensors_fuse cfg powf eekf_predict eekf_lazy_correct).

(** X8. What a prediction hands to the engine. For an acceleration that is
    not older than the last prediction, the first call is the prediction;
    its time step, the difference of the time stamps divided twice by 1000
    in binary32, is a number that is not negative, the input is the
    acceleration as it came, and the process noise is a 2 x 2 matrix whose
    two entries off the diagonal are equal. *)
Theorem prediction_inputs (a : axis_id) (v : f32) (ts : Z) (s : axis_t) :
  lastTimestamp s <= ts ->
  exists dt Q rest,
    snd (fuse a SENSORS_ACCELERATION v ts s)
    = call_eekf_predict (set_userData (userData_float dt) (ekf s))
        {| rows := 1; cols := 1; elements := [v] |} Q :: rest /\
    F32_is_nonneg dt = true /\
    F32.ltb dt F32.zero = false /\
    mat_shape Q 2 2 /\
    mat_get Q 0 1 = mat_get Q 1 0.
Proof.
  intros Hle.
  assert (Hdt : F32_is_nonneg
                  (F32.div (F32.div (F32.of_Z (ts - lastTimestamp s)) F32.thousand)
                           F32.thousand) = true).
  { apply F32_div_thousand_nonneg, F32_div_thousand_nonneg, F32_of_Z_nonneg. lia. }
  apply Z.ltb_ge in Hle.
  unfold sensors_fuse; destruct a;
    unfold sensors_fuseZ, sensors_fuseY, sensors_fuseX;
    rewrite decide_True by reflexivity; rewrite Hle;
    cbn [ekf set_ekf set_lastTimestamp lastTimestamp z_];
    match goal with
    | |- context [eekf_predict ?c ?u ?Q] =>
        destruct (eekf_predict c u Q) as [? ?]
    end;
    eexists; eexists; eexists; cbn [snd app];
    (split; [reflexivity |]); (split; [exact Hdt |]);
    (split; [| split; [repeat split | reflexivity]]).
  all: match goal with
       | |- F32.ltb ?d F32.zero = false => destruct d as [? | [] | | [] ? ?]; try discriminate; reflexivity
       end.
Qed.
End DtProps.

Lemma prediction_inputs_witness :
  exists dt Q rest,
    snd (example_fuse axis_Z SENSORS_ACCELERATION F32.one 1000 (Z_ example_sensors))
    = call_eekf_predict (set_userData (userData_float dt) (ekf (Z_ example_sensors)))
        {| rows := 1; cols := 1; elements := [F32.one] |} Q :: rest /\
    F32.ltb dt F32.zero = false /\
    mat_get Q 0 1 = mat_get Q 1 0.
Proof.
  destruct (prediction_inputs example_config powf_products eekf_predict_model
              eekf_lazy_correct_failing axis_Z F32.one 1000 (Z_ example_sensors))
    as (dt & Q & rest & Hrun & _ & Hdt & _ & HQ); [vm_compute; discriminate |].
  exists dt, Q, rest. split; [exact Hrun |]. split; [exact Hdt | exact HQ].
Defined.

(** ** The supervisor task: the queue and the time-outs *)

(** X9. The supervisor task keeps its queue short. After an iteration the
    queue holds 14 events at most: if 15 or more are left once the event is
    taken, that is one free place or none of the 16, the queue is emptied,
    the events in it are lost, and the reset is followed at once by the line
    "queue reset!" logged at the level ERROR; else the queue is what was
    left, no reset is made and no such line is logged. *)
Theorem sensors_task_queue_bound (cfg : sensors_config) (st : sensors_state) :
  let q := xSensors_input st in
  let r := sensors_task cfg st in
  let q' := xSensors_input (fst r) in
  let reset_logged := call_ESP_LOG ESP_LOG_ERROR "queue reset!" in
  (length q' <= 14)%nat /\
  (if (15 <=? length (tail q))%nat
   then q' = [] /\
        exists before after,
          snd r = before ++ [call_xQueueReset; reset_logged] ++ after /\
          ~ In call_xQueueReset (before ++ after) /\
          ~ In reset_logged (before ++ after)
   else q' = tail q /\ ~ In call_xQueueReset (snd r) /\ ~ In reset_logged (snd r)).
Proof.
  cbn zeta. unfold sensors_task.
  destruct (xSensors_input st) as [| input queue] eqn:Hq.
  - cbn. rewrite Hq. cbn. split; [lia |]. split; [reflexivity |].
    split; intros [H | []]; discriminate H.
  - cbn [tail]. unfold xSensors_input_length.
    assert (Hc1 : forall x : sensors_call,
              (x = call_xQueueReset \/ x = call_ESP_LOG ESP_LOG_ERROR "queue reset!") ->
              ~ In x match input_type input with
                     | SENSORS_ACCELERATION => [call_ESP_LOG ESP_LOG_INFO "%llu,A,%f,%f,%f,%f"]
                     | SENSORS_POSITION => [call_ESP_LOG ESP_LOG_INFO "%llu,P,%f,%f,%f,%f"]
                     | SENSORS_GROUNDSPEED => [call_ESP_LOG ESP_LOG_INFO "%llu,S,%f,%f,%f"]
                     | _ => []
                     end).
    { intros x [-> | ->] Hin; destruct (input_type input); cbn in Hin;
        intuition discriminate. }
    assert (Hc3 : forall (x : sensors_call) (f : nat -> bool),
              (x = call_xQueueReset \/ x = call_ESP_LOG ESP_LOG_ERROR "queue reset!") ->
              ~ In x (i ← seq 0 (sensors_type_index SENSORS_POSITION);
                      if f i then [call_ESP_LOG ESP_LOG_ERROR "timeout of sensor %u"]
                      else [])).
    { intros x f Hx Hin. cbn [sensors_type_index seq mbind list_bind] in Hin.
      repeat (apply in_app_or in Hin as [Hin | Hin]);
        try (match type of Hin with
             | In _ (if ?b then _ else _) => destruct b
             end; cbn in Hin; destruct Hx as [-> | ->]; intuition discriminate).
      destruct Hin. }
    destruct (15 <=? length queue)%nat eqn:Hlen.
    + apply Nat.leb_le in Hlen.
      assert (Hc : (16 - Z.of_nat (length queue) <=? 1) = true) by lia.
      rewrite Hc. cbn [fst snd xSensors_input]. split; [cbn; lia |].
      split; [reflexivity |].
      eexists _, _. split; [reflexivity |].
      split; intros Hin; apply in_app_or in Hin as [Hin | Hin];
        solve [ eapply Hc1; [| exact Hin]; auto
              | eapply Hc3; [| exact Hin]; auto ].
    + apply Nat.leb_gt in Hlen.
      assert (Hc : (16 - Z.of_nat (length queue) <=? 1) = false) by lia.
      rewrite Hc. cbn [fst snd xSensors_input]. split; [lia |].
      split; [reflexivity |].
      rewrite app_nil_l.
      split; intros Hin; apply in_app_or in Hin as [Hin | Hin];
        solve [ eapply Hc1; [| exact Hin]; auto
              | eapply Hc3; [| exact Hin]; auto ].
Qed.

Lemma timeout_reports_app (c c' : list sensors_call) :
  timeout_reports (c ++ c') = (timeout_reports c + timeout_reports c')%nat.
Proof. unfold timeout_reports. rewrite bind_app, length_app. reflexivity. Qed.

(** X10. The time-outs of the supervisor task. An event taken from the
    queue records its time stamp for its own sensor and leaves the records
    of the others; no time-out is reported exactly when each of the first
    four sensors other than that of the event was seen no longer ago than
    the time-out. The two sensors of the satellite receiver are never
    reported. *)
Theorem sensors_task_timeouts (cfg : sensors_config) (st : sensors_state)
    (input : sensors_input_t) (queue : list sensors_input_t) :
  xSensors_input st = input :: queue ->
  length (timeouts (sensors st)) = SENSORS_MAX ->
  0 <= SENSORS_TIMEOUT_MS cfg ->
  let r := sensors_task cfg st in
  let seen := timeouts (sensors (fst r)) in
  let own := sensors_type_index (input_type input) in
  let threshold := input_timestamp input - SENSORS_TIMEOUT_MS cfg * 1000 in
  length seen = SENSORS_MAX /\
  seen !! own = Some (input_timestamp input) /\
  (forall j : nat, j <> own -> seen !! j = timeouts (sensors st) !! j) /\
  (timeout_reports (snd r) = 0%nat <->
   forall j : nat, (j < 4)%nat -> j <> own ->
     threshold <= default 0 (timeouts (sensors st) !! j)).
Proof.
  intros Hq Hlen HT. cbn zeta. unfold sensors_task. rewrite Hq.
  destruct (xSensors_input_length - Z.of_nat (length queue) <=? 1);
    cbn [fst snd sensors timeouts].
  all: split; [rewrite length_insert; exact Hlen |].
  all: split; [apply list_lookup_insert_eq; rewrite Hlen;
               unfold SENSORS_MAX; destruct (input_type input); cbn [sensors_type_index]; lia |].
  all: split; [intros j Hj; apply list_lookup_insert_ne; congruence |].
  all: rewrite !timeout_reports_app.
  all: assert (H1 : timeout_reports
                      match input_type input with
                      | SENSORS_ACCELERATION => [call_ESP_LOG ESP_LOG_INFO "%llu,A,%f,%f,%f,%f"]
                      | SENSORS_POSITION => [call_ESP_LOG ESP_LOG_INFO "%llu,P,%f,%f,%f,%f"]
                      | SENSORS_GROUNDSPEED => [call_ESP_LOG ESP_LOG_INFO "%llu,S,%f,%f,%f"]
                      | _ => []
                      end = 0%nat) by (destruct (input_type input); reflexivity);
       rewrite H1; clear H1.
  all: change (timeout_reports [call_xQueueReset; call_ESP_LOG ESP_LOG_ERROR "queue reset!"])
         with 0%nat; change (timeout_reports []) with 0%nat; cbn [Nat.add].
  all: destruct (timeouts (sensors st)) as [| t0 [| t1 [| t2 [| t3 [| t4 [| t5 [| ? ?]]]]]]];
       try discriminate Hlen.
  all: set (thr := input_timestamp input - SENSORS_TIMEOUT_MS cfg * 1000).
  all: assert (Hown : thr <= input_timestamp input) by (unfold thr; lia).
  all: destruct (input_type input);
       cbn [sensors_type_index seq mbind list_bind insert list_insert default lookup
            list_lookup].
  all: split.
  all: try (intros Hrep j Hj Hne;
            destruct j as [| [| [| [| j]]]]; try lia; try congruence;
            cbn [lookup list_lookup default];
            repeat match type of Hrep with
                   | context [?a <? ?b] => destruct (Z.ltb_spec a b)
                   end; unfold id in *; try lia; discriminate Hrep).
  all: intros Hall;
       pose proof (Hall 0%nat ltac:(lia)) as A0; pose proof (Hall 1%nat ltac:(lia)) as A1;
       pose proof (Hall 2%nat ltac:(lia)) as A2; pose proof (Hall 3%nat ltac:(lia)) as A3;
       cbn [lookup list_lookup default] in A0, A1, A2, A3;
       repeat match goal with
              | |- context [?a <? ?b] => destruct (Z.ltb_spec a b)
              end; try reflexivity; exfalso;
       try (specialize (A0 ltac:(discriminate))); try (specialize (A1 ltac:(discriminate)));
       try (specialize (A2 ltac:(discriminate))); try (specialize (A3 ltac:(discriminate)));
       unfold id in *; lia.
Qed.

Lemma sensors_task_timeouts_witness :
  let st := {| sensors := example_sensors; xSensors_input := [example_acceleration] |} in
  timeouts (sensors (fst (sensors_task example_config st))) !! 0%nat = Some 1000.
Proof.
  cbv zeta.
  destruct (sensors_task_timeouts example_config
              {| sensors := example_sensors; xSensors_input := [example_acceleration] |}
              example_acceleration [])
    as (_ & Hown & _); [reflexivity | reflexivity | vm_compute; discriminate |].
  exact Hown.
Defined.

(** * Further properties of the remote core *)

(** ** The buffers of the queue *)

Lemma queue_buffers_app (q q' : list remote_input_t) :
  queue_buffers (q ++ q') = queue_buffers q ++ queue_buffers q'.
Proof. unfold queue_buffers. apply bind_app. Qed.

Lemma fresh_not_queued (st : remote_state) :
  remote_inv st -> fresh (dom (heap st)) ∉ queue_buffers (xRemote_input st).
Proof.
  intros (_ & _ & _ & Hlive) Hin. apply Hlive in Hin.
  apply (is_fresh (dom (heap st))). apply elem_of_dom. exact Hin.
Qed.

(** a producer: a buffer is allocated at a fresh address, and an event that
    holds it may be queued *)
Lemma remote_inv_produce (st : remote_state) (input : remote_input_t) (buf : list byte) :
  remote_inv st ->
  (carries_buffer input = true -> msg_data (message input) = fresh (dom (heap st))) ->
  remote_inv (fst (xQueueSend input (set_heap (<[fresh (dom (heap st)) := buf]> (heap st)) st))).
Proof.
  intros Hinv Hdata. pose proof (fresh_not_queued st Hinv) as Hfresh.
  destruct Hinv as (Hc & Hlen & Hnd & Hlive).
  unfold xQueueSend, xRemote_input_length in *. cbn [xRemote_input set_heap].
  destruct (Z.ltb_spec (Z.of_nat (length (xRemote_input st))) 32) as [Hroom | Hfull];
    cbn [fst]; unfold remote_inv, xRemote_input_length;
    cbn [remote connected xRemote_input heap set_heap set_xRemote_input].
  - split; [exact Hc |]. split; [rewrite length_app; cbn; lia |].
    rewrite queue_buffers_app. unfold queue_buffers at 2 4. cbn [mbind list_bind].
    rewrite app_nil_r.
    destruct (carries_buffer input) eqn:Hcb.
    + rewrite Hdata by reflexivity. split.
      * apply NoDup_app. split; [exact Hnd |]. split; [| apply NoDup_singleton].
        intros p Hp Hp'. apply list_elem_of_singleton in Hp'. subst p. exact (Hfresh Hp).
      * intros p Hp. apply elem_of_app in Hp as [Hp | Hp].
        -- apply Hlive in Hp. rewrite lookup_insert. case_decide; [eauto | exact Hp].
        -- apply list_elem_of_singleton in Hp. subst p. rewrite lookup_insert_eq. eauto.
    + rewrite app_nil_r. split; [exact Hnd |].
      intros p Hp. apply Hlive in Hp. rewrite lookup_insert. case_decide; [eauto | exact Hp].
  - split; [exact Hc |]. split; [lia |]. split; [exact Hnd |].
    intros p Hp. apply Hlive in Hp. rewrite lookup_insert. case_decide; [eauto | exact Hp].
Qed.

Lemma remote_inv_set_heap_same (st : remote_state) (input : remote_input_t) :
  remote_inv st -> carries_buffer input = false ->
  remote_inv (fst (xQueueSend input st)).
Proof.
  intros (Hc & Hlen & Hnd & Hlive) Hcb.
  unfold xQueueSend, xRemote_input_length in *.
  destruct (Z.ltb_spec (Z.of_nat (length (xRemote_input st))) 32) as [Hroom | Hfull];
    cbn [fst]; unfold remote_inv, xRemote_input_length;
    cbn [remote connected xRemote_input heap set_heap set_xRemote_input];
    [| tauto].
  split; [exact Hc |]. split; [rewrite length_app; cbn; lia |].
  rewrite queue_buffers_app. unfold queue_buffers at 2 4. cbn [mbind list_bind].
  rewrite Hcb, !app_nil_r. split; assumption.
Qed.

Lemma freed_app (c c' : list remote_call) : freed (c ++ c') = freed c ++ freed c'.
Proof. unfold freed. apply bind_app. Qed.

Lemma sendMessage_frees_nothing (st : remote_state) (m : remote_input_message_t) :
  freed (remote_sendMessage st m) = [].
Proof.
  unfold remote_sendMessage.
  destruct (negb _); [destruct (msg_ws m) |]; reflexivity.
Qed.

Lemma timeout_keeps_buffers (now : Z) (st : remote_state) :
  freed (snd (remote_task_timeout now st)) = [] /\
  heap (fst (remote_task_timeout now st)) = heap st /\
  xRemote_input (fst (remote_task_timeout now st)) = xRemote_input st /\
  connected (remote (fst (remote_task_timeout now st))) = connected (remote st).
Proof.
  unfold remote_task_timeout.
  destruct (negb _ && _); [destruct (timeoutPending st) |]; repeat split; reflexivity.
Qed.

Lemma receive_releases (st : remote_state) :
  freed (snd (remote_task_receive st)) = queue_buffers (take 1 (xRemote_input st)) /\
  heap (fst (remote_task_receive st))
    = foldr delete (heap st) (queue_buffers (take 1 (xRemote_input st))) /\
  xRemote_input (fst (remote_task_receive st)) = drop 1 (xRemote_input st).
Proof.
  unfold remote_task_receive.
  destruct (xRemote_input st) as [| input queue] eqn:Hq.
  - cbn. rewrite Hq. repeat split; reflexivity.
  - cbn [take drop].
    unfold queue_buffers, carries_buffer. cbn [mbind list_bind app].
    destruct (type_ input); cbn [fst snd app];
      rewrite ?freed_app, ?remote_processMessage_nil, ?sendMessage_frees_nothing;
      repeat split; reflexivity.
Qed.

(** One iteration of the task takes at most one event from the queue and
    releases exactly the buffer that this event holds: one [free] for a
    message, none for a connection event or on an empty queue. *)
Lemma task_step_buffers (now : Z) (st : remote_state) :
  let r := remote_task now st in
  let taken := queue_buffers (take 1 (xRemote_input st)) in
  freed (snd r) = taken /\
  heap (fst r) = foldr delete (heap st) taken /\
  xRemote_input (fst r) = drop 1 (xRemote_input st) /\
  (length taken <= 1)%nat.
Proof.
  cbv zeta. unfold remote_task.
  pose proof (receive_releases st) as (Hf & Hh & Hq).
  destruct (remote_task_receive st) as [st1 c1]. cbn [fst snd] in *.
  pose proof (timeout_keeps_buffers now st1) as (Hf' & Hh' & Hq' & _).
  destruct (remote_task_timeout now st1) as [st2 c2]. cbn [fst snd] in *.
  rewrite freed_app, Hf, Hf', app_nil_r, Hh', Hh, Hq', Hq.
  repeat split; try reflexivity.
  destruct (xRemote_input st) as [| i q]; [cbv; auto |].
  cbn [take]. unfold queue_buffers. cbn [mbind list_bind].
  destruct (carries_buffer i); cbn [app length]; auto.
Qed.

Lemma queue_buffers_take_drop (n : nat) (q : list remote_input_t) :
  queue_buffers (take 1 q) ++ queue_buffers (take n (drop 1 q))
  = queue_buffers (take (S n) q).
Proof.
  destruct q as [| i q]; [rewrite drop_nil, !take_nil; reflexivity |].
  cbn [take drop].
  change (i :: take n q) with ([i] ++ take n q). rewrite queue_buffers_app. reflexivity.
Qed.

(** X11. A run of the task with no producer drains the queue in order: after
    [n] iterations the first [n] events are gone, and the buffers released are
    exactly the buffers of these events, each once and in the order of the
    queue. *)
Theorem task_run_drains_in_order (nows : list Z) (st : remote_state) :
  let r := remote_task_run nows st in
  xRemote_input (fst r) = drop (length nows) (xRemote_input st) /\
  freed (snd r) = queue_buffers (take (length nows) (xRemote_input st)) /\
  heap (fst r)
    = foldl (fun h p => delete p h) (heap st)
            (queue_buffers (take (length nows) (xRemote_input st))).
Proof.
  cbv zeta. revert st. induction nows as [| now nows IH]; intros st.
  - cbn. rewrite drop_0, take_0. repeat split; reflexivity.
  - cbn [remote_task_run length].
    pose proof (task_step_buffers now st) as Haux. cbv zeta in Haux.
    destruct (remote_task now st) as [st1 c1]. cbn [fst snd] in Haux.
    destruct Haux as (Hf & Hh & Hq & Hone).
    specialize (IH st1).
    destruct (remote_task_run nows st1) as [st2 c2]. cbn [fst snd] in *.
    destruct IH as (IHq & IHf & IHh).
    rewrite IHq, Hq, drop_drop, freed_app, Hf, IHf, IHh, Hq, Hh.
    replace (1 + length nows)%nat with (S (length nows)) by reflexivity.
    rewrite <- (queue_buffers_take_drop (length nows) (xRemote_input st)), foldl_app.
    repeat split; try reflexivity.
    f_equal.
    destruct (queue_buffers (take 1 (xRemote_input st))) as [| p [| p' l]];
      try reflexivity.
    cbn in Hone. lia.
Qed.

Lemma receive_inv (st : remote_state) :
  remote_inv st ->
  remote_inv (fst (remote_task_receive st)) /\
  forall p, p ∈ freed (snd (remote_task_receive st)) ->
    is_Some (heap st !! p) /\
    heap (fst (remote_task_receive st)) !! p = None /\
    p ∉ queue_buffers (xRemote_input (fst (remote_task_receive st))).
Proof.
  intros (Hc & Hlen & Hnd & Hlive). unfold remote_task_receive.
  destruct (xRemote_input st) as [| input queue] eqn:Hq.
  - cbn [fst snd]. split; [| intros p Hp; inversion Hp].
    unfold remote_inv. rewrite Hq. tauto.
  - change (input :: queue) with ([input] ++ queue) in Hnd, Hlive.
    rewrite queue_buffers_app in Hnd, Hlive.
    unfold queue_buffers at 1 in Hnd. unfold queue_buffers at 1 in Hlive.
    cbn [mbind list_bind] in Hnd, Hlive. rewrite app_nil_r in Hnd, Hlive.
    cbn [length] in Hlen. unfold carries_buffer in Hnd, Hlive.
    unfold remote_inv.
    destruct (type_ input);
      cbn [fst snd remote connected xRemote_input heap set_heap set_xRemote_input
           set_connected set_remote set_lastContact set_timeoutPending app] in *;
      rewrite ?freed_app, ?remote_processMessage_nil, ?sendMessage_frees_nothing.
    1, 2: split; [| intros p Hp; inversion Hp];
      (split; [apply Z.mod_pos_bound; lia |]); (split; [lia |]); split; assumption.
    all: apply NoDup_cons in Hnd as [Hp Hnd];
      split;
      [ split; [exact Hc |]; split; [lia |]; split; [exact Hnd |];
        intros p' Hp'; unfold free; rewrite lookup_delete_ne;
        [apply Hlive; right; exact Hp' | intros <-; exact (Hp Hp')]
      | intros p' Hp'; apply list_elem_of_singleton in Hp'; subst p';
        split; [apply Hlive; left | split; [apply lookup_delete_eq | exact Hp]] ].
Qed.

(** X12. The state of the remote core stays in order over an iteration of the
    task, and the task releases only buffers that are allocated: a buffer it
    releases was allocated before, is not allocated afterwards, and no event
    left in the queue holds it. *)
Theorem task_keeps_the_buffers_in_order (now : Z) (st : remote_state) :
  remote_inv st ->
  let r := remote_task now st in
  remote_inv (fst r) /\
  forall p, p ∈ freed (snd r) ->
    is_Some (heap st !! p) /\ heap (fst r) !! p = None /\
    p ∉ queue_buffers (xRemote_input (fst r)).
Proof.
  intros Hinv. cbv zeta. unfold remote_task.
  pose proof (receive_inv st Hinv) as [Hinv1 Hfreed].
  destruct (remote_task_receive st) as [st1 c1]. cbn [fst snd] in *.
  pose proof (timeout_keeps_buffers now st1) as (Hf & Hh & Hq & Hcon).
  destruct (remote_task_timeout now st1) as [st2 c2]. cbn [fst snd] in *.
  split.
  - unfold remote_inv in *. rewrite Hh, Hq, Hcon. exact Hinv1.
  - intros p Hp. rewrite freed_app, Hf, app_nil_r in Hp. rewrite Hh, Hq. auto.
Qed.

Lemma task_keeps_the_buffers_in_order_witness :
  let m := {| type_ := REMOTE_INPUT_MESSAGE_SEND; message := example_message 1 2 |} in
  let st := example_remote 1 false [m] {[ 1%positive := list_byte_of_string "hi" ]} in
  remote_inv st /\
  remote_inv (fst (remote_task 0 st)) /\
  heap (fst (remote_task 0 st)) !! 1%positive = None.
Proof.
  cbv zeta.
  assert (Hinv : remote_inv (example_remote 1 false
            [{| type_ := REMOTE_INPUT_MESSAGE_SEND; message := example_message 1 2 |}]
            {[ 1%positive := list_byte_of_string "hi" ]})).
  { unfold remote_inv. split; [vm_compute; split; [discriminate | reflexivity] |].
    split; [vm_compute; discriminate |].
    split; [vm_compute; apply NoDup_singleton |].
    intros p Hp. vm_compute in Hp. apply list_elem_of_singleton in Hp. subst p.
    vm_compute. eauto. }
  split; [exact Hinv |].
  pose proof (task_keeps_the_buffers_in_order 0 _ Hinv) as [H1 H2].
  split; [exact H1 |].
  apply (H2 1%positive). vm_compute. left.
Defined.

Section Producers.

Variable vformat : string -> va_list -> option (list byte).

Lemma malloc_write_inv (st : remote_state) (input : remote_input_t)
    (f : list byte -> list byte) (n : nat) :
  remote_inv st ->
  (carries_buffer input = true -> msg_data (message input) = fresh (dom (heap st))) ->
  remote_inv (fst (xQueueSend input
    (set_heap (alter f (fresh (dom (heap st)))
                 (<[fresh (dom (heap st)) := replicate n "000"%byte]> (heap st))) st))).
Proof.
  intros Hinv Hdata. rewrite alter_insert_eq. apply remote_inv_produce; assumption.
Qed.

Lemma malloc_free_inv (st : remote_state) (f : list byte -> list byte) (n : nat) :
  remote_inv st ->
  remote_inv (set_heap (free (fresh (dom (heap st)))
    (alter f (fresh (dom (heap st)))
       (<[fresh (dom (heap st)) := replicate n "000"%byte]> (heap st)))) st).
Proof.
  intros Hinv. unfold free.
  rewrite delete_alter_eq, delete_insert_id by apply not_elem_of_dom, is_fresh.
  destruct st. exact Hinv.
Qed.

(** X13. Every producer keeps the state of the remote core in order: the
    callbacks of the web socket, the log redirector, the sensor reporter and
    the command sender (when it stays inside its buffer) queue at most one
    event, within the 32 places of the queue, and the buffer of the event is
    a new one. *)
Theorem producers_keep_the_buffers_in_order (st : remote_state) :
  remote_inv st ->
  (forall now ws data len, remote_inv (fst (remote_wsReceive now ws data len st))) /\
  (forall garbage ws, remote_inv (fst (remote_wsConnect garbage ws st))) /\
  (forall garbage ws, remote_inv (fst (remote_wsDisconnect garbage ws st))) /\
  (forall format arguments,
     remote_inv (fst (fst (remote_printLog vformat format arguments st)))) /\
  (forall value, remote_inv (fst (remote_sensorData vformat value st))) /\
  (forall command ws st' ret calls,
     remote_sendCommand command ws st = Some (st', ret, calls) -> remote_inv st').
Proof.
  intros Hinv. split; [| split; [| split; [| split; [| split]]]].
  - intros now ws data len. unfold remote_wsReceive, malloc.
    rewrite insert_insert_eq.
    match goal with |- context [xQueueSend ?i ?s] =>
      pose proof (remote_inv_produce st i (take (Z.to_nat len) data) Hinv (fun _ => eq_refl)) as H;
      destruct (xQueueSend i s) end.
    exact H.
  - intros garbage ws. unfold remote_wsConnect.
    match goal with |- context [xQueueSend ?i ?s] =>
      pose proof (remote_inv_set_heap_same st i Hinv eq_refl) as H;
      destruct (xQueueSend i s) end.
    exact H.
  - intros garbage ws. unfold remote_wsDisconnect.
    match goal with |- context [xQueueSend ?i ?s] =>
      pose proof (remote_inv_set_heap_same st i Hinv eq_refl) as H;
      destruct (xQueueSend i s) end.
    exact H.
  - intros format arguments. unfold remote_printLog, malloc.
    destruct (vsnprintf vformat 127 format arguments) as [n written].
    destruct (_ || _).
    + cbn [fst]. apply malloc_free_inv, Hinv.
    + match goal with |- context [xQueueSend ?i (set_heap (alter ?f _ _) _)] =>
        pose proof (malloc_write_inv st i f 128 Hinv (fun _ => eq_refl)) as H;
        destruct (xQueueSend i _) end.
      exact H.
  - intros value. unfold remote_sensorData, malloc.
    match goal with |- context [let '(_, _) := ?v in _] => destruct v as [n written] end.
    destruct (_ || _).
    + cbn [fst]. apply malloc_free_inv, Hinv.
    + match goal with |- context [xQueueSend ?i (set_heap (alter ?f _ _) _)] =>
        pose proof (malloc_write_inv st i f 128 Hinv (fun _ => eq_refl)) as H;
        destruct (xQueueSend i _) end.
      exact H.
  - intros command ws st' ret calls. unfold remote_sendCommand, malloc.
    destruct (_ >? 128).
    + intros [= <- _ _]. unfold free. rewrite delete_insert_id by apply not_elem_of_dom, is_fresh.
      destruct st. exact Hinv.
    + destruct (store_bytes 0 _ _) as [buf |]; [| discriminate].
      destruct (store_bytes 1 _ _) as [buf' |]; [| discriminate].
      rewrite insert_insert_eq.
      match goal with |- context [xQueueSend ?i ?s] =>
        pose proof (remote_inv_produce st i buf' Hinv (fun _ => eq_refl)) as H;
        destruct (xQueueSend i s) end.
      intros [= <- _ _]. exact H.
Qed.

End Producers.

Lemma producers_keep_the_buffers_in_order_witness :
  let st := example_remote 0 false [] ∅ in
  remote_inv st /\
  remote_inv (fst (remote_wsReceive 5 1 (list_byte_of_string "c1") 2 st)).
Proof.
  cbv zeta.
  assert (Hinv : remote_inv (example_remote 0 false [] ∅)).
  { unfold remote_inv. split; [vm_compute; split; [discriminate | reflexivity] |].
    split; [vm_compute; discriminate |].
    split; [vm_compute; apply NoDup_nil_2 |].
    intros p Hp. vm_compute in Hp. inversion Hp. }
  split; [exact Hinv |].
  apply (producers_keep_the_buffers_in_order vformat_verbatim _ Hinv).
Defined.

(** ** Round trips through the queue *)

Section RoundTrips.

Variable vformat : string -> va_list -> option (list byte).

Lemma printLog_buffer (text : list byte) :
  (length text <= 126)%nat ->
  take (Z.to_nat ((Z.of_nat (length text) + 1) mod 256))
       (take 128 ("l"%byte :: (take (127 - 1) text ++ ["000"%byte])
                  ++ drop (1 + length (take (127 - 1) text ++ ["000"%byte]))
                          (replicate 128 "000"%byte)))
  = "l"%byte :: text.
Proof.
  intros Hlen.
  rewrite Z.mod_small by lia.
  replace (Z.to_nat (Z.of_nat (length text) + 1)) with (S (length text)) by lia.
  rewrite (take_ge text) by lia.
  rewrite take_take. replace (S (length text) `min` 128)%nat with (S (length text)) by lia.
  cbn [take]. f_equal. rewrite <- app_assoc.
  rewrite take_app_length. reflexivity.
Qed.

(** X14. A log line goes round. A line whose text has 126 bytes at most, logged
    while the queue is empty, is what the next iteration of the task
    broadcasts on "/ws": the letter l and the text, without the terminating
    zero; then the buffer is released and the heap is as before the line.
    With no connection the line is dropped, and the buffer is released all
    the same. *)
Theorem log_line_round_trip (format : string) (arguments : va_list) (text : list byte)
    (now : Z) (st : remote_state) :
  vformat format arguments = Some text ->
  (length text <= 126)%nat ->
  xRemote_input st = [] ->
  now - lastContact st <= 500000 ->
  let p := fresh (dom (heap st)) in
  let '(st1, _, _) := remote_printLog vformat format arguments st in
  let '(st2, calls) := remote_task now st1 in
  calls = (if connected (remote st) =? 0 then []
           else [call_cgiWebsockBroadcast "/ws" ("l"%byte :: text)])
          ++ [call_free p] /\
  heap st2 = heap st /\
  xRemote_input st2 = [].
Proof.
  intros Htext Hlen Hq Hnow. cbv zeta.
  unfold remote_printLog, malloc, vsnprintf. rewrite Htext.
  assert (Hle : (Z.of_nat (length text) + 1 <=? 0) = false) by lia.
  assert (Hgt : (Z.of_nat (length text) + 1 >? 128) = false) by lia.
  rewrite Hle, Hgt. cbn [orb]. unfold xQueueSend. cbn [xRemote_input set_heap].
  rewrite Hq. cbn [length]. change (Z.of_nat 0 <? xRemote_input_length) with true.
  cbn iota. unfold remote_task, remote_task_receive.
  cbn [xRemote_input set_xRemote_input set_heap app type_ message msg_data heap remote
       timeoutPending lastContact].
  unfold remote_sendMessage.
  cbn [xRemote_input set_xRemote_input set_heap app type_ message msg_data heap remote
       timeoutPending lastContact msg_ws msg_length].
  unfold remote_task_timeout.
  cbn [xRemote_input set_xRemote_input set_heap app type_ message msg_data heap remote
       timeoutPending lastContact msg_ws msg_length].
  assert (Hno : (now - lastContact st >? 500000) = false) by lia.
  rewrite Hno, andb_false_r. rewrite app_nil_r.
  cbn [heap xRemote_input].
  split; [| split; [| reflexivity]].
  - destruct (connected (remote st) =? 0); cbn [negb]; [reflexivity |].
    unfold read_buffer. rewrite lookup_alter_eq, lookup_insert_eq.
    cbn [fmap option_fmap option_map default]. unfold id.
    rewrite printLog_buffer by assumption. reflexivity.
  - unfold free. rewrite delete_alter_eq, delete_insert_id; [reflexivity |].
    apply not_elem_of_dom, is_fresh.
Qed.

End RoundTrips.

Lemma log_line_round_trip_witness :
  let st := example_remote 1 false [] ∅ in
  let '(st1, _, _) := remote_printLog vformat_verbatim "boot" [] st in
  let '(st2, calls) := remote_task 7 st1 in
  calls = [call_cgiWebsockBroadcast "/ws" (list_byte_of_string "lboot"); call_free 1%positive] /\
  heap st2 = ∅.
Proof.
  cbv zeta.
  pose proof (log_line_round_trip vformat_verbatim "boot" [] (list_byte_of_string "boot") 7
                (example_remote 1 false [] ∅) eq_refl) as H.
  cbv zeta in H.
  destruct (remote_printLog vformat_verbatim "boot" [] _) as [[st1 ret] c1].
  destruct (remote_task 7 st1) as [st2 calls].
  destruct H as (H1 & H2 & _); [vm_compute; lia | reflexivity | vm_compute; discriminate |].
  split; [exact H1 | exact H2].
Defined.

(** X15. A frame received goes round, whatever it holds. A frame received while
    the queue is empty is taken by the next iteration of the task; if that
    is within 500 ms of the receipt, the only call is the release of the
    buffer, the heap is as before the frame, the last contact is the time
    of the receipt and no heartbeat is pending any more: any frame, the
    fault report s0 too, counts as a sign of life. *)
Theorem frame_round_trip (now now' : Z) (ws : nat) (data : list byte) (len : Z)
    (st : remote_state) :
  xRemote_input st = [] ->
  now' - now <= 500000 ->
  let p := fresh (dom (heap st)) in
  let '(st1, _) := remote_wsReceive now ws data len st in
  let '(st2, calls) := remote_task now' st1 in
  calls = [call_free p] /\
  heap st2 = heap st /\
  lastContact st2 = now /\
  timeoutPending st2 = false /\
  remote st2 = remote st /\
  xRemote_input st2 = [].
Proof.
  intros Hq Hnow. cbv zeta. unfold remote_wsReceive, malloc, xQueueSend.
  cbn [xRemote_input set_heap]. rewrite Hq. cbn [length].
  change (Z.of_nat 0 <? xRemote_input_length) with true. cbn iota.
  unfold remote_task, remote_task_receive.
  cbn [xRemote_input set_xRemote_input set_heap app type_ message msg_data heap remote
       timeoutPending lastContact set_lastContact set_timeoutPending msg_timestamp].
  rewrite remote_processMessage_nil. unfold remote_task_timeout.
  cbn [xRemote_input set_xRemote_input set_heap app type_ message msg_data heap remote
       timeoutPending lastContact set_lastContact set_timeoutPending msg_timestamp].
  assert (Hno : (now' - now >? 500000) = false) by lia.
  rewrite Hno, andb_false_r.
  cbn [xRemote_input set_xRemote_input set_heap app type_ message msg_data heap remote
       timeoutPending lastContact set_lastContact set_timeoutPending msg_timestamp].
  repeat split. unfold free.
  rewrite insert_insert_eq, delete_insert_id; [reflexivity |].
  apply not_elem_of_dom, is_fresh.
Qed.

Lemma frame_round_trip_witness :
  let st := example_remote 1 true [] ∅ in
  let '(st1, _) := remote_wsReceive 1000 3 (list_byte_of_string "s0") 2 st in
  let '(st2, calls) := remote_task 2000 st1 in
  calls = [call_free 1%positive] /\ lastContact st2 = 1000 /\ timeoutPending st2 = false.
Proof.
  cbv zeta.
  pose proof (frame_round_trip 1000 2000 3 (list_byte_of_string "s0") 2
                (example_remote 1 true [] ∅) eq_refl) as H.
  cbv zeta in H.
  destruct (remote_wsReceive 1000 3 _ 2 _) as [st1 c1].
  destruct (remote_task 2000 st1) as [st2 calls].
  destruct H as (H1 & _ & H2 & H3 & _); [lia |].
  repeat split; assumption.
Defined.

(** X16. A connection that comes and goes leaves the count as it was. With the
    queue empty and the count a [uint8_t], the events of [remote_wsConnect]
    and of [remote_wsDisconnect], each taken by an iteration of the task,
    bring the count to its value plus one modulo 256 and back; the new socket
    is greeted with the seven bytes quadro2, nothing is allocated. At 255
    connections the count of the next one is 0. *)
Theorem connection_round_trip (g g' : remote_input_message_t) (ws : nat) (now now' : Z)
    (st : remote_state) :
  xRemote_input st = [] ->
  0 <= connected (remote st) < 256 ->
  let '(st1, c1) := remote_wsConnect g ws st in
  let '(st2, _) := remote_task now st1 in
  let '(st3, c3) := remote_wsDisconnect g' ws st2 in
  let '(st4, _) := remote_task now' st3 in
  c1 = [call_cgiWebsocketSend ws (list_byte_of_string "quadro2")] /\
  c3 = [] /\
  connected (remote st2) = (connected (remote st) + 1) mod 256 /\
  (connected (remote st) = 255 -> connected (remote st2) = 0) /\
  connected (remote st4) = connected (remote st) /\
  heap st4 = heap st /\
  xRemote_input st4 = [].
Proof.
  intros Hq Hc. unfold remote_wsConnect, remote_wsDisconnect, xQueueSend.
  rewrite Hq. cbn [length]. change (Z.of_nat 0 <? xRemote_input_length) with true.
  cbn iota. unfold remote_task at 1, remote_task_receive.
  cbn [xRemote_input set_xRemote_input app type_].
  match goal with |- context [remote_task_timeout now ?s] =>
    pose proof (timeout_keeps_buffers now s) as (_ & Hh & Hq2 & Hc2);
    destruct (remote_task_timeout now s) as [st2 c2] end.
  cbn [fst xRemote_input set_xRemote_input set_connected set_remote remote connected heap]
    in Hh, Hq2, Hc2.
  rewrite Hq2. cbn [length]. change (Z.of_nat 0 <? xRemote_input_length) with true.
  cbn iota. unfold remote_task, remote_task_receive.
  cbn [xRemote_input set_xRemote_input app type_].
  match goal with |- context [remote_task_timeout now' ?s] =>
    pose proof (timeout_keeps_buffers now' s) as (_ & Hh4 & Hq4 & Hc4);
    destruct (remote_task_timeout now' s) as [st4 c4] end.
  cbn [fst xRemote_input set_xRemote_input set_connected set_remote remote connected heap]
    in Hh4, Hq4, Hc4.
  rewrite Hc2, Hc4, Hh4, Hq4, Hc2, Hh.
  repeat split.
  - intros ->. reflexivity.
  - destruct (Z.eq_dec (connected (remote st)) 255) as [-> | Hne]; [reflexivity |].
    rewrite (Z.mod_small (_ + 1)) by lia.
    rewrite Z.mod_small by lia. lia.
Qed.

Lemma connection_round_trip_witness :
  let st := example_remote 255 false [] ∅ in
  let '(st1, _) := remote_wsConnect (example_message 1 0) 4 st in
  let '(st2, _) := remote_task 0 st1 in
  let '(st3, _) := remote_wsDisconnect (example_message 1 0) 4 st2 in
  let '(st4, _) := remote_task 0 st3 in
  connected (remote st2) = 0 /\ connected (remote st4) = 255.
Proof.
  cbv zeta.
  pose proof (connection_round_trip (example_message 1 0) (example_message 1 0) 4 0 0
                (example_remote 255 false [] ∅) eq_refl) as H.
  destruct (remote_wsConnect _ 4 _) as [st1 c1].
  destruct (remote_task 0 st1) as [st2 c2].
  destruct (remote_wsDisconnect _ 4 st2) as [st3 c3].
  destruct (remote_task 0 st3) as [st4 c4].
  destruct H as (_ & _ & _ & H1 & H2 & _); [vm_compute; split; [discriminate | reflexivity] |].
  split; [apply H1; reflexivity | exact H2].
Defined.

(** X17. The heartbeat under silence. With a connection, an empty queue and
    no heartbeat pending, more than 500 ms after the last contact: an
    iteration sends the ping s? and nothing else; the next iteration more
    than 500 ms later prints the timeout; and the iteration after that one
    pings again at once, however short the time since the timeout. An
    iteration within 500 ms of the ping does nothing. *)
Theorem heartbeat_under_silence (now1 now2 now3 : Z) (st : remote_state) :
  xRemote_input st = [] ->
  connected (remote st) <> 0 ->
  timeoutPending st = false ->
  now1 - lastContact st > 500000 ->
  now2 - now1 > 500000 ->
  now2 <= now3 ->
  let ping := call_cgiWebsockBroadcast "/ws" ["s"%byte; "?"%byte] in
  snd (remote_task_run [now1; now2; now3] st)
  = [ping; call_printf ("remote timeout" ++ LF); ping] /\
  (forall now, now - now1 <= 500000 -> snd (remote_task_run [now1; now] st) = [ping]).
Proof.
  intros Hq Hc Hp H1 H2 H3. cbv zeta.
  assert (Hcb : (connected (remote st) =? 0) = false) by lia.
  assert (G1 : (now1 - lastContact st >? 500000) = true) by lia.
  assert (G2 : (now2 - now1 >? 500000) = true) by lia.
  assert (G3 : (now3 - now1 >? 500000) = true) by lia.
  split; [| intros now Hnow; assert (G4 : (now - now1 >? 500000) = false) by lia];
    unfold remote_task_run, remote_task, remote_task_receive, remote_task_timeout;
    repeat (rewrite ?Hq, ?Hcb, ?G1, ?G2, ?G3, ?G4, ?Hp;
            cbn [negb andb xRemote_input set_lastContact set_timeoutPending remote
                 timeoutPending lastContact app]);
    reflexivity.
Qed.

Lemma heartbeat_under_silence_witness :
  snd (remote_task_run [600000; 1200000; 1200000] (example_remote 1 false [] ∅))
  = [call_cgiWebsockBroadcast "/ws" ["s"%byte; "?"%byte];
     call_printf ("remote timeout" ++ LF);
     call_cgiWebsockBroadcast "/ws" ["s"%byte; "?"%byte]].
Proof.
  apply (heartbeat_under_silence 600000 1200000 1200000 (example_remote 1 false [] ∅));
    [reflexivity | discriminate | reflexivity | reflexivity | reflexivity | discriminate].
Defined.

(** ** The command sender and the sensor reporter *)

Lemma set_heap_same (st : remote_state) (h : heap_t) :
  h = heap st -> set_heap h st = st.
Proof. intros ->. destruct st. reflexivity. Qed.

Lemma malloc_free_heap {A} (h : gmap positive A) (v : A) :
  delete (fresh (dom h)) (<[fresh (dom h) := v]> h) = h.
Proof. apply delete_insert_id, not_elem_of_dom, is_fresh. Qed.

(** what [xQueueSend] leaves: the event is appended if there is room *)
Lemma xQueueSend_cases (input : remote_input_t) (st : remote_state) :
  let room := Z.of_nat (length (xRemote_input st)) <? xRemote_input_length in
  xQueueSend input st
  = (set_xRemote_input (xRemote_input st ++ (if room then [input] else [])) st, room).
Proof.
  cbv zeta. unfold xQueueSend. destruct (_ <? _); [reflexivity |].
  rewrite app_nil_r. destruct st. reflexivity.
Qed.

(** The command sender, by the length of the command: a command of 126
    bytes at most is queued, if the queue has room, as the letter c and the
    command; for a command of 127 bytes the terminating zero is stored behind
    the last byte of the buffer; a longer command is refused. *)
Lemma sendCommand_cases (command : list byte) (ws : option nat) (st : remote_state) :
  let p := fresh (dom (heap st)) in
  let n := length command in
  let room := Z.of_nat (length (xRemote_input st)) <? xRemote_input_length in
  if (n <=? 126)%nat then
    exists buf,
      remote_sendCommand command ws st
      = Some (set_xRemote_input
                (xRemote_input st ++ (if room then [send_event p (Z.of_nat n + 1) ws] else []))
                (set_heap (<[p := buf]> (heap st)) st),
              negb room, [call_malloc p 128]) /\
      take (Z.to_nat (Z.of_nat n + 1)) buf = "c"%byte :: command /\
      length buf = 128%nat
  else if (n =? 127)%nat then
    remote_sendCommand command ws st = None
  else
    remote_sendCommand command ws st = Some (st, true, [call_malloc p 128; call_free p]).
Proof.
  cbv zeta. unfold remote_sendCommand, malloc.
  set (B := replicate 128 "000"%byte).
  assert (HB : length B = 128%nat) by apply length_replicate.
  clearbody B.
  destruct (Nat.leb_spec (length command) 126) as [Hle | Hgt].
  - assert (H128 : (Z.of_nat (length command) + 1 >? 128) = false) by lia.
    rewrite H128, lookup_insert_eq. cbn [default]. unfold id.
    unfold store_bytes at 1. rewrite take_0. cbn [length Nat.add app].
    rewrite decide_True by lia.
    unfold store_bytes. rewrite firstn_cons, take_0. cbn [length app].
    rewrite decide_True by (repeat (rewrite ?length_app, ?length_drop; cbn [length]); lia).
    rewrite insert_insert_eq, Z.mod_small by lia.
    rewrite xQueueSend_cases. cbn [xRemote_input set_heap].
    eexists. split; [reflexivity |]. split.
    + replace (Z.to_nat (Z.of_nat (length command) + 1)) with (S (length command)) by lia.
      rewrite firstn_cons. f_equal.
      rewrite <- app_assoc, take_app_length. reflexivity.
    + repeat (rewrite ?length_app, ?length_drop; cbn [length]). lia.
  - destruct (Nat.eqb_spec (length command) 127) as [Heq | Hne].
    + assert (H128 : (Z.of_nat (length command) + 1 >? 128) = false) by lia.
      rewrite H128, lookup_insert_eq. cbn [default]. unfold id.
      unfold store_bytes at 1. rewrite take_0. cbn [length Nat.add app].
      rewrite decide_True by lia.
      unfold store_bytes. cbn [length app].
      rewrite decide_False; [reflexivity |].
      repeat (rewrite ?length_app, ?length_drop; cbn [length]). lia.
    + assert (H128 : (Z.of_nat (length command) + 1 >? 128) = true) by lia.
      rewrite H128. unfold free. rewrite malloc_free_heap, set_heap_same; reflexivity.
Qed.

Section SensorReports.

Variable vformat : string -> va_list -> option (list byte).

(** [remote_sensorData] from the result of the formatting on *)
Lemma sensorData_formatted (st : remote_state) (text : option (list byte)) :
  let p := fresh (dom (heap st)) in
  let room := Z.of_nat (length (xRemote_input st)) <? xRemote_input_length in
  let formatted :=
    match text with
    | Some text => (Z.of_nat (length text), take (128 - 1) text ++ ["000"%byte])
    | None => (-1, [])
    end in
  (let '(length_, written) := formatted in
   let h := alter (fun buf : list byte => take 128 (written ++ drop (length written) buf)) p
              (<[p := replicate 128 "000"%byte]> (heap st)) in
   if (length_ <=? 0) || (length_ >? 128) then
     (set_heap (free p h) st, [call_malloc p 128; call_free p])
   else
     let input :=
       {| type_ := REMOTE_INPUT_MESSAGE_SEND;
          message := {| msg_data := p; msg_length := length_ mod 256;
                        msg_ws := None; msg_timestamp := 0 |} |} in
     let '(st0, _) := xQueueSend input (set_heap h st) in
     (st0, [call_malloc p 128]))
  = match text with
    | Some text =>
      if (1 <=? length text)%nat && (length text <=? 128)%nat then
        (set_xRemote_input
           (xRemote_input st
            ++ (if room then [send_event p (Z.of_nat (length text)) None] else []))
           (set_heap (<[p := take 128 ((take 127 text ++ ["000"%byte])
                                        ++ replicate (127 - length text) "000"%byte)]>
                        (heap st)) st),
         [call_malloc p 128])
      else (st, [call_malloc p 128; call_free p])
    | None => (st, [call_malloc p 128; call_free p])
    end.
Proof.
  cbv zeta.
  assert (Hrefused : forall w : list byte,
    set_heap (free (fresh (dom (heap st)))
      (alter (fun buf : list byte => take 128 (w ++ drop (length w) buf))
         (fresh (dom (heap st)))
         (<[fresh (dom (heap st)) := replicate 128 "000"%byte]> (heap st)))) st = st).
  { intros w. unfold free. rewrite delete_alter_eq, malloc_free_heap, set_heap_same; reflexivity. }
  destruct text as [text |].
  - destruct (Nat.leb_spec 1 (length text)) as [H1 | H0];
      [destruct (Nat.leb_spec (length text) 128) as [H128 | Hover] |]; cbn [andb].
    + assert (Hle : (Z.of_nat (length text) <=? 0) = false) by lia.
      assert (Hgt : (Z.of_nat (length text) >? 128) = false) by lia.
      rewrite Hle, Hgt. cbn [orb]. rewrite Z.mod_small by lia.
      rewrite xQueueSend_cases. cbn [xRemote_input set_heap heap].
      rewrite alter_insert_eq. repeat f_equal.
      rewrite length_app, length_take. cbn [length].
      rewrite drop_replicate. f_equal. lia.
    + assert (Hgt : (Z.of_nat (length text) >? 128) = true) by lia.
      rewrite Hgt, orb_true_r, Hrefused. reflexivity.
    + assert (Hle : (Z.of_nat (length text) <=? 0) = true) by lia.
      rewrite Hle. cbn [orb]. rewrite Hrefused. reflexivity.
  - cbn [Z.leb Z.compare orb]. rewrite Hrefused. reflexivity.
Qed.

(** the bytes of a report in its buffer *)
Lemma sensorData_buffer (text : list byte) :
  (1 <= length text <= 128)%nat ->
  take (Z.to_nat (Z.of_nat (length text)))
       (take 128 ((take 127 text ++ ["000"%byte])
                  ++ replicate (127 - length text) "000"%byte))
  = if (length text =? 128)%nat then take 127 text ++ ["000"%byte] else text.
Proof.
  intros Hlen. rewrite Nat2Z.id, take_take.
  replace (length text `min` 128)%nat with (length text) by lia.
  destruct (Nat.eqb_spec (length text) 128) as [Heq | Hne].
  - rewrite Heq. replace (127 - 128)%nat with 0%nat by lia.
    cbn [replicate]. rewrite app_nil_r.
    apply take_ge. rewrite length_app, length_take. cbn [length]. lia.
  - rewrite (take_ge text) by lia. rewrite <- app_assoc. apply take_app_length.
Qed.

(** The sensor reporter, by the text: a report of 1 to 128 bytes is queued,
    if the queue has room; else the buffer is released and the state is as
    before. *)
Lemma sensorData_cases (value : sh2_SensorValue_t) (st : remote_state) :
  let p := fresh (dom (heap st)) in
  let room := Z.of_nat (length (xRemote_input st)) <? xRemote_input_length in
  remote_sensorData vformat value st
  = match sensorData_text vformat value with
    | Some text =>
      if (1 <=? length text)%nat && (length text <=? 128)%nat then
        (set_xRemote_input
           (xRemote_input st
            ++ (if room then [send_event p (Z.of_nat (length text)) None] else []))
           (set_heap (<[p := take 128 ((take 127 text ++ ["000"%byte])
                                        ++ replicate (127 - length text) "000"%byte)]>
                        (heap st)) st),
         [call_malloc p 128])
      else (st, [call_malloc p 128; call_free p])
    | None => (st, [call_malloc p 128; call_free p])
    end.
Proof.
  cbv zeta. unfold remote_sensorData, malloc, vsnprintf.
  destruct value as [x y z | accuracy i j k real |]; cbn [sensorData_text].
  - apply (sensorData_formatted st).
  - apply (sensorData_formatted st).
  - cbn [length Nat.leb andb Z.leb Z.compare orb]. unfold free.
    rewrite delete_alter_eq, malloc_free_heap, set_heap_same; reflexivity.
Qed.

End SensorReports.

(** the task takes a message to send that was queued alone *)
Lemma task_delivers (now : Z) (st : remote_state) (p : positive) (n : Z)
    (ws : option nat) (buf : list byte) :
  xRemote_input st = [] ->
  heap st !! p = None ->
  now - lastContact st <= 500000 ->
  remote_task now
    (set_xRemote_input (xRemote_input st ++ [send_event p n ws])
       (set_heap (<[p := buf]> (heap st)) st))
  = (st,
     (if connected (remote st) =? 0 then []
      else [match ws with
            | Some w => call_cgiWebsocketSend w (take (Z.to_nat n) buf)
            | None => call_cgiWebsockBroadcast "/ws" (take (Z.to_nat n) buf)
            end])
     ++ [call_free p]).
Proof.
  intros Hq Hp Hnow. rewrite Hq. cbn [app].
  unfold remote_task, remote_task_receive, send_event.
  cbn [xRemote_input set_xRemote_input set_heap app type_ message msg_data heap remote
       timeoutPending lastContact].
  unfold remote_sendMessage, read_buffer.
  cbn [xRemote_input set_xRemote_input set_heap app type_ message msg_data heap remote
       timeoutPending lastContact msg_ws msg_length].
  rewrite lookup_insert_eq. cbn [default].
  unfold remote_task_timeout.
  cbn [xRemote_input set_xRemote_input set_heap app type_ message msg_data heap remote
       timeoutPending lastContact msg_ws msg_length].
  assert (Hno : (now - lastContact st >? 500000) = false) by lia.
  rewrite Hno, andb_false_r, app_nil_r.
  unfold free. rewrite delete_insert_id by exact Hp.
  f_equal.
  - destruct st. cbn in Hq. subst. reflexivity.
  - destruct (connected (remote st) =? 0); cbn [negb]; [reflexivity |].
    destruct ws; reflexivity.
Qed.

(** X18. A command goes round. From an empty queue, a command of 126 bytes at
    most is what the next iteration of the task sends, as the letter c and
    the command without the terminating zero: to the socket given, or to
    all if none is given; the result is false, the buffer is released and
    the state is as before. With no connection the command is dropped
    without a sign. A command of 127 bytes passes the test of the length
    and its terminating zero is stored behind the last byte of the buffer;
    a longer command is refused with the result true. *)
Theorem command_round_trip (command : list byte) (ws : option nat) (now : Z)
    (st : remote_state) :
  xRemote_input st = [] ->
  now - lastContact st <= 500000 ->
  let p := fresh (dom (heap st)) in
  let n := length command in
  if (n <=? 126)%nat then
    exists st1,
      remote_sendCommand command ws st = Some (st1, false, [call_malloc p 128]) /\
      remote_task now st1
      = (st,
         (if connected (remote st) =? 0 then []
          else [match ws with
                | Some w => call_cgiWebsocketSend w ("c"%byte :: command)
                | None => call_cgiWebsockBroadcast "/ws" ("c"%byte :: command)
                end])
         ++ [call_free p])
  else if (n =? 127)%nat then
    remote_sendCommand command ws st = None
  else
    remote_sendCommand command ws st = Some (st, true, [call_malloc p 128; call_free p]).
Proof.
  intros Hq Hnow. cbv zeta.
  pose proof (sendCommand_cases command ws st) as H. cbv zeta in H.
  destruct (length command <=? 126)%nat; [| exact H].
  destruct H as (buf & Hrun & Hbuf & _).
  assert (Hroom : (Z.of_nat (length (xRemote_input st)) <? xRemote_input_length) = true)
    by (rewrite Hq; reflexivity).
  rewrite Hroom in Hrun. cbn [negb] in Hrun.
  eexists. split; [exact Hrun |].
  rewrite task_delivers; [| exact Hq | apply not_elem_of_dom, is_fresh | exact Hnow].
  rewrite Hbuf. reflexivity.
Qed.

Lemma command_round_trip_witness :
  let st := example_remote 1 false [] ∅ in
  exists st1,
    remote_sendCommand (list_byte_of_string "land") (Some 4%nat) st
    = Some (st1, false, [call_malloc 1 128]) /\
    remote_task 7 st1
    = (st, [call_cgiWebsocketSend 4 (list_byte_of_string "cland"); call_free 1%positive]).
Proof.
  exact (command_round_trip (list_byte_of_string "land") (Some 4%nat) 7
           (example_remote 1 false [] ∅) eq_refl ltac:(vm_compute; discriminate)).
Defined.

Section ReportRoundTrip.

Variable vformat : string -> va_list -> option (list byte).

(** X19. A sensor report goes round. From an empty queue, a report of 1 to 127
    bytes is what the next iteration of the task broadcasts on "/ws"; a
    report of 128 bytes passes the test of the length and is broadcast with
    its last byte replaced by the terminating zero. The buffer is released
    and the state is as before. On an error of the formatting, an empty or
    a longer report, and for a sensor that has no report, the buffer is
    released at once and nothing is sent. *)
Theorem sensor_report_round_trip (value : sh2_SensorValue_t) (now : Z) (st : remote_state) :
  xRemote_input st = [] ->
  now - lastContact st <= 500000 ->
  let p := fresh (dom (heap st)) in
  let refused := (st, [call_malloc p 128; call_free p]) in
  match sensorData_text vformat value with
  | Some text =>
    if (1 <=? length text)%nat && (length text <=? 128)%nat then
      let '(st1, calls) := remote_sensorData vformat value st in
      calls = [call_malloc p 128] /\
      remote_task now st1
      = (st,
         (if connected (remote st) =? 0 then []
          else [call_cgiWebsockBroadcast "/ws"
                  (if (length text =? 128)%nat then take 127 text ++ ["000"%byte]
                   else text)])
         ++ [call_free p])
    else remote_sensorData vformat value st = refused
  | None => remote_sensorData vformat value st = refused
  end.
Proof.
  intros Hq Hnow. cbv zeta.
  rewrite sensorData_cases.
  destruct (sensorData_text vformat value) as [text |]; [| reflexivity].
  destruct ((1 <=? length text)%nat && (length text <=? 128)%nat) eqn:Hlen; [| reflexivity].
  split; [reflexivity |].
  assert (Hroom : (Z.of_nat (length (xRemote_input st)) <? xRemote_input_length) = true)
    by (rewrite Hq; reflexivity).
  rewrite Hroom.
  rewrite task_delivers; [| exact Hq | apply not_elem_of_dom, is_fresh | exact Hnow].
  rewrite sensorData_buffer; [reflexivity |].
  apply andb_true_iff in Hlen as [H1 H2].
  apply Nat.leb_le in H1. apply Nat.leb_le in H2. lia.
Qed.

End ReportRoundTrip.

Lemma sensor_report_round_trip_witness :
  let st := example_remote 1 false [] ∅ in
  let '(st1, calls) :=
    remote_sensorData vformat_verbatim (SH2_LINEAR_ACCELERATION F32.one F32.zero F32.zero) st in
  calls = [call_malloc 1 128] /\
  remote_task 7 st1
  = (st, [call_cgiWebsockBroadcast "/ws" (list_byte_of_string "ra%f,%f,%f");
          call_free 1%positive]).
Proof.
  exact (sensor_report_round_trip vformat_verbatim
           (SH2_LINEAR_ACCELERATION F32.one F32.zero F32.zero) 7
           (example_remote 1 false [] ∅) eq_refl ltac:(vm_compute; discriminate)).
Defined.

(** ** Events dropped on a full queue *)

Lemma queue_buffers_take (n : nat) (q : list remote_input_t) (p : positive) :
  p ∈ queue_buffers (take n q) -> p ∈ queue_buffers q.
Proof.
  intros Hp. rewrite <- (take_drop n q), queue_buffers_app. apply elem_of_app. left. exact Hp.
Qed.

Lemma queue_buffers_drop (n : nat) (q : list remote_input_t) (p : positive) :
  p ∈ queue_buffers (drop n q) -> p ∈ queue_buffers q.
Proof.
  intros Hp. rewrite <- (take_drop n q), queue_buffers_app. apply elem_of_app. right. exact Hp.
Qed.

Lemma lookup_foldr_delete (h : heap_t) (l : list positive) (p : positive) :
  p ∉ l -> foldr delete h l !! p = h !! p.
Proof.
  induction l as [| x l IH]; intros Hp; [reflexivity |].
  cbn [foldr]. rewrite lookup_delete_ne.
  - apply IH. intros H. apply Hp. right. exact H.
  - intros ->. apply Hp. left.
Qed.

(** a buffer that is allocated and that no queued event holds is never
    released by the task *)
Lemma unqueued_never_released (p : positive) (st : remote_state) :
  p ∉ queue_buffers (xRemote_input st) -> is_Some (heap st !! p) ->
  never_released p st.
Proof.
  intros Hq Hlive nows. revert st Hq Hlive.
  induction nows as [| now nows IH]; intros st Hq Hlive.
  - cbn. split; [intros H; inversion H | exact Hlive].
  - cbn [remote_task_run].
    pose proof (task_step_buffers now st) as Hstep. cbv zeta in Hstep.
    destruct (remote_task now st) as [st1 c1]. cbn [fst snd] in Hstep.
    destruct Hstep as (Hf & Hh & Hq1 & _).
    assert (Hp : p ∉ queue_buffers (take 1 (xRemote_input st)))
      by (intros H; apply Hq; exact (queue_buffers_take _ _ _ H)).
    specialize (IH st1).
    destruct (remote_task_run nows st1) as [st2 c2]. cbn [fst snd] in *.
    destruct IH as [IHf IHh].
    + rewrite Hq1. intros H. apply Hq. exact (queue_buffers_drop _ _ _ H).
    + rewrite Hh, lookup_foldr_delete by exact Hp. exact Hlive.
    + split; [| exact IHh].
      rewrite freed_app, Hf. intros H. apply elem_of_app in H as [H | H]; auto.
Qed.

Lemma xQueueSend_full (input : remote_input_t) (st : remote_state) :
  xRemote_input_length <= Z.of_nat (length (xRemote_input st)) ->
  xQueueSend input st = (st, false).
Proof.
  intros Hfull. unfold xQueueSend.
  destruct (Z.ltb_spec (Z.of_nat (length (xRemote_input st))) xRemote_input_length);
    [lia | reflexivity].
Qed.

Section FullQueue.

Variable vformat : string -> va_list -> option (list byte).

(** X20. An event dropped on a full queue is a buffer lost. With the state in
    order and the 32 places of the queue taken, a frame received, a command
    of 126 bytes at most and a sensor report of 1 to 128 bytes each allocate
    their buffer and leave the queue as it was; the buffer stays allocated,
    and no iteration of the task, however many, releases it. The command
    sender returns true; the two others give no sign. *)
Theorem dropped_event_buffer_is_lost (st : remote_state) :
  remote_inv st ->
  xRemote_input_length <= Z.of_nat (length (xRemote_input st)) ->
  let p := fresh (dom (heap st)) in
  (forall now ws data len,
     let st' := fst (remote_wsReceive now ws data len st) in
     xRemote_input st' = xRemote_input st /\ never_released p st') /\
  (forall command ws, (length command <= 126)%nat ->
     exists st', remote_sendCommand command ws st = Some (st', true, [call_malloc p 128]) /\
       xRemote_input st' = xRemote_input st /\ never_released p st') /\
  (forall value text, sensorData_text vformat value = Some text ->
     (1 <= length text <= 128)%nat ->
     let st' := fst (remote_sensorData vformat value st) in
     xRemote_input st' = xRemote_input st /\ never_released p st').
Proof.
  intros Hinv Hfull. cbv zeta.
  pose proof (fresh_not_queued st Hinv) as Hfresh.
  split; [| split].
  - intros now ws data len. unfold remote_wsReceive, malloc.
    rewrite xQueueSend_full by exact Hfull. cbn [fst xRemote_input set_heap].
    split; [reflexivity |].
    apply unqueued_never_released; cbn [xRemote_input heap set_heap]; [exact Hfresh |].
    rewrite lookup_insert_eq. eauto.
  - intros command ws Hlen.
    pose proof (sendCommand_cases command ws st) as H. cbv zeta in H.
    apply Nat.leb_le in Hlen. rewrite Hlen in H.
    destruct H as (buf & Hrun & _ & _).
    assert (Hroom : (Z.of_nat (length (xRemote_input st)) <? xRemote_input_length) = false)
      by lia.
    rewrite Hroom in Hrun. rewrite app_nil_r in Hrun.
    eexists. split; [exact Hrun |]. split; [reflexivity |].
    apply unqueued_never_released; cbn [xRemote_input set_xRemote_input set_heap heap];
      [exact Hfresh |].
    rewrite lookup_insert_eq. eauto.
  - intros value text Htext Hlen.
    rewrite sensorData_cases, Htext.
    assert (H1 : (1 <=? length text)%nat = true) by (apply Nat.leb_le; lia).
    assert (H2 : (length text <=? 128)%nat = true) by (apply Nat.leb_le; lia).
    rewrite H1, H2. cbn [andb].
    assert (Hroom : (Z.of_nat (length (xRemote_input st)) <? xRemote_input_length) = false)
      by lia.
    rewrite Hroom, app_nil_r. cbn [fst xRemote_input set_xRemote_input set_heap].
    split; [reflexivity |].
    apply unqueued_never_released; cbn [xRemote_input set_xRemote_input set_heap heap];
      [exact Hfresh |].
    rewrite lookup_insert_eq. eauto.
Qed.

End FullQueue.

Lemma dropped_event_buffer_is_lost_witness :
  let full := replicate 32 {| type_ := REMOTE_INPUT_CONNECTED; message := example_message 1 0 |} in
  let st := example_remote 1 false full ∅ in
  let st' := fst (remote_wsReceive 5 1 (list_byte_of_string "c1") 2 st) in
  xRemote_input st' = full /\ never_released 1%positive st'.
Proof.
  cbv zeta.
  assert (Hinv : remote_inv (example_remote 1 false
            (replicate 32 {| type_ := REMOTE_INPUT_CONNECTED;
                             message := example_message 1 0 |}) ∅)).
  { unfold remote_inv. split; [vm_compute; split; [discriminate | reflexivity] |].
    split; [vm_compute; discriminate |].
    split; [vm_compute; apply NoDup_nil_2 |].
    intros p Hp. vm_compute in Hp. inversion Hp. }
  pose proof (dropped_event_buffer_is_lost vformat_verbatim _ Hinv) as [H _];
    [vm_compute; discriminate |].
  exact (H 5 1%nat (list_byte_of_string "c1") 2).
Defined.

(** ** The handler of the embedded files *)

Section EmbeddedShape.
Variable httpdGetMimetype : string -> string.
Variable mem : Z -> byte.

(** X21. What the handler of the embedded files refuses. With the two
    pointers 32-bit addresses: if the end is not null, the request is
    refused exactly when the start is null or the file has no byte before
    its terminator (end <= start + 1). A null end is not refused as such:
    one is subtracted first, and the request passes unless the start is
    null or the last address. A request refused makes no call and leaves
    the connection as it was; a request that passes sends one chunk, of
    1024 bytes at most, after the header if nothing was sent before. *)
Theorem sendEmbedded_validation (connData : HttpdConnData) :
  0 <= cgiArg connData < 2 ^ 32 ->
  0 <= cgiArg2 connData < 2 ^ 32 ->
  let '(connData', status, calls) := remote_sendEmbedded httpdGetMimetype mem connData in
  let refused :=
    cgiArg connData = 0 \/
    (if cgiArg2 connData =? 0 then cgiArg connData = 2 ^ 32 - 1
     else cgiArg2 connData <= cgiArg connData + 1) in
  (status = HTTPD_CGI_NOTFOUND <-> refused) /\
  (refused -> connData' = connData /\ calls = []) /\
  (~ refused ->
   exists chunk,
     calls = (if cgiData connData =? 0
              then asset_headers httpdGetMimetype mem (cgiArg connData) (url connData)
              else [])
             ++ [call_httpdSend chunk] /\
     (length chunk <= 1024)%nat).
Proof.
  intros Hs He. unfold remote_sendEmbedded.
  set (guard := (cgiArg connData =? 0) || (wrap32 (cgiArg2 connData - 1) =? 0)
                || (wrap32 (cgiArg2 connData - 1) <=? cgiArg connData)).
  assert (Hguard : guard = true <->
            (cgiArg connData = 0 \/
             (if cgiArg2 connData =? 0 then cgiArg connData = 2 ^ 32 - 1
              else cgiArg2 connData <= cgiArg connData + 1))).
  { unfold guard, wrap32. rewrite !orb_true_iff, !Z.eqb_eq, Z.leb_le.
    destruct (Z.eqb_spec (cgiArg2 connData) 0) as [H0 | H0].
    - rewrite H0. change ((0 - 1) mod 2 ^ 32) with (2 ^ 32 - 1). lia.
    - rewrite Z.mod_small by lia. lia. }
  destruct guard.
  - split; [split; [intros _; apply Hguard; reflexivity | reflexivity] |].
    split; [intros _; split; reflexivity |].
    intros Hn. exfalso. apply Hn, Hguard. reflexivity.
  - assert (Hnot : ~ (cgiArg connData = 0 \/
             (if cgiArg2 connData =? 0 then cgiArg connData = 2 ^ 32 - 1
              else cgiArg2 connData <= cgiArg connData + 1)))
      by (intros H; apply Hguard in H; discriminate H).
    destruct (_ <=? 1024) eqn:Hrem.
    + split; [split; [discriminate | intros H; destruct (Hnot H)] |].
      split; [intros H; destruct (Hnot H) |].
      intros _. eexists. split; [reflexivity |].
      unfold read_mem. rewrite length_map, length_seq. lia.
    + split; [split; [discriminate | intros H; destruct (Hnot H)] |].
      split; [intros H; destruct (Hnot H) |].
      intros _. eexists. split; [reflexivity |].
      unfold read_mem. rewrite length_map, length_seq. lia.
Qed.

(** one call of the handler on a file in order, [sent] bytes sent already *)
Lemma sendEmbedded_exact (file_start file_end sent : Z) (u : string) :
  0 < file_start -> file_start + 1 < file_end -> file_end < 2 ^ 32 ->
  0 <= sent < file_end - file_start - 1 ->
  let len := file_end - file_start - 1 in
  remote_sendEmbedded httpdGetMimetype mem
    {| cgiArg := file_start; cgiArg2 := file_end; cgiData := sent; url := u |}
  = ({| cgiArg := file_start; cgiArg2 := file_end;
        cgiData := sent + Z.min 1024 (len - sent); url := u |},
     (if len - sent <=? 1024 then HTTPD_CGI_DONE else HTTPD_CGI_MORE),
     (if sent =? 0 then asset_headers httpdGetMimetype mem file_start u else [])
     ++ [call_httpdSend (read_mem mem (file_start + sent) (Z.min 1024 (len - sent)))]).
Proof.
  intros Hs He H32 Hsent. cbn zeta.
  unfold remote_sendEmbedded, asset_headers. cbn [cgiArg cgiArg2 cgiData url].
  assert (Hend : wrap32 (file_end - 1) = file_end - 1)
    by (unfold wrap32; apply Z.mod_small; lia).
  rewrite Hend.
  assert (Hlen : wrap32 (file_end - 1 - file_start) = file_end - file_start - 1)
    by (unfold wrap32; rewrite Z.mod_small by lia; lia).
  rewrite Hlen.
  assert (Hrem : wrap32 (file_end - file_start - 1 - sent) = file_end - file_start - 1 - sent)
    by (unfold wrap32; apply Z.mod_small; lia).
  rewrite Hrem.
  assert (Hg : ((file_start =? 0) || (file_end - 1 =? 0) || (file_end - 1 <=? file_start)) = false).
  { rewrite !orb_false_iff. repeat split; lia. }
  rewrite Hg.
  destruct (Z.leb_spec (file_end - file_start - 1 - sent) 1024) as [Hcase | Hcase].
  - rewrite Z.min_r by lia. unfold wrap32. rewrite Z.mod_small by lia. reflexivity.
  - rewrite Z.min_l by lia. unfold wrap32. rewrite Z.mod_small by lia. reflexivity.
Qed.

Lemma serve_trace_from (file_start file_end : Z) (u : string) :
  0 < file_start -> file_start + 1 < file_end -> file_end < 2 ^ 32 ->
  let len := file_end - file_start - 1 in
  forall (k j : nat),
    1024 * Z.of_nat k < len - 1024 * Z.of_nat j <= 1024 * Z.of_nat (S k) ->
    forall fuel : nat, (S k <= fuel)%nat ->
    httpd_serve httpdGetMimetype mem fuel
      {| cgiArg := file_start; cgiArg2 := file_end; cgiData := 1024 * Z.of_nat j; url := u |}
    = Some (HTTPD_CGI_DONE,
            (if 1024 * Z.of_nat j =? 0 then asset_headers httpdGetMimetype mem file_start u
             else [])
            ++ map (fun i => call_httpdSend (asset_chunk mem file_start file_end i))
                   (seq j (S k))).
Proof.
  intros Hs He H32 len k. induction k as [| k IH]; intros j Hk fuel Hfuel.
  - destruct fuel as [| fuel]; [lia |]. cbn [httpd_serve].
    rewrite sendEmbedded_exact by lia. fold len.
    assert (Hcase : (len - 1024 * Z.of_nat j <=? 1024) = true) by lia. rewrite Hcase.
    reflexivity.
  - destruct fuel as [| fuel]; [lia |]. cbn [httpd_serve].
    rewrite sendEmbedded_exact by lia. fold len.
    assert (Hcase : (len - 1024 * Z.of_nat j <=? 1024) = false) by lia. rewrite Hcase.
    rewrite Z.min_l by lia.
    replace (1024 * Z.of_nat j + 1024) with (1024 * Z.of_nat (S j)) by lia.
    rewrite (IH (S j)) by lia.
    assert (Hz : (1024 * Z.of_nat (S j) =? 0) = false) by (apply Z.eqb_neq; lia). rewrite Hz.
    cbn [mbind option_bind app]. rewrite <- app_assoc.
    change (seq j (S (S k))) with (j :: seq (S j) (S k)). cbn [map app].
    unfold asset_chunk at 2. fold len. rewrite Z.min_l by lia. reflexivity.
Qed.

(** X22. The whole response for an embedded file. For a file in order (a
    start that is not null, an end below 2^32, at least one byte before the
    terminator) the calls of a request are, in this order: the status 200,
    the content type of the URL, the content encoding gzip exactly when the
    file starts with the bytes 1f 8b 08, the end of the header, and then the
    chunks of the file one by one, each of 1024 bytes but the last. The
    header is sent once, by the first call of the handler. *)
Theorem asset_response (file_start file_end : Z) (u : string) (fuel : nat) :
  0 < file_start -> file_start + 1 < file_end -> file_end < 2 ^ 32 ->
  let n := Z.to_nat ((file_end - file_start - 2) / 1024 + 1) in
  (n <= fuel)%nat ->
  httpd_serve httpdGetMimetype mem fuel (httpd_request file_start file_end u)
  = Some (HTTPD_CGI_DONE,
          asset_headers httpdGetMimetype mem file_start u
          ++ map (fun i => call_httpdSend (asset_chunk mem file_start file_end i)) (seq 0 n)) /\
  (forall i, (S i < n)%nat -> length (asset_chunk mem file_start file_end i) = 1024%nat) /\
  (0 < length (asset_chunk mem file_start file_end (n - 1)) <= 1024)%nat.
Proof.
  intros Hs He H32 n Hfuel.
  pose proof (Z.div_mod (file_end - file_start - 2) 1024 ltac:(lia)) as Hdm.
  pose proof (Z.mod_pos_bound (file_end - file_start - 2) 1024 ltac:(lia)) as Hmod.
  assert (Hq : 0 <= (file_end - file_start - 2) / 1024) by (apply Z.div_pos; lia).
  assert (Hn : n = S (Z.to_nat ((file_end - file_start - 2) / 1024))) by (unfold n; lia).
  split; [| split].
  - unfold httpd_request.
    pose proof (serve_trace_from file_start file_end u Hs He H32
                  (Z.to_nat ((file_end - file_start - 2) / 1024)) 0) as H.
    cbv zeta in H. change (1024 * Z.of_nat 0) with 0 in H.
    rewrite Hn. apply H; lia.
  - intros i Hi. unfold asset_chunk, read_mem. rewrite length_map, length_seq. lia.
  - unfold asset_chunk, read_mem. rewrite length_map, length_seq. lia.
Qed.

End EmbeddedShape.

Lemma sendEmbedded_validation_witness :
  let '(_, status, calls) :=
    remote_sendEmbedded mimetype_html example_mem
      {| cgiArg := 4096; cgiArg2 := 0; cgiData := 0; url := "/index.html" |} in
  status <> HTTPD_CGI_NOTFOUND /\ calls <> [].
Proof.
  pose proof (sendEmbedded_validation mimetype_html example_mem
                {| cgiArg := 4096; cgiArg2 := 0; cgiData := 0; url := "/index.html" |}) as H.
  destruct (remote_sendEmbedded _ _ _) as [[cd status] calls].
  destruct H as (H1 & _ & H3); [cbn; lia | cbn; lia |].
  assert (Hn : ~ (4096 = 0 \/ 4096 = 2 ^ 32 - 1)) by lia.
  split.
  - intros H. apply Hn, H1, H.
  - destruct (H3 Hn) as (chunk & -> & _). discriminate.
Defined.

Lemma asset_response_witness :
  httpd_serve mimetype_html example_mem 3 (httpd_request 4096 6147 "/index.html")
  = Some (HTTPD_CGI_DONE,
          [call_httpdStartResponse 200; call_httpdHeader "Content-Type" "text/html";
           call_httpdEndHeaders;
           call_httpdSend (read_mem example_mem 4096 1024);
           call_httpdSend (read_mem example_mem 5120 1024);
           call_httpdSend (read_mem example_mem 6144 2)]).
Proof.
  destruct (asset_response mimetype_html example_mem 4096 6147 "/index.html" 3)
    as (Hrun & _); [lia | lia | lia | vm_compute; lia |].
  rewrite Hrun. reflexivity.
Defined.

(** ** The log redirector, by the text *)

Section LogLines.

Variable vformat : string -> va_list -> option (list byte).

(** X23. The log redirector, by the text of the line, when the queue has
    room. In every case the captured sink is called once, with the format
    and the arguments of the line, and its result is returned. A text of
    126 bytes at most is queued for all sockets as the letter l and the
    text. A text of 127 bytes is not taken for too long: it is queued with
    128 bytes, the letter l, its first 126 bytes and the terminating zero.
    A longer text or an error of the formatting releases the buffer, and
    the queue and the heap are as before. *)
Theorem printLog_by_text (format : string) (arguments : va_list) (st : remote_state) :
  Z.of_nat (length (xRemote_input st)) < xRemote_input_length ->
  let p := fresh (dom (heap st)) in
  let '(st', ret, calls) := remote_printLog vformat format arguments st in
  ret = defaultLog (remote st) format arguments /\
  sink_calls calls = [(format, arguments)] /\
  match vformat format arguments with
  | Some text =>
    if (length text <=? 127)%nat then
      let n := Z.of_nat (length text) + 1 in
      freed calls = [] /\
      xRemote_input st' = xRemote_input st ++ [send_event p n None] /\
      read_buffer (heap st') p n
      = "l"%byte :: (if (length text =? 127)%nat then take 126 text ++ ["000"%byte]
                     else text)
    else freed calls = [p] /\ xRemote_input st' = xRemote_input st /\ heap st' = heap st
  | None => freed calls = [p] /\ xRemote_input st' = xRemote_input st /\ heap st' = heap st
  end.
Proof.
  intros Hroom. cbv zeta.
  pose proof (printLog_passthrough vformat format arguments st) as Hsink.
  pose proof (printLog_overflow_releases vformat format arguments st) as Hover.
  pose proof (fun text => printLog_boundary_truncates vformat format arguments text st)
    as Hbound.
  cbv zeta in Hover, Hbound.
  destruct (vformat format arguments) as [text |] eqn:Htext.
  - destruct (Nat.leb_spec (length text) 127) as [Hle | Hgt].
    + destruct (Nat.eqb_spec (length text) 127) as [Heq | Hne].
      * specialize (Hbound text eq_refl Heq Hroom).
        destruct (remote_printLog vformat format arguments st) as [[st' ret] calls].
        destruct Hsink as [Hret Hcalls]. destruct Hbound as (Hf & Hq & Hh).
        rewrite Heq. change (Z.of_nat 127 + 1) with 128.
        repeat split; try assumption.
        unfold read_buffer. rewrite Hh. cbn [default]. apply take_ge.
        cbn [length]. rewrite length_app, length_take. cbn [length]. lia.
      * clear Hover Hbound Hsink.
        unfold remote_printLog, malloc, vsnprintf. rewrite Htext.
        assert (Hl : (Z.of_nat (length text) + 1 <=? 0) = false) by lia.
        assert (Hg : (Z.of_nat (length text) + 1 >? 128) = false) by lia.
        rewrite Hl, Hg. cbn [orb]. rewrite xQueueSend_cases.
        cbn [xRemote_input set_heap].
        apply Z.ltb_lt in Hroom. rewrite Hroom.
        cbn [xRemote_input set_xRemote_input set_heap heap remote].
        rewrite Z.mod_small by lia.
        repeat split.
        unfold read_buffer. rewrite lookup_alter_eq, lookup_insert_eq.
        cbn [fmap option_fmap option_map default]. unfold id.
        pose proof (printLog_buffer text ltac:(lia)) as Hbuf.
        rewrite Z.mod_small in Hbuf by lia. exact Hbuf.
    + specialize (Hover ltac:(lia)).
      destruct (remote_printLog vformat format arguments st) as [[st' ret] calls].
      destruct Hsink as [Hret Hcalls]. destruct Hover as (-> & Hh & Hq).
      repeat split; assumption.
  - specialize (Hover I).
    destruct (remote_printLog vformat format arguments st) as [[st' ret] calls].
    destruct Hsink as [Hret Hcalls]. destruct Hover as (-> & Hh & Hq).
    repeat split; assumption.
Qed.

End LogLines.

Lemma printLog_by_text_witness :
  let st := example_remote 1 false [] ∅ in
  let text := string_of_list_ascii (replicate 127 "a"%char) in
  let '(st', _, calls) := remote_printLog vformat_verbatim text [] st in
  freed calls = [] /\
  read_buffer (heap st') 1 128
  = "l"%byte :: take 126 (list_byte_of_string text) ++ ["000"%byte].
Proof.
  cbv zeta.
  pose proof (printLog_by_text vformat_verbatim
                (string_of_list_ascii (replicate 127 "a"%char)) []
                (example_remote 1 false [] ∅)) as H.
  cbv zeta in H.
  destruct (remote_printLog vformat_verbatim _ [] _) as [[st' ret] calls].
  destruct H as (_ & _ & H); [vm_compute; reflexivity |].
  destruct H as (Hf & _ & Hb). split; [exact Hf | exact Hb].
Defined.
